(** * sqless_agent: the metric resolution session engine

    A shallow embedding of the Python package [sqless_agent] (models.py,
    stores.py, intent.py, conflict.py, gate.py, clarification.py, expert.py,
    sql_generator.py, agent.py), of the session part of demo.py, and the
    properties of the session pipeline.

    Conventions of the embedding:
    - [str] is [string], read as the UTF-8 bytes of the Python string;
      substring tests on valid UTF-8 agree with those on code points.
      [str.lower] is modelled on ASCII letters; bytes of other code points
      (the CJK text of the catalog has no case) are left as they are.
    - [float] is IEEE 754 binary64, as specified by [spec_float] with
      [prec = 53] and [emax = 1024]; [int] is [Z].
    - a [@dataclass] is a record in a module of its name, [Optional[T]] is
      [option T]; a dataclass instance is truthy, so [if x:] on an
      [Optional] dataclass tests for [Some].
    - [dict] objects whose enumeration order is observed (the catalog pools)
      are insertion-ordered association lists; the others are [gmap]s and
      [set] objects are [gset]s.
    - a method that mutates its [SessionState] argument is a function to the
      new state; a method that can raise returns an [outcome].

    Not embedded: provenance.py (the offline log-mining pipeline), app.py
    (the HTTP surface), and the methods that only print a session or a
    specification ([session_report], [summarize_answers], [summary]). *)

From Stdlib Require Import ZArith List String Ascii Floats Bool Lia Permutation Sorted.
From stdpp Require Import gmap strings.
Import ListNotations.

#[local] Set Warnings "-inexact-float".
#[local] Open Scope string_scope.
#[local] Open Scope Z_scope.

(** ** Python strings *)

Module Str.

Definition lower_char (c : ascii) : ascii :=
  let n := nat_of_ascii c in
  if ((65 <=? n) && (n <=? 90))%nat then ascii_of_nat (n + 32) else c.

(** [s.lower()] *)
Fixpoint lower (s : string) : string :=
  match s with
  | EmptyString => EmptyString
  | String c t => String (lower_char c) (lower t)
  end.

(** [needle in hay] *)
Fixpoint contains (needle hay : string) : bool :=
  String.prefix needle hay ||
  match hay with
  | EmptyString => false
  | String _ t => contains needle t
  end.

(** [sep.join(parts)] *)
Fixpoint join (sep : string) (parts : list string) : string :=
  match parts with
  | [] => ""
  | [p] => p
  | p :: rest => p ++ sep ++ join sep rest
  end.

(** Truthiness of a [str]: non-empty. *)
Definition truthy (s : string) : bool :=
  match s with EmptyString => false | _ => true end.

(** Truthiness of an [Optional[str]]: present and non-empty. *)
Definition opt_truthy (o : option string) : bool :=
  match o with Some s => truthy s | None => false end.

Definition newline : string := String (ascii_of_nat 10) EmptyString.

Definition is_digit (c : ascii) : bool :=
  let n := nat_of_ascii c in ((48 <=? n) && (n <=? 57))%nat.

End Str.

(** ** Python floats and the float operations the package uses *)

Module PyFloat.

Definition t : Type := spec_float.

(** Conversion of an [int] operand in mixed arithmetic: the nearest
    binary64 (ties to even).  CPython raises [OverflowError] for an integer
    beyond the binary64 range (about 1.8e308); there this model yields an
    infinity. *)
Definition of_int (z : Z) : t := binary_normalize prec emax z 0 false.

Definition add : t -> t -> t := SF64add.
Definition sub : t -> t -> t := SF64sub.
Definition mul : t -> t -> t := SF64mul.
Definition div : t -> t -> t := SF64div.

(** [a < b], [a >= b] and [a == b] *)
Definition ltb (a b : t) : bool := SFltb a b.
Definition geb (a b : t) : bool := SFleb b a.
Definition eqb (a b : t) : bool := SFeqb a b.

(** The builtin [min(a, b)]: [b] when [b < a], else [a]. *)
Definition min (a b : t) : t := if ltb b a then b else a.

Definition is_nan (a : t) : bool :=
  match a with S754_nan => true | _ => false end.

(** The float literals of the package. *)
Definition f0_0 : t := Eval vm_compute in Prim2SF 0.0%float.
Definition f0_1 : t := Eval vm_compute in Prim2SF 0.1%float.
Definition f0_15 : t := Eval vm_compute in Prim2SF 0.15%float.
Definition f0_3 : t := Eval vm_compute in Prim2SF 0.3%float.
Definition f0_6 : t := Eval vm_compute in Prim2SF 0.6%float.
Definition f0_65 : t := Eval vm_compute in Prim2SF 0.65%float.
Definition f0_85 : t := Eval vm_compute in Prim2SF 0.85%float.
Definition f1_0 : t := Eval vm_compute in Prim2SF 1.0%float.
Definition f100_0 : t := Eval vm_compute in Prim2SF 100.0%float.

End PyFloat.

(** ** models.py *)

Module MetricMeta.
Record t := mk {
  name : string;
  aliases : list string;
  domain : string;
  description : string;
  status : string;
  owner : string;
  verified_by : option string;
  usage_count : Z;
  tags : list string
}.
Definition set_status (st : string) (m : t) : t :=
  mk (name m) (aliases m) (domain m) (description m) st (owner m) (verified_by m)
     (usage_count m) (tags m).
Definition set_usage_count (n : Z) (m : t) : t :=
  mk (name m) (aliases m) (domain m) (description m) (status m) (owner m) (verified_by m)
     n (tags m).
End MetricMeta.

Module Grain.
Record t := mk { time_granularity : string; dimensions : list string }.
End Grain.

Module TimeSemantics.
Record t := mk { event_time : string; timezone : string; business_day_rule : string }.
End TimeSemantics.

Module Filter.
Record t := mk { expr : string; desc : option string }.
End Filter.

Module IndustryMapping.
Record t := mk { type_ : string; version : string; dim_table : string; join_key : string }.
End IndustryMapping.

Module Attribution.
Record t := mk { mode : string; desc : option string }.
End Attribution.

Module Semantics.
Record t := mk {
  metric_type : string;
  default_measure : string;
  grain : Grain.t;
  time_semantics : TimeSemantics.t;
  filters : list Filter.t;
  industry_mapping : option IndustryMapping.t;
  attribution : option Attribution.t;
  metric_caliber : option string
}.
End Semantics.

Module DimensionJoin.
Record t := mk {
  dim_table : string; fact_key : string; dim_key : string; select_cols : list string
}.
End DimensionJoin.

Module PhysicalMapping.
Record t := mk {
  fact_table : string;
  time_column : string;
  measure_column : string;
  dimension_joins : list DimensionJoin.t;
  partition_hint : option string;
  sql_template : option string
}.
End PhysicalMapping.

(** The governance, security and quality blocks of a specification (dates,
    changelog, roles, validation rules) are read by no operation of the
    engine; of governance the version string is kept. *)
Module MetricSpec.
Record t := mk {
  spec_id : string;
  meta : MetricMeta.t;
  semantics : Semantics.t;
  physical : PhysicalMapping.t;
  governance_version : string
}.
Definition set_meta (m : MetricMeta.t) (s : t) : t :=
  mk (spec_id s) m (semantics s) (physical s) (governance_version s).
End MetricSpec.

Module Candidate.
Record t := mk { spec : MetricSpec.t; score : PyFloat.t }.
End Candidate.

Module ParsedIntent.
Record t := mk {
  raw_query : string;
  metrics : list string;
  dimensions : list string;
  time_range : option string;
  granularity : option string;
  filters : list string
}.
Definition set_granularity (g : option string) (i : t) : t :=
  mk (raw_query i) (metrics i) (dimensions i) (time_range i) g (filters i).
Definition set_filters (f : list string) (i : t) : t :=
  mk (raw_query i) (metrics i) (dimensions i) (time_range i) (granularity i) f.
End ParsedIntent.

Module ClarificationQuestion.
Record t := mk {
  slot : string;
  question : string;
  options : list string;
  recommended : option string
}.
End ClarificationQuestion.

Module ClarificationAnswer.
Record t := mk { slot : string; value : string }.
End ClarificationAnswer.

Module ConflictOption.
Record t := mk {
  option_id : string;
  label : string;
  consequence : string;
  apply_granularity : option string;
  apply_metric_caliber : option string
}.
End ConflictOption.

Module ConflictNotice.
Record t := mk { code : string; message : string; options : list ConflictOption.t }.
End ConflictNotice.

Module SessionState.
Record t := mk {
  session_id : string;
  user : string;
  intent : ParsedIntent.t;
  candidates : list Candidate.t;
  clarifications : gmap string ClarificationAnswer.t;
  selected_spec : option MetricSpec.t;
  confidence : PyFloat.t;
  route_expert : bool;
  conflict : option ConflictNotice.t;
  forwarded_to : option string
}.

(** [SessionState(session_id=..., user=..., intent=...)] with the defaults
    of the dataclass. *)
Definition new (sid usr : string) (i : ParsedIntent.t) : t :=
  mk sid usr i [] ∅ None PyFloat.f0_0 false None None.

Definition set_intent (i : ParsedIntent.t) (s : t) : t :=
  mk (session_id s) (user s) i (candidates s) (clarifications s)
     (selected_spec s) (confidence s) (route_expert s) (conflict s) (forwarded_to s).
Definition set_candidates (c : list Candidate.t) (s : t) : t :=
  mk (session_id s) (user s) (intent s) c (clarifications s)
     (selected_spec s) (confidence s) (route_expert s) (conflict s) (forwarded_to s).
Definition set_clarifications (c : gmap string ClarificationAnswer.t) (s : t) : t :=
  mk (session_id s) (user s) (intent s) (candidates s) c
     (selected_spec s) (confidence s) (route_expert s) (conflict s) (forwarded_to s).
Definition set_selected_spec (o : option MetricSpec.t) (s : t) : t :=
  mk (session_id s) (user s) (intent s) (candidates s) (clarifications s)
     o (confidence s) (route_expert s) (conflict s) (forwarded_to s).
Definition set_confidence (f : PyFloat.t) (s : t) : t :=
  mk (session_id s) (user s) (intent s) (candidates s) (clarifications s)
     (selected_spec s) f (route_expert s) (conflict s) (forwarded_to s).
Definition set_route_expert (b : bool) (s : t) : t :=
  mk (session_id s) (user s) (intent s) (candidates s) (clarifications s)
     (selected_spec s) (confidence s) b (conflict s) (forwarded_to s).
Definition set_conflict (c : option ConflictNotice.t) (s : t) : t :=
  mk (session_id s) (user s) (intent s) (candidates s) (clarifications s)
     (selected_spec s) (confidence s) (route_expert s) c (forwarded_to s).
End SessionState.

(** Exceptions an operation of the engine can raise. *)
Inductive exn :=
| ValueError (msg : string)
| KeyError (key : string)
| IndexError.

(** What a call does: it returns, it raises, or it leaves the fragment of
    Python modelled here (see [PyFormat.format]). *)
Inductive outcome (A : Type) :=
| Returns (a : A)
| Raises (e : exn)
| Unmodelled.
Arguments Returns {A} a.
Arguments Raises {A} e.
Arguments Unmodelled {A}.

(** ** Builtins: slicing and [list.sort] *)

(** [l[:k]]: the first [k] items, or all but the last [-k] when [k < 0]. *)
Definition slice_to {A : Type} (k : Z) (l : list A) : list A :=
  if k <? 0 then firstn (Z.to_nat (Z.of_nat (length l) + k)) l
  else firstn (Z.to_nat k) l.

(** [l.sort(key=key, reverse=True)].  The builtin sort compares keys with
    [<] only and is stable, also with [reverse=True]: items with equal keys
    keep their order.  For keys that [<] orders consistently the result is
    the one of this insertion sort, which puts an item behind the items of
    strictly greater key and in front of all others. *)
Section SortDesc.
Context {A K : Type}.
Variable key : A -> K.
Variable ltb : K -> K -> bool.

Fixpoint insert_desc (x : A) (l : list A) : list A :=
  match l with
  | [] => [x]
  | y :: l' => if ltb (key x) (key y) then y :: insert_desc x l' else x :: l
  end.

Fixpoint sort_desc (l : list A) : list A :=
  match l with
  | [] => []
  | x :: l' => insert_desc x (sort_desc l')
  end.

(** [not_below x y]: the key of [x] is not less than that of [y]. *)
Definition not_below (x y : A) : Prop := ltb (key x) (key y) = false.

End SortDesc.

(** ** stores.py *)

(** A [dict] with [str] keys in insertion order. *)
Module PyDict.

Definition t (V : Type) : Type := list (string * V).

(** [d[k] = v]: a present key keeps its position. *)
Fixpoint set {V : Type} (k : string) (v : V) (d : t V) : t V :=
  match d with
  | [] => [(k, v)]
  | (k', v') :: r => if String.eqb k' k then (k, v) :: r else (k', v') :: set k v r
  end.

Definition values {V : Type} (d : t V) : list V := map snd d.

Definition keys {V : Type} (d : t V) : list string := map fst d.

(** [d.get(k)] *)
Fixpoint get {V : Type} (k : string) (d : t V) : option V :=
  match d with
  | [] => None
  | (k', v) :: r => if String.eqb k' k then Some v else get k r
  end.

End PyDict.

Module AssetStore.

Record t := mk {
  cold_specs : PyDict.t MetricSpec.t;
  hot_specs : PyDict.t MetricSpec.t
}.

Definition empty : t := mk [] [].

Definition add_cold (spec : MetricSpec.t) (self : t) : t :=
  mk (PyDict.set (MetricSpec.spec_id spec) spec (cold_specs self)) (hot_specs self).

Definition add_hot (spec : MetricSpec.t) (self : t) : t :=
  mk (cold_specs self) (PyDict.set (MetricSpec.spec_id spec) spec (hot_specs self)).

(** The generator [get_all] reads the store; it is given with the store it
    leaves behind. *)
Definition get_all (self : t) : list MetricSpec.t * t :=
  ((PyDict.values (cold_specs self) ++ PyDict.values (hot_specs self))%list, self).

(** The two methods that revise an entry in place.  The pools hold their
    entries by value: a write is seen through the key it was made under, and
    a specification object that stands under a second key (or in a session)
    is a copy here. *)
Definition mark_verified (spec_id : string) (self : t) : t :=
  match PyDict.get spec_id (hot_specs self) with
  | Some spec =>
    mk (cold_specs self)
       (PyDict.set spec_id
          (MetricSpec.set_meta (MetricMeta.set_status "verified" (MetricSpec.meta spec)) spec)
          (hot_specs self))
  | None => self
  end.

Definition bump (spec : MetricSpec.t) : MetricSpec.t :=
  MetricSpec.set_meta
    (MetricMeta.set_usage_count (MetricMeta.usage_count (MetricSpec.meta spec) + 1)
       (MetricSpec.meta spec))
    spec.

Definition bump_usage (spec_id : string) (self : t) : t :=
  match PyDict.get spec_id (hot_specs self) with
  | Some spec => mk (cold_specs self) (PyDict.set spec_id (bump spec) (hot_specs self))
  | None =>
    match PyDict.get spec_id (cold_specs self) with
    | Some spec => mk (PyDict.set spec_id (bump spec) (cold_specs self)) (hot_specs self)
    | None => self
    end
  end.

End AssetStore.

Module CandidateSelector.

Definition _score_spec (spec : MetricSpec.t) (keywords : gset string) : PyFloat.t :=
  let meta := MetricSpec.meta spec in
  let name_tokens : gset string :=
    list_to_set (Str.lower (MetricMeta.name meta)
                 :: (map Str.lower (MetricMeta.aliases meta) ++ MetricMeta.tags meta)%list) in
  let overlap := size (keywords ∩ name_tokens) in
  let freshness :=
    if String.eqb (MetricMeta.status meta) "verified" then PyFloat.f1_0 else PyFloat.f0_85 in
  let usage_bonus :=
    PyFloat.min (PyFloat.div (PyFloat.of_int (MetricMeta.usage_count meta)) PyFloat.f100_0)
                PyFloat.f0_1 in
  PyFloat.add
    (PyFloat.add (PyFloat.mul (PyFloat.of_int (Z.of_nat overlap)) PyFloat.f0_6)
                 (PyFloat.mul freshness PyFloat.f0_3))
    usage_bonus.

Definition default_top_k : Z := 5.

(** [scored] after the loop over [get_all]. *)
Definition scored (specs : list MetricSpec.t) (keywords : gset string)
  : list (MetricSpec.t * PyFloat.t) :=
  map (fun spec => (spec, _score_spec spec keywords)) specs.

(** [scored] after [scored.sort(key=lambda item: item[1], reverse=True)]. *)
Definition ranked (specs : list MetricSpec.t) (keywords : gset string)
  : list (MetricSpec.t * PyFloat.t) :=
  sort_desc snd PyFloat.ltb (scored specs keywords).

Definition retrieve (store : AssetStore.t) (intent_keywords : list string) (top_k : Z)
  : list Candidate.t * AssetStore.t :=
  let keywords : gset string := list_to_set (map Str.lower intent_keywords) in
  let '(specs, store') := AssetStore.get_all store in
  (map (fun item => Candidate.mk (fst item) (snd item))
       (slice_to top_k (ranked specs keywords)),
   store').

End CandidateSelector.

(** ** intent.py *)

Module IntentParser.

Record t := mk { metric_keywords : option (list string) }.

(** [IntentParser()] *)
Definition default : t := mk None.

Definition month : string := "月".

(** [re.search(r"(\d{1,2})月", query)], returning group 1: the leftmost
    position at which one or two digits are followed by the month sign, two
    digits being tried first.  [\d] is taken as the ASCII digits. *)
Fixpoint search_month (query : string) : option string :=
  match query with
  | EmptyString => None
  | String c t =>
    if Str.is_digit c then
      match t with
      | String c2 t2 =>
        if Str.is_digit c2 && String.prefix month t2 then Some (String c (String c2 EmptyString))
        else if String.prefix month t then Some (String c EmptyString)
        else search_month t
      | EmptyString => None
      end
    else search_month t
  end.

Definition _extract_time_range (query : string) : option string :=
  match search_month query with
  | Some g => Some ("最近的 " ++ g ++ " 月")
  | None => None
  end.

Definition parse (self : t) (query : string) : ParsedIntent.t :=
  let keywords :=
    match metric_keywords self with
    | Some (k :: ks) => k :: ks
    | _ => ["gmv"; "订单"; "转化"]
    end in
  let metrics :=
    List.filter (fun kw => Str.contains (Str.lower kw) (Str.lower query)) keywords in
  let dimensions :=
    List.filter (fun m => Str.contains m query) ["行业"; "类目"; "渠道"] in
  let time_range := _extract_time_range query in
  let granularity :=
    if Str.contains "日" query || Str.contains "天" query then Some "天" else None in
  ParsedIntent.mk query metrics dimensions time_range granularity [].

End IntentParser.

(** ** conflict.py *)

Module ConflictDetector.

Definition settle_weekly : ConflictOption.t :=
  ConflictOption.mk "settle_weekly" "保持结算口径，粒度改为周"
    "将时间粒度调整为周以匹配结算滞后" (Some "周") None.

Definition switch_pay : ConflictOption.t :=
  ConflictOption.mk "switch_pay" "保持日粒度，改用支付口径"
    "改为支付/下单口径以获得当日数据" None (Some "支付").

Definition settle_vs_daily : ConflictNotice.t :=
  ConflictNotice.mk "settle_vs_daily"
    "检测到潜在冲突：结算口径通常有延迟，按天看波动可能不准确。"
    [settle_weekly; switch_pay].

Definition detect (intent : ParsedIntent.t) : option ConflictNotice.t :=
  let raw := ParsedIntent.raw_query intent in
  let granular :=
    match ParsedIntent.granularity intent with
    | Some g => if Str.truthy g then g else ""
    | None => ""
    end in
  let has_settlement := Str.contains "结算" raw in
  let wants_daily :=
    existsb (fun token => Str.contains token raw) ["当日"; "当天"; "日"; "天"]
    || existsb (String.eqb granular) ["天"; "日"] in
  if has_settlement && wants_daily then Some settle_vs_daily else None.

End ConflictDetector.

Definition apply_conflict_option (intent : ParsedIntent.t) (option : ConflictOption.t)
  : ParsedIntent.t :=
  let intent1 :=
    if Str.opt_truthy (ConflictOption.apply_granularity option)
    then ParsedIntent.set_granularity (ConflictOption.apply_granularity option) intent
    else intent in
  match ConflictOption.apply_metric_caliber option with
  | Some caliber =>
    if Str.truthy caliber
    then ParsedIntent.set_filters
           (ParsedIntent.filters intent1 ++ [("口径调整为" ++ caliber)%string])%list intent1
    else intent1
  | None => intent1
  end.

(** ** gate.py *)

Module UncertaintyGate.

Record t := mk { high_conf_threshold : PyFloat.t; clarifying_threshold : PyFloat.t }.

(** [UncertaintyGate()] *)
Definition default : t := mk PyFloat.f0_85 PyFloat.f0_65.

Definition evaluate (self : t) (state : SessionState.t) : SessionState.t :=
  match SessionState.candidates state with
  | [] =>
    SessionState.set_confidence PyFloat.f0_0 (SessionState.set_route_expert true state)
  | top :: rest =>
    let second_score :=
      match rest with
      | second :: _ => Candidate.score second
      | [] => PyFloat.f0_0
      end in
    let state1 := SessionState.set_confidence (Candidate.score top) state in
    if PyFloat.geb (Candidate.score top) (high_conf_threshold self)
       && PyFloat.geb (PyFloat.sub (Candidate.score top) second_score) PyFloat.f0_15
    then SessionState.set_route_expert false
           (SessionState.set_selected_spec (Some (Candidate.spec top)) state1)
    else if PyFloat.geb (Candidate.score top) (clarifying_threshold self)
    then SessionState.set_route_expert false state1
    else SessionState.set_route_expert true state1
  end.

Definition needs_clarification (state : SessionState.t) : bool :=
  match SessionState.selected_spec state with None => true | Some _ => false end.

End UncertaintyGate.

(** ** clarification.py *)

(** [collections.Counter] as far as the engine uses it: counts in first-seen
    order, and [most_common(1)], the first key of greatest count. *)
Module Counter.

Definition t : Type := list (string * Z).

Fixpoint incr (k : string) (c : t) : t :=
  match c with
  | [] => [(k, 1)]
  | (k', n) :: r => if String.eqb k' k then (k', n + 1) :: r else (k', n) :: incr k r
  end.

Fixpoint first_max (best : string * Z) (rest : t) : string * Z :=
  match rest with
  | [] => best
  | x :: r => first_max (if snd best <? snd x then x else best) r
  end.

Definition most_common_1 (c : t) : option string :=
  match c with
  | [] => None
  | x :: r => Some (fst (first_max x r))
  end.

End Counter.

Module ClarificationEngine.

Record t := mk { max_questions : Z }.

(** [ClarificationEngine()] *)
Definition default : t := mk 3.

Definition QUESTION_BANK : list ClarificationQuestion.t :=
  [ ClarificationQuestion.mk "metric_caliber" "请选择 GMV 口径"
      ["下单"; "支付"; "结算"] (Some "支付");
    ClarificationQuestion.mk "industry_mapping" "请选择行业定义"
      ["类目行业"; "商家行业"; "内容行业"] (Some "类目行业");
    ClarificationQuestion.mk "time_semantics" "请选择时间口径"
      ["自然日(UTC+8)"; "业务日"] (Some "自然日(UTC+8)") ].

Definition _slot_values_for_spec (spec : MetricSpec.t) : gmap string string :=
  let sem := MetricSpec.semantics spec in
  let values0 : gmap string string := ∅ in
  let values1 :=
    match Semantics.metric_caliber sem with
    | Some caliber =>
      if Str.truthy caliber then <["metric_caliber" := caliber]> values0 else values0
    | None => values0
    end in
  let values2 :=
    match Semantics.industry_mapping sem with
    | Some mapping =>
      let dim_table := IndustryMapping.dim_table mapping in
      <["industry_mapping" :=
          if Str.contains "merchant" dim_table || Str.contains "shop" dim_table
          then "商家行业" else "类目行业"]> values1
    | None => values1
    end in
  let rule := TimeSemantics.business_day_rule (Semantics.time_semantics sem) in
  <["time_semantics" :=
      if Str.contains "natural" rule then "自然日(UTC+8)" else "业务日"]> values2.

(** [counts] after the loop over the candidates. *)
Definition slot_counts (slot : string) (candidates : list Candidate.t) : Counter.t :=
  fold_left
    (fun counts candidate =>
       match _slot_values_for_spec (Candidate.spec candidate) !! slot with
       | Some v => if Str.truthy v then Counter.incr v counts else counts
       | None => counts
       end)
    candidates [].

Definition bank_recommended (slot : string) : option string :=
  match List.find (fun q => String.eqb (ClarificationQuestion.slot q) slot) QUESTION_BANK with
  | Some q => ClarificationQuestion.recommended q
  | None => None
  end.

Definition _recommended_value (slot : string) (state : SessionState.t) : option string :=
  let from_candidates :=
    match Counter.most_common_1 (slot_counts slot (SessionState.candidates state)) with
    | Some v => Some v
    | None => bank_recommended slot
    end in
  match SessionState.selected_spec state with
  | Some selected =>
    match _slot_values_for_spec selected !! slot with
    | Some v => Some v
    | None => from_candidates
    end
  | None => from_candidates
  end.

(** [values] after the loop over the candidates. *)
Definition slot_values (slot : string) (candidates : list Candidate.t) : gset string :=
  fold_left
    (fun values candidate =>
       match _slot_values_for_spec (Candidate.spec candidate) !! slot with
       | Some v => {[ v ]} ∪ values
       | None => values
       end)
    candidates ∅.

(** [info_gain] when it is tested against 0. *)
Definition info_gain (slot : string) (state : SessionState.t) : Z :=
  let gain := Z.of_nat (size (slot_values slot (SessionState.candidates state))) in
  match SessionState.selected_spec state with
  | Some _ => if gain =? 0 then 1 else gain
  | None => gain
  end.

(** [ranked] after the loop over the bank. *)
Definition ranked (state : SessionState.t) : list (Z * ClarificationQuestion.t) :=
  flat_map
    (fun question =>
       let slot := ClarificationQuestion.slot question in
       match SessionState.clarifications state !! slot with
       | Some _ => []
       | None =>
         let gain := info_gain slot state in
         if 0 <? gain
         then [(gain,
                ClarificationQuestion.mk slot
                  (ClarificationQuestion.question question)
                  (ClarificationQuestion.options question)
                  (_recommended_value slot state))]
         else []
       end)
    QUESTION_BANK.

Definition next_questions (self : t) (state : SessionState.t)
  : list ClarificationQuestion.t :=
  map snd (slice_to (max_questions self) (sort_desc fst Z.ltb (ranked state))).

Definition apply_answers (state : SessionState.t) (answers : list ClarificationAnswer.t)
  : SessionState.t :=
  fold_left
    (fun st ans =>
       SessionState.set_clarifications
         (<[ClarificationAnswer.slot ans := ans]> (SessionState.clarifications st)) st)
    answers state.

(** An item of the list [slot_form] returns: the [dict] with the keys
    [slot], [label], [options] and [value]. *)
Record form_item := mk_form_item {
  form_slot : string;
  form_label : string;
  form_options : list string;
  form_value : option string
}.

Definition slot_form (state : SessionState.t) : list form_item :=
  map (fun question =>
         let slot := ClarificationQuestion.slot question in
         mk_form_item slot
           (ClarificationQuestion.question question)
           (ClarificationQuestion.options question)
           match SessionState.clarifications state !! slot with
           | Some ans => Some (ClarificationAnswer.value ans)
           | None => _recommended_value slot state
           end)
      QUESTION_BANK.

End ClarificationEngine.

(** ** expert.py *)

Module ExpertRouter.

Record t := mk { owners : list string }.

Definition route (self : t) (state : SessionState.t) : list string :=
  slice_to 3 (owners self).

End ExpertRouter.

Module ExpertFeedbackApplier.

Definition apply (state : SessionState.t) (spec : MetricSpec.t) : SessionState.t :=
  SessionState.set_route_expert false (SessionState.set_selected_spec (Some spec) state).

End ExpertFeedbackApplier.

(** ** sql_generator.py *)

(** [str.format] with keyword arguments of type [str], for templates made of
    literal text, the escapes [{{] and [}}], and replacement fields [{name}].
    A field with a conversion ([!]), a format specification ([:]), an
    attribute ([.]) or an index ([[]) is outside this model. *)
Module PyFormat.

Inductive mode :=
| Text
| Opened
| Field (name : string)
| Closed.

Definition lbrace : ascii := "{"%char.
Definition rbrace : ascii := "}"%char.

Definition snoc (s : string) (c : ascii) : string := s ++ String c EmptyString.

Definition plain_name (name : string) : bool :=
  negb (Str.contains "!" name || Str.contains ":" name
        || Str.contains "." name || Str.contains "[" name).

Fixpoint all_digits (s : string) : bool :=
  match s with
  | EmptyString => true
  | String c t => Str.is_digit c && all_digits t
  end.

Fixpoint lookup (name : string) (kwargs : list (string * string)) : option string :=
  match kwargs with
  | [] => None
  | (k, v) :: r => if String.eqb k name then Some v else lookup name r
  end.

(** The value of the replacement field [{name}]: a keyword argument; an
    empty or numeric name is positional, and there is no positional
    argument. *)
Definition field_value (name : string) (kwargs : list (string * string)) : outcome string :=
  if negb (plain_name name) then Unmodelled
  else if all_digits name then
    (if (String.length name <=? 18)%nat then Raises IndexError else Unmodelled)
  else match lookup name kwargs with
       | Some v => Returns v
       | None => Raises (KeyError name)
       end.

Fixpoint scan (kwargs : list (string * string)) (m : mode) (template out : string)
  : outcome string :=
  match template with
  | EmptyString =>
    match m with
    | Text => Returns out
    | Opened => Raises (ValueError "Single '{' encountered in format string")
    | Field _ => Raises (ValueError "expected '}' before end of string")
    | Closed => Raises (ValueError "Single '}' encountered in format string")
    end
  | String c rest =>
    match m with
    | Text =>
      if Ascii.eqb c lbrace then scan kwargs Opened rest out
      else if Ascii.eqb c rbrace then scan kwargs Closed rest out
      else scan kwargs Text rest (snoc out c)
    | Opened =>
      if Ascii.eqb c lbrace then scan kwargs Text rest (snoc out lbrace)
      else if Ascii.eqb c rbrace then
        match field_value "" kwargs with
        | Returns v => scan kwargs Text rest (out ++ v)
        | Raises e => Raises e
        | Unmodelled => Unmodelled
        end
      else scan kwargs (Field (String c EmptyString)) rest out
    | Field name =>
      if Ascii.eqb c rbrace then
        match field_value name kwargs with
        | Returns v => scan kwargs Text rest (out ++ v)
        | Raises e => Raises e
        | Unmodelled => Unmodelled
        end
      else if Ascii.eqb c lbrace then
        (if plain_name name
         then Raises (ValueError "unexpected '{' in field name")
         else Unmodelled)
      else scan kwargs (Field (snoc name c)) rest out
    | Closed =>
      if Ascii.eqb c rbrace then scan kwargs Text rest (snoc out rbrace)
      else Raises (ValueError "Single '}' encountered in format string")
    end
  end.

Definition format (template : string) (kwargs : list (string * string)) : outcome string :=
  scan kwargs Text template "".

End PyFormat.

Module SQLGenerator.

Definition default_template : string :=
  "-- Show Your Work: {fact_table} / {time_column} / {measure_column}" ++ Str.newline ++
  "SELECT {time_bucket} AS time_bucket, SUM({measure_column}) AS metric" ++ Str.newline ++
  "FROM {fact_table}" ++ Str.newline ++
  "WHERE {time_column} IS NOT NULL AND {where_clause}" ++ Str.newline ++
  "GROUP BY {time_bucket}" ++ Str.newline ++
  "ORDER BY {time_bucket};".

(** The line appended to [where_parts] for an answered slot. *)
Definition clarification_part (state : SessionState.t) (slot prefix : string) : list string :=
  match SessionState.clarifications state !! slot with
  | Some ans => [prefix ++ ClarificationAnswer.value ans]
  | None => []
  end.

Definition where_parts (spec : MetricSpec.t) (state : SessionState.t) : list string :=
  (map Filter.expr (Semantics.filters (MetricSpec.semantics spec))
   ++ match ParsedIntent.time_range (SessionState.intent state) with
      | Some tr => if Str.truthy tr then [("-- 时间范围: " ++ tr)%string] else []
      | None => []
      end
   ++ clarification_part state "metric_caliber" "-- 口径: "
   ++ clarification_part state "industry_mapping" "-- 行业映射: "
   ++ clarification_part state "time_semantics" "-- 时间口径: ")%list.

Definition slots (spec : MetricSpec.t) : list (string * string) :=
  [ ("time_bucket", Grain.time_granularity (Semantics.grain (MetricSpec.semantics spec)));
    ("fact_table", PhysicalMapping.fact_table (MetricSpec.physical spec));
    ("time_column", PhysicalMapping.time_column (MetricSpec.physical spec));
    ("measure_column", PhysicalMapping.measure_column (MetricSpec.physical spec)) ].

Definition where_clause (spec : MetricSpec.t) (state : SessionState.t) : string :=
  match where_parts spec state with
  | [] => "1=1"
  | parts => Str.join (Str.newline ++ "    AND ") parts
  end.

Definition template (spec : MetricSpec.t) : string :=
  match PhysicalMapping.sql_template (MetricSpec.physical spec) with
  | Some tpl => if Str.truthy tpl then tpl else default_template
  | None => default_template
  end.

Definition render (spec : MetricSpec.t) (state : SessionState.t) : outcome string :=
  PyFormat.format (template spec) (("where_clause", where_clause spec state) :: slots spec).

End SQLGenerator.

(** ** agent.py *)

Module MetricAgent.

Record t := mk {
  store : AssetStore.t;
  parser : IntentParser.t;
  gate : UncertaintyGate.t;
  clarifier : ClarificationEngine.t;
  expert_router : ExpertRouter.t
}.

(** [MetricAgent(store, owners)] *)
Definition new (store : AssetStore.t) (owners : list string) : t :=
  mk store IntentParser.default UncertaintyGate.default ClarificationEngine.default
     (ExpertRouter.mk owners).

(** The session of [start_session] right after [self.gate.evaluate(session)].
    [session_id] stands for the fresh [uuid.uuid4()]. *)
Definition start_session_gated (self : t) (session_id query user : string) : SessionState.t :=
  let intent := IntentParser.parse (parser self) query in
  let session := SessionState.new session_id user intent in
  let session := SessionState.set_conflict (ConflictDetector.detect intent) session in
  let keywords :=
    match ParsedIntent.metrics intent with
    | [] => [query]
    | metrics => metrics
    end in
  let session :=
    SessionState.set_candidates
      (fst (CandidateSelector.retrieve (store self) keywords CandidateSelector.default_top_k))
      session in
  UncertaintyGate.evaluate (gate self) session.

Definition start_session (self : t) (session_id query user : string) (force_expert : bool)
  : SessionState.t :=
  let session := start_session_gated self session_id query user in
  let session :=
    match SessionState.conflict session with
    | Some _ => SessionState.set_route_expert true session
    | None => session
    end in
  if force_expert then SessionState.set_route_expert true session else session.

Definition clarify (self : t) (state : SessionState.t) (answers : list ClarificationAnswer.t)
  : SessionState.t :=
  let state := ClarificationEngine.apply_answers state answers in
  match SessionState.candidates state with
  | top :: _ => SessionState.set_selected_spec (Some (Candidate.spec top)) state
  | [] => state
  end.

(** The result of the call and the session it leaves. *)
Definition generate_sql (self : t) (state : SessionState.t)
  : outcome string * SessionState.t :=
  match SessionState.selected_spec state with
  | None => (Raises (ValueError "No spec selected; cannot generate SQL"), state)
  | Some spec => (SQLGenerator.render spec state, state)
  end.

Definition route_to_expert (self : t) (state : SessionState.t) : list string :=
  ExpertRouter.route (expert_router self) state.

(** [chosen = (spec or state.candidates[0]).spec if state.candidates else None]:
    the conditional expression binds weaker than [or]. *)
Definition apply_expert_decision (self : t) (state : SessionState.t)
  (spec : option Candidate.t) : SessionState.t :=
  let chosen :=
    match SessionState.candidates state with
    | top :: _ =>
      Some (Candidate.spec match spec with Some c => c | None => top end)
    | [] => None
    end in
  match chosen with
  | Some c => ExpertFeedbackApplier.apply state c
  | None => state
  end.

Definition resolve_conflict (self : t) (state : SessionState.t) (option_id : string)
  : SessionState.t :=
  match SessionState.conflict state with
  | None => state
  | Some notice =>
    match List.find (fun opt => String.eqb (ConflictOption.option_id opt) option_id)
                    (ConflictNotice.options notice) with
    | None => state
    | Some option =>
      SessionState.set_conflict None
        (SessionState.set_intent
           (apply_conflict_option (SessionState.intent state) option) state)
    end
  end.

End MetricAgent.


(** ** sample_data.py *)

Module SampleData.

Definition category_join (dim_table : string) : DimensionJoin.t :=
  DimensionJoin.mk dim_table "category_id" "category_id" ["industry_id"; "industry_name"].

Definition gmv_spec : MetricSpec.t :=
  MetricSpec.mk "spec_pay_gmv_v2"
    (MetricMeta.mk "行业GMV" ["GMV"; "成交额"; "行业成交额"] "commerce.trade"
       "支付口径 GMV，默认剔除退款与风控单" "verified" "owner@datateam.com"
       (Some "lead@datateam.com") 0 ["gmv"; "industry"; "trend"])
    (Semantics.mk "amount" "pay_gmv_amt" (Grain.mk "day" ["industry_id"])
       (TimeSemantics.mk "pay_time" "Asia/Shanghai" "natural_day")
       [Filter.mk "is_risk_order = 0" (Some "剔除风控单");
        Filter.mk "is_refund = 0" (Some "剔除退款单")]
       (Some (IndustryMapping.mk "category_tree" "v3" "dim_category_industry_v3" "category_id"))
       (Some (Attribution.mk "none" (Some "不做渠道归因")))
       (Some "支付"))
    (PhysicalMapping.mk "dws_trade_order_day" "pay_date" "pay_gmv_amt"
       [category_join "dim_category_industry_v3"] (Some "pay_date") None)
    "v2".

Definition order_spec : MetricSpec.t :=
  MetricSpec.mk "spec_order_cnt_v1"
    (MetricMeta.mk "订单量" ["订单数"] "commerce.trade"
       "按行业统计订单量，默认剔除风控单" "draft" "owner@datateam.com"
       None 0 ["order"; "industry"])
    (Semantics.mk "count" "order_cnt" (Grain.mk "day" ["industry_id"])
       (TimeSemantics.mk "order_time" "Asia/Shanghai" "natural_day")
       [Filter.mk "is_risk_order = 0" (Some "剔除风控单")]
       (Some (IndustryMapping.mk "category_tree" "v2" "dim_category_industry_v2" "category_id"))
       None
       (Some "下单"))
    (PhysicalMapping.mk "dws_trade_order_day" "order_date" "order_cnt"
       [category_join "dim_category_industry_v2"] (Some "order_date") None)
    "v1".

Definition settle_spec : MetricSpec.t :=
  MetricSpec.mk "spec_settle_gmv_v1"
    (MetricMeta.mk "行业GMV（结算口径）" ["结算GMV"; "行业结算额"] "commerce.finance"
       "按结算口径统计的行业 GMV，周粒度，默认剔除风控单" "draft" "finance@datateam.com"
       None 0 ["gmv"; "settle"; "industry"])
    (Semantics.mk "amount" "settle_gmv_amt" (Grain.mk "week" ["industry_id"])
       (TimeSemantics.mk "settle_time" "Asia/Shanghai" "settlement_day")
       [Filter.mk "is_risk_order = 0" (Some "剔除风控单")]
       (Some (IndustryMapping.mk "category_tree" "v3" "dim_category_industry_v3" "category_id"))
       None
       (Some "结算"))
    (PhysicalMapping.mk "dws_trade_settle_week" "settle_week" "settle_gmv_amt"
       [category_join "dim_category_industry_v3"] (Some "settle_week") None)
    "v1".

Definition pay_raw_spec : MetricSpec.t :=
  MetricSpec.mk "spec_pay_gmv_v1"
    (MetricMeta.mk "行业GMV（支付含退款）" ["支付GMV（含退款）"] "commerce.trade"
       "支付口径 GMV，包含退款以便对账" "verified" "owner@datateam.com"
       (Some "lead@datateam.com") 0 ["gmv"; "industry"; "attribution"])
    (Semantics.mk "amount" "pay_gmv_amt" (Grain.mk "day" ["industry_id"])
       (TimeSemantics.mk "pay_time" "Asia/Shanghai" "natural_day")
       [Filter.mk "is_risk_order = 0" (Some "剔除风控单")]
       (Some (IndustryMapping.mk "category_tree" "v2" "dim_category_industry_v2" "category_id"))
       (Some (Attribution.mk "content_channel" (Some "按内容渠道归因")))
       (Some "支付"))
    (PhysicalMapping.mk "dws_trade_order_day" "pay_date" "pay_gmv_amt"
       [category_join "dim_category_industry_v2"] (Some "pay_date") None)
    "v1".

Definition build_default_specs : list MetricSpec.t :=
  [gmv_spec; pay_raw_spec; settle_spec; order_spec].

(** The store and the agent of demo.py. *)
Definition demo_store : AssetStore.t :=
  fold_left (fun store spec => AssetStore.add_cold spec store) build_default_specs
            AssetStore.empty.

Definition demo_agent : MetricAgent.t :=
  MetricAgent.new demo_store ["owner@datateam.com"; "lead@datateam.com"].

End SampleData.

(** ** demo.py *)

(** The session part of [main], with the agent and the query as parameters
    ([session_id] stands for the fresh identifier as in
    [MetricAgent.start_session]); the listing it prints is left out. *)
Module Demo.

(** [ClarificationAnswer(slot=q.slot, value=q.recommended or q.options[0])] *)
Definition answer_for (q : ClarificationQuestion.t) : outcome ClarificationAnswer.t :=
  let slot := ClarificationQuestion.slot q in
  let first_option :=
    match ClarificationQuestion.options q with
    | o :: _ => Returns (ClarificationAnswer.mk slot o)
    | [] => Raises IndexError
    end in
  match ClarificationQuestion.recommended q with
  | Some r => if Str.truthy r then Returns (ClarificationAnswer.mk slot r) else first_option
  | None => first_option
  end.

Fixpoint answers_for (questions : list ClarificationQuestion.t)
  : outcome (list ClarificationAnswer.t) :=
  match questions with
  | [] => Returns []
  | q :: rest =>
    match answer_for q with
    | Returns a =>
      match answers_for rest with
      | Returns l => Returns (a :: l)
      | Raises e => Raises e
      | Unmodelled => Unmodelled
      end
    | Raises e => Raises e
    | Unmodelled => Unmodelled
    end
  end.

(** The session as it stands when [generate_sql] is called, or the
    exception of the answer list. *)
Definition prepare (agent : MetricAgent.t) (session_id query : string)
  : outcome SessionState.t :=
  let session := MetricAgent.start_session agent session_id query "alice" false in
  let session :=
    if SessionState.route_expert session
    then MetricAgent.apply_expert_decision agent session None
    else session in
  if UncertaintyGate.needs_clarification session then
    match answers_for (ClarificationEngine.next_questions (MetricAgent.clarifier agent) session) with
    | Returns answers => Returns (MetricAgent.clarify agent session answers)
    | Raises e => Raises e
    | Unmodelled => Unmodelled
    end
  else Returns session.

Definition run (agent : MetricAgent.t) (session_id query : string) : outcome string :=
  match prepare agent session_id query with
  | Returns session => fst (MetricAgent.generate_sql agent session)
  | Raises e => Raises e
  | Unmodelled => Unmodelled
  end.

End Demo.

(** ** The retriever's score as the specification words it

    0.6 times the number of keywords among the lowercased name, aliases and
    tags, plus 0.3 times the freshness, plus the usage bonus.  It differs
    from [CandidateSelector._score_spec] in lowercasing the tags. *)
Definition score_as_specified (spec : MetricSpec.t) (keywords : gset string) : PyFloat.t :=
  let meta := MetricSpec.meta spec in
  let name_tokens : gset string :=
    list_to_set (map Str.lower
                   (MetricMeta.name meta
                    :: (MetricMeta.aliases meta ++ MetricMeta.tags meta)%list)) in
  let overlap := size (keywords ∩ name_tokens) in
  let freshness :=
    if String.eqb (MetricMeta.status meta) "verified" then PyFloat.f1_0 else PyFloat.f0_85 in
  let usage_bonus :=
    PyFloat.min (PyFloat.div (PyFloat.of_int (MetricMeta.usage_count meta)) PyFloat.f100_0)
                PyFloat.f0_1 in
  PyFloat.add
    (PyFloat.add (PyFloat.mul PyFloat.f0_6 (PyFloat.of_int (Z.of_nat overlap)))
                 (PyFloat.mul PyFloat.f0_3 freshness))
    usage_bonus.

(** ** The measures of the clarification ranking *)

(** The number of distinct values the candidates give a slot. *)
Definition distinct_values (slot : string) (state : SessionState.t) : Z :=
  Z.of_nat (size (ClarificationEngine.slot_values slot (SessionState.candidates state))).

(** The information gain the engine ranks a question by. *)
Definition question_gain (state : SessionState.t) (q : ClarificationQuestion.t) : Z :=
  ClarificationEngine.info_gain (ClarificationQuestion.slot q) state.

(** The last answer of a list for a slot. *)
Definition last_answer (slot : string) (answers : list ClarificationAnswer.t)
  : option ClarificationAnswer.t :=
  List.find (fun ans => String.eqb (ClarificationAnswer.slot ans) slot) (rev answers).

(** ** The order of binary64 values, by rank *)

Module PyFloatOrder.

(** A rank whose lexicographic order is the order of the floats that are
    not NaN (the two zeros share a rank). *)
Definition rank (x : spec_float) : Z * Z * Z :=
  match x with
  | S754_nan => (0, 0, 0)
  | S754_zero _ => (0, 0, 0)
  | S754_infinity s => (if s then -2 else 2, 0, 0)
  | S754_finite s m e => if s then (-1, - e, Zneg m) else (1, e, Zpos m)
  end.

Definition lex3 (p q : Z * Z * Z) : comparison :=
  let '(a, b, c) := p in
  let '(a', b', c') := q in
  match a ?= a' with
  | Eq => match b ?= b' with Eq => c ?= c' | r => r end
  | r => r
  end.

(** The floats that are zero, positive or plus infinity. *)
Definition nonneg (x : spec_float) : bool :=
  match x with
  | S754_nan => false
  | S754_zero _ => true
  | S754_infinity s => negb s
  | S754_finite s _ _ => negb s
  end.

End PyFloatOrder.

(** ** Specifications and sessions the properties are evaluated at *)

(** A verified entry that only its tag ["GMV"] links to the keyword
    ["gmv"]. *)
Definition upper_tag_spec : MetricSpec.t :=
  MetricSpec.mk "spec_upper_tag"
    (MetricMeta.mk "成交额" [] "commerce.trade" "" "verified" "owner@datateam.com" None 0 ["GMV"])
    (MetricSpec.semantics SampleData.gmv_spec)
    (MetricSpec.physical SampleData.gmv_spec)
    "v1".

(** A specification whose template override names a placeholder that the
    renderer does not supply. *)
Definition templated_spec : MetricSpec.t :=
  MetricSpec.mk "spec_pay_gmv_tpl"
    (MetricSpec.meta SampleData.gmv_spec)
    (MetricSpec.semantics SampleData.gmv_spec)
    (PhysicalMapping.mk "dws_trade_order_day" "pay_date" "pay_gmv_amt"
       [SampleData.category_join "dim_category_industry_v3"] (Some "pay_date")
       (Some "SELECT {time_bucket}, SUM({measure_column}) AS {metric} FROM {fact_table}"))
    "v2".

(** A verified specification without a caliber label. *)
Definition uncalibrated_spec : MetricSpec.t :=
  MetricSpec.mk "spec_gmv_raw"
    (MetricSpec.meta SampleData.gmv_spec)
    (Semantics.mk "amount" "pay_gmv_amt" (Grain.mk "day" ["industry_id"])
       (TimeSemantics.mk "pay_time" "Asia/Shanghai" "natural_day") []
       (Some (IndustryMapping.mk "category_tree" "v3" "dim_category_industry_v3" "category_id"))
       None None)
    (MetricSpec.physical SampleData.gmv_spec)
    "v1".

(** The session of the query ["GMV"] on a catalog holding
    [uncalibrated_spec] only: the gate selects it. *)
Definition uncalibrated_session : SessionState.t :=
  MetricAgent.start_session
    (MetricAgent.new (AssetStore.add_cold uncalibrated_spec AssetStore.empty) [])
    "sid" "GMV" "alice" false.

(** The session of a query on an empty catalog: no candidates, and the
    gate has routed it to an expert. *)
Definition routed_empty_session : SessionState.t :=
  MetricAgent.start_session (MetricAgent.new AssetStore.empty []) "sid" "退货率" "alice" false.

(** The session of demo.py. *)
Definition demo_session : SessionState.t :=
  MetricAgent.start_session SampleData.demo_agent "sid" "12月行业GMV走势" "alice" false.

(** The session of the query ["结算GMV当日走势"] on the catalog of
    demo.py, after the expert has confirmed the top candidate. *)
Definition settlement_session : SessionState.t :=
  MetricAgent.apply_expert_decision SampleData.demo_agent
    (MetricAgent.start_session SampleData.demo_agent "sid" "结算GMV当日走势" "alice" false)
    None.

(** The session of the query ["GMV"] on a catalog of the two payment GMV
    specifications and the settlement one: two caliber values, one
    industry mapping. *)
Definition gmv_session : SessionState.t :=
  MetricAgent.start_session
    (MetricAgent.new
       (AssetStore.add_cold SampleData.settle_spec
          (AssetStore.add_cold SampleData.pay_raw_spec
             (AssetStore.add_cold SampleData.gmv_spec AssetStore.empty))) [])
    "sid" "GMV" "alice" false.


(** What the renderer reads of a session: the time range of the intent and
    the values answered for its three slots. *)
Definition sql_inputs (state : SessionState.t) : option string * list (option string) :=
  (ParsedIntent.time_range (SessionState.intent state),
   map (fun slot => ClarificationAnswer.value <$> SessionState.clarifications state !! slot)
       ["metric_caliber"; "industry_mapping"; "time_semantics"]).

(** A specification whose template override is a fixed statement. *)
Definition literal_spec : MetricSpec.t :=
  MetricSpec.mk "spec_gmv_literal"
    (MetricSpec.meta SampleData.gmv_spec)
    (MetricSpec.semantics SampleData.gmv_spec)
    (PhysicalMapping.mk "dws_trade_order_day" "pay_date" "pay_gmv_amt"
       [SampleData.category_join "dim_category_industry_v3"] (Some "pay_date")
       (Some "SELECT pay_date, SUM(pay_gmv_amt) FROM dws_trade_order_day GROUP BY pay_date"))
    "v2".

(** ** The measures of the recommended value *)

(** The values the candidates give a slot, in candidate order. *)
Definition candidate_values (slot : string) (candidates : list Candidate.t) : list string :=
  flat_map
    (fun candidate =>
       match ClarificationEngine._slot_values_for_spec (Candidate.spec candidate) !! slot with
       | Some v => [v]
       | None => []
       end)
    candidates.

(** How often a value occurs in a list. *)
Definition occurrences (v : string) (l : list string) : Z :=
  Z.of_nat (count_occ string_dec l v).

(** The [Counter] of a list of values. *)
Definition tally (l : list string) : Counter.t :=
  fold_left (fun counts v => Counter.incr v counts) l [].
(** * Properties *)

(** ** The stable descending sort *)

Section SortDescFacts.
Context {A K : Type}.
Variable key : A -> K.
Variable ltb : K -> K -> bool.

Lemma insert_desc_perm (x : A) (l : list A) :
  Permutation (insert_desc key ltb x l) (x :: l).
Proof.
  induction l as [|y l IH]; simpl; [reflexivity|].
  destruct (ltb (key x) (key y)); [|reflexivity].
  rewrite IH. apply perm_swap.
Qed.

Lemma sort_desc_perm (l : list A) : Permutation (sort_desc key ltb l) l.
Proof.
  induction l as [|x l IH]; simpl; [reflexivity|].
  rewrite insert_desc_perm. now constructor.
Qed.

Lemma sort_desc_length (l : list A) : length (sort_desc key ltb l) = length l.
Proof. apply Permutation_length, sort_desc_perm. Qed.

(** Sortedness needs [ltb] to behave as a strict weak order on the keys at
    hand ([good] keys: for floats, the ones that are not NaN). *)
Variable good : K -> Prop.
Hypothesis ltb_asym : forall a b, good a -> good b -> ltb a b = true -> ltb b a = false.
Hypothesis ltb_negtrans : forall a b c, good a -> good b -> good c ->
  ltb a b = false -> ltb b c = false -> ltb a c = false.

Lemma insert_desc_sorted (x : A) (l : list A) :
  good (key x) -> Forall (fun y => good (key y)) l ->
  StronglySorted (not_below key ltb) l -> StronglySorted (not_below key ltb) (insert_desc key ltb x l).
Proof.
  intros Hx Hl Hs. induction l as [|y l IH]; simpl.
  - repeat constructor.
  - inversion Hl as [|? ? Hy Hl']; subst. inversion Hs as [|? ? Hs' Hall]; subst.
    destruct (ltb (key x) (key y)) eqn:E.
    + constructor; [now apply IH|].
      apply (Permutation_Forall (x := x :: l)); [symmetry; apply insert_desc_perm|].
      constructor; [now apply ltb_asym|assumption].
    + constructor; [assumption|]. constructor; [exact E|].
      rewrite Forall_forall in Hall, Hl' |- *. intros z Hz.
      apply (ltb_negtrans _ (key y)); auto. now apply Hall.
Qed.

Lemma sort_desc_sorted (l : list A) :
  Forall (fun y => good (key y)) l -> StronglySorted (not_below key ltb) (sort_desc key ltb l).
Proof.
  induction l as [|x l IH]; simpl; intros Hl; [constructor|].
  inversion Hl; subst. apply insert_desc_sorted; auto.
  apply (Permutation_Forall (x := l)); [symmetry; apply sort_desc_perm|assumption].
Qed.

(** Stability: the items whose key equals a given one keep their order. *)
Variable eqv : K -> K -> bool.
Hypothesis ltb_eqv : forall a b v, ltb a b = true -> eqv a v = true -> eqv b v = false.

Lemma insert_desc_filter (v : K) (x : A) (l : list A) :
  List.filter (fun y => eqv (key y) v) (insert_desc key ltb x l)
  = List.filter (fun y => eqv (key y) v) (x :: l).
Proof.
  induction l as [|y l IH]; [reflexivity|]. simpl in *.
  destruct (ltb (key x) (key y)) eqn:E; [|reflexivity]. simpl. rewrite IH.
  destruct (eqv (key x) v) eqn:Ex; [|reflexivity].
  now rewrite (ltb_eqv _ _ _ E Ex).
Qed.

Lemma sort_desc_stable (v : K) (l : list A) :
  List.filter (fun y => eqv (key y) v) (sort_desc key ltb l)
  = List.filter (fun y => eqv (key y) v) l.
Proof.
  induction l as [|x l IH]; [reflexivity|]. simpl sort_desc.
  rewrite insert_desc_filter. simpl. now rewrite IH.
Qed.

End SortDescFacts.

Lemma slice_to_length {A : Type} (k : Z) (l : list A) :
  0 <= k -> Z.of_nat (length (slice_to k l)) <= k.
Proof.
  intros Hk. unfold slice_to. destruct (Z.ltb_spec k 0); [lia|].
  rewrite length_firstn. lia.
Qed.

Lemma slice_to_nonneg {A : Type} (k : Z) (l : list A) :
  0 <= k -> slice_to k l = firstn (Z.to_nat k) l.
Proof. intros Hk. unfold slice_to. destruct (Z.ltb_spec k 0); [lia|reflexivity]. Qed.

Lemma slice_to_prefix {A : Type} (k : Z) (l : list A) :
  exists n, slice_to k l = firstn n l.
Proof. unfold slice_to. destruct (k <? 0); eauto. Qed.

Lemma slice_to_all {A : Type} (k : Z) (l : list A) :
  Z.of_nat (length l) <= k -> slice_to k l = l.
Proof.
  intros Hk. unfold slice_to. destruct (Z.ltb_spec k 0); [lia|].
  apply firstn_all2. lia.
Qed.

Lemma StronglySorted_firstn {A : Type} (R : A -> A -> Prop) (n : nat) (l : list A) :
  StronglySorted R l -> StronglySorted R (firstn n l).
Proof.
  intros Hs. revert n. induction Hs as [|x l Hs IH Hall]; intros [|n]; simpl; try constructor.
  - apply IH.
  - rewrite List.Forall_forall in *. intros y Hy. apply Hall.
    rewrite <- (firstn_skipn n l). apply in_or_app. now left.
Qed.

(** ** The order of binary64 values *)

Module PyFloatFacts.
Import PyFloatOrder.

Lemma SFcompare_rank (x y : spec_float) :
  PyFloat.is_nan x = false -> PyFloat.is_nan y = false ->
  SFcompare x y = Some (lex3 (rank x) (rank y)).
Proof.
  destruct x as [sx|sx| |sx mx ex], y as [sy|sy| |sy my ey];
    try discriminate; intros _ _; simpl;
    try (destruct sx; reflexivity); try (destruct sy; reflexivity);
    try (destruct sx, sy; reflexivity).
  destruct sx, sy; simpl; try reflexivity.
  rewrite Z.compare_opp, (Z.compare_antisym ex ey).
  destruct (ex ?= ey); reflexivity.
Qed.

Ltac lex3_cases :=
  unfold lex3;
  repeat match goal with
         | p : (Z * Z * Z)%type |- _ => destruct p as [[? ?] ?]
         end;
  repeat match goal with
         | |- context [?a ?= ?b] => destruct (Z.compare_spec a b)
         | H : context [?a ?= ?b] |- _ => destruct (Z.compare_spec a b)
         end;
  try discriminate; try congruence; try lia.

Lemma lex3_antisym (p q : Z * Z * Z) : lex3 q p = CompOpp (lex3 p q).
Proof. lex3_cases; simpl; try reflexivity; lia. Qed.

Lemma lex3_not_lt_trans (p q r : Z * Z * Z) :
  lex3 p q <> Lt -> lex3 q r <> Lt -> lex3 p r <> Lt.
Proof. intros H1 H2 H3. revert H1 H2 H3. lex3_cases. Qed.

Lemma lex3_eq_trans_lt (p q v : Z * Z * Z) :
  lex3 p q = Lt -> lex3 p v = Eq -> lex3 q v <> Eq.
Proof. intros H1 H2 H3. revert H1 H2 H3. lex3_cases. Qed.

Lemma ltb_not_nan (a b : PyFloat.t) :
  PyFloat.ltb a b = true -> PyFloat.is_nan a = false /\ PyFloat.is_nan b = false.
Proof. destruct a, b; try discriminate; auto. Qed.

Lemma eqb_not_nan (a b : PyFloat.t) :
  PyFloat.eqb a b = true -> PyFloat.is_nan a = false /\ PyFloat.is_nan b = false.
Proof. destruct a, b; try discriminate; auto. Qed.

(** [a < b] excludes [a >= b]. *)
Lemma ltb_geb (a b : PyFloat.t) : PyFloat.ltb a b = true -> PyFloat.geb a b = false.
Proof.
  intros H. destruct (ltb_not_nan _ _ H) as [Ha Hb]. revert H.
  unfold PyFloat.ltb, PyFloat.geb, SFltb, SFleb.
  rewrite (SFcompare_rank a b Ha Hb), (SFcompare_rank b a Hb Ha), (lex3_antisym (rank a) (rank b)).
  destruct (lex3 (rank a) (rank b)); simpl; congruence.
Qed.

(** Among floats that are not NaN, [a >= b] is the failure of [a < b]. *)
Lemma geb_ltb (a b : PyFloat.t) :
  PyFloat.is_nan a = false -> PyFloat.is_nan b = false ->
  PyFloat.geb a b = negb (PyFloat.ltb a b).
Proof.
  intros Ha Hb. unfold PyFloat.ltb, PyFloat.geb, SFltb, SFleb.
  rewrite (SFcompare_rank a b Ha Hb), (SFcompare_rank b a Hb Ha), (lex3_antisym (rank a) (rank b)).
  destruct (lex3 (rank a) (rank b)); reflexivity.
Qed.

Lemma ltb_asym (a b : PyFloat.t) : PyFloat.ltb a b = true -> PyFloat.ltb b a = false.
Proof.
  intros H. destruct (ltb_not_nan _ _ H) as [Ha Hb]. revert H.
  unfold PyFloat.ltb, SFltb.
  rewrite (SFcompare_rank a b Ha Hb), (SFcompare_rank b a Hb Ha), (lex3_antisym (rank a) (rank b)).
  destruct (lex3 (rank a) (rank b)); simpl; congruence.
Qed.

Lemma ltb_negtrans (a b c : PyFloat.t) :
  PyFloat.is_nan a = false -> PyFloat.is_nan b = false -> PyFloat.is_nan c = false ->
  PyFloat.ltb a b = false -> PyFloat.ltb b c = false -> PyFloat.ltb a c = false.
Proof.
  intros Ha Hb Hc. unfold PyFloat.ltb, SFltb.
  rewrite (SFcompare_rank a b Ha Hb), (SFcompare_rank b c Hb Hc), (SFcompare_rank a c Ha Hc).
  pose proof (lex3_not_lt_trans (rank a) (rank b) (rank c)) as T.
  destruct (lex3 (rank a) (rank b)), (lex3 (rank b) (rank c)), (lex3 (rank a) (rank c));
    try reflexivity; try discriminate; intros _ _; exfalso; apply T; congruence.
Qed.

(** Of two floats one of which is below the other, at most one equals a
    given float. *)
Lemma ltb_eqb (a b v : PyFloat.t) :
  PyFloat.ltb a b = true -> PyFloat.eqb a v = true -> PyFloat.eqb b v = false.
Proof.
  intros H1 H2. destruct (ltb_not_nan _ _ H1) as [Ha Hb].
  destruct (eqb_not_nan _ _ H2) as [_ Hv]. revert H1 H2.
  unfold PyFloat.ltb, PyFloat.eqb, SFltb, SFeqb.
  rewrite (SFcompare_rank a b Ha Hb), (SFcompare_rank a v Ha Hv), (SFcompare_rank b v Hb Hv).
  pose proof (lex3_eq_trans_lt (rank a) (rank b) (rank v)) as T.
  destruct (lex3 (rank a) (rank b)), (lex3 (rank a) (rank v)), (lex3 (rank b) (rank v));
    try reflexivity; try discriminate; intros _ _; exfalso; apply T; congruence.
Qed.

(** *** Floats that are zero, positive or plus infinity *)

Lemma nonneg_not_nan (x : spec_float) : nonneg x = true -> PyFloat.is_nan x = false.
Proof. destruct x; simpl; congruence. Qed.

Lemma shr_1_nonneg (mrs : shr_record) : 0 <= shr_m mrs -> 0 <= shr_m (shr_1 mrs).
Proof.
  destruct mrs as [m r s]. simpl. destruct m as [|p|p]; simpl; try lia.
  - destruct p; simpl; lia.
Qed.

Lemma iter_shr_1_nonneg (p : positive) (mrs : shr_record) :
  0 <= shr_m mrs -> 0 <= shr_m (SpecFloat.iter_pos shr_1 p mrs).
Proof.
  revert mrs. induction p as [p IH|p IH|]; intros mrs H; simpl.
  - apply IH, IH, shr_1_nonneg, H.
  - apply IH, IH, H.
  - apply shr_1_nonneg, H.
Qed.

Lemma shr_fexp_nonneg (m e : Z) (l : location) :
  0 <= m -> 0 <= shr_m (fst (shr_fexp prec emax m e l)).
Proof.
  intros Hm. unfold shr_fexp, shr.
  assert (H0 : 0 <= shr_m (shr_record_of_loc m l)).
  { destruct l as [|[]]; exact Hm. }
  destruct (fexp prec emax (Zdigits2 m + e) - e); simpl; auto.
  now apply iter_shr_1_nonneg.
Qed.

Lemma round_nearest_even_nonneg (m : Z) (l : location) :
  0 <= m -> 0 <= round_nearest_even m l.
Proof.
  intros Hm. unfold round_nearest_even.
  destruct l as [|[]]; try destruct (Z.even m); lia.
Qed.

Lemma binary_round_aux_nonneg (m e : Z) (l : location) :
  0 <= m -> nonneg (binary_round_aux prec emax false m e l) = true.
Proof.
  intros Hm. unfold binary_round_aux.
  pose proof (shr_fexp_nonneg m e l Hm) as H1.
  destruct (shr_fexp prec emax m e l) as [mrs' e']. simpl in H1.
  pose proof (shr_fexp_nonneg _ e' loc_Exact
                (round_nearest_even_nonneg _ (loc_of_shr_record mrs') H1)) as H2.
  destruct (shr_fexp prec emax _ e' loc_Exact) as [mrs'' e'']. simpl in H2.
  destruct (shr_m mrs'') as [|p|p]; try reflexivity; [|lia].
  destruct (e'' <=? emax - prec); reflexivity.
Qed.

Lemma binary_round_nonneg (m : positive) (e : Z) :
  nonneg (binary_round prec emax false m e) = true.
Proof.
  unfold binary_round. destruct (shl_align m e _) as [mz ez].
  apply binary_round_aux_nonneg. lia.
Qed.

Lemma binary_normalize_nonneg (z e : Z) :
  0 <= z -> nonneg (binary_normalize prec emax z e false) = true.
Proof.
  intros Hz. destruct z as [|p|p]; simpl; [reflexivity| |lia].
  apply binary_round_nonneg.
Qed.

Lemma of_int_nonneg (z : Z) : 0 <= z -> nonneg (PyFloat.of_int z) = true.
Proof. apply binary_normalize_nonneg. Qed.

Lemma add_nonneg (x y : PyFloat.t) :
  nonneg x = true -> nonneg y = true -> nonneg (PyFloat.add x y) = true.
Proof.
  destruct x as [sx|sx| |sx mx ex], y as [sy|sy| |sy my ey]; simpl;
    try discriminate; intros Hx Hy; auto;
    try (destruct sx, sy; simpl in *; congruence).
  destruct sx, sy; try discriminate. unfold PyFloat.add, SF64add, SFadd.
  apply binary_normalize_nonneg. simpl. lia.
Qed.

(** Multiplication and division by a positive finite float. *)
Lemma mul_nonneg (x : PyFloat.t) (m : positive) (e : Z) :
  nonneg x = true -> nonneg (PyFloat.mul x (S754_finite false m e)) = true.
Proof.
  destruct x as [sx|sx| |sx mx ex]; simpl; try discriminate; intros Hx; auto.
  - destruct sx; simpl in *; congruence.
  - destruct sx; try discriminate. unfold PyFloat.mul, SF64mul, SFmul.
    apply binary_round_aux_nonneg. simpl. lia.
Qed.

Lemma div_nonneg (x : PyFloat.t) (m : positive) (e : Z) :
  nonneg x = true -> nonneg (PyFloat.div x (S754_finite false m e)) = true.
Proof.
  destruct x as [sx|sx| |sx mx ex]; simpl; try discriminate; intros Hx; auto.
  - destruct sx; simpl in *; congruence.
  - destruct sx; try discriminate. unfold PyFloat.div, SF64div, SFdiv, SFdiv_core_binary.
    set (s := ex - e - _).
    set (m' := match s with Z0 => Z.pos mx | Z.pos _ => Z.shiftl (Z.pos mx) s | Z.neg _ => 0 end).
    assert (Hm' : 0 <= m').
    { subst m'. destruct s; try lia. apply Z.shiftl_nonneg. lia. }
    pose proof (Z.div_pos m' (Z.pos m) Hm' ltac:(lia)) as Hq.
    unfold Z.div in Hq. destruct (Z.div_eucl m' (Z.pos m)) as [q r].
    apply binary_round_aux_nonneg. exact Hq.
Qed.

Lemma min_nonneg (x y : PyFloat.t) :
  nonneg x = true -> nonneg y = true -> nonneg (PyFloat.min x y) = true.
Proof. intros Hx Hy. unfold PyFloat.min. now destruct (PyFloat.ltb y x). Qed.

End PyFloatFacts.

(** ** Lists *)

Lemma StronglySorted_weaken {A : Type} (R R' : A -> A -> Prop) (P : A -> Prop) (l : list A) :
  (forall a b, P a -> P b -> R a b -> R' a b) ->
  Forall P l -> StronglySorted R l -> StronglySorted R' l.
Proof.
  intros HR HP Hs. induction Hs as [|x l Hs IH Hall]; [constructor|].
  inversion HP as [|? ? Hx Hl]; subst. constructor; [now apply IH|].
  rewrite List.Forall_forall in *. intros y Hy. apply HR; auto.
Qed.

Lemma StronglySorted_map {A B : Type} (f : A -> B) (R : B -> B -> Prop) (l : list A) :
  StronglySorted (fun a b => R (f a) (f b)) l -> StronglySorted R (map f l).
Proof.
  induction 1 as [|x l Hs IH Hall]; simpl; constructor; [assumption|].
  rewrite List.Forall_forall in *. intros y Hy.
  apply in_map_iff in Hy as (z & <- & Hz). now apply Hall.
Qed.

Lemma Forall_firstn {A : Type} (P : A -> Prop) (n : nat) (l : list A) :
  Forall P l -> Forall P (firstn n l).
Proof.
  intros H. rewrite List.Forall_forall in *. intros x Hx. apply H.
  rewrite <- (firstn_skipn n l). apply in_or_app. now left.
Qed.

(** ** SQL rendering *)

Lemma append_assoc (a b c : string) : ((a ++ b) ++ c = a ++ (b ++ c))%string.
Proof. induction a as [|x a IH]; [reflexivity|]. exact (f_equal (String x) IH). Qed.

(** The built-in template always formats: the rendered statement. *)
Lemma format_default_template (time_bucket fact_table time_column measure_column clause : string) :
  PyFormat.format SQLGenerator.default_template
    [("where_clause", clause); ("time_bucket", time_bucket); ("fact_table", fact_table);
     ("time_column", time_column); ("measure_column", measure_column)]
  = Returns
      ("-- Show Your Work: " ++ fact_table ++ " / " ++ time_column ++ " / " ++ measure_column
       ++ Str.newline
       ++ "SELECT " ++ time_bucket ++ " AS time_bucket, SUM(" ++ measure_column ++ ") AS metric"
       ++ Str.newline
       ++ "FROM " ++ fact_table ++ Str.newline
       ++ "WHERE " ++ time_column ++ " IS NOT NULL AND " ++ clause ++ Str.newline
       ++ "GROUP BY " ++ time_bucket ++ Str.newline
       ++ "ORDER BY " ++ time_bucket ++ ";").
Proof.
  unfold PyFormat.format, SQLGenerator.default_template, Str.newline.
  simpl. unfold PyFormat.snoc. rewrite !append_assoc. reflexivity.
Qed.

(** Resolving a conflict touches the granularity and the annotations of the
    intent, and the notice; the renderer reads none of them. *)
Lemma apply_conflict_option_time_range (intent : ParsedIntent.t) (option : ConflictOption.t) :
  ParsedIntent.time_range (apply_conflict_option intent option) = ParsedIntent.time_range intent.
Proof.
  unfold apply_conflict_option.
  destruct (Str.opt_truthy _), (ConflictOption.apply_metric_caliber option) as [c|];
    try destruct (Str.truthy c); reflexivity.
Qed.

Lemma render_after_resolve_conflict
  (agent : MetricAgent.t) (state : SessionState.t) (option_id : string) (spec : MetricSpec.t) :
  SQLGenerator.render spec (MetricAgent.resolve_conflict agent state option_id)
  = SQLGenerator.render spec state.
Proof.
  unfold MetricAgent.resolve_conflict.
  destruct (SessionState.conflict state) as [notice|]; [|reflexivity].
  destruct (find _ _) as [option|]; [|reflexivity].
  unfold SQLGenerator.render, SQLGenerator.where_clause, SQLGenerator.where_parts,
    SQLGenerator.clarification_part.
  simpl. now rewrite apply_conflict_option_time_range.
Qed.

(** C1 fails on the code: the notice of [settlement_session] offers
    [settle_weekly]; resolving it sets the granularity of the intent to
    ["周"], and the statement rendered afterwards buckets by [day], the
    grain of the selected specification, and mentions ["周"] nowhere. *)
Lemma resolve_then_render_counterexample :
  let resolved :=
    MetricAgent.resolve_conflict SampleData.demo_agent settlement_session "settle_weekly" in
  SessionState.conflict settlement_session = Some ConflictDetector.settle_vs_daily
  /\ In ConflictDetector.settle_weekly (ConflictNotice.options ConflictDetector.settle_vs_daily)
  /\ ParsedIntent.granularity (SessionState.intent resolved) = Some "周"
  /\ SessionState.selected_spec resolved = Some SampleData.gmv_spec
  /\ exists sql,
       fst (MetricAgent.generate_sql SampleData.demo_agent resolved) = Returns sql
       /\ Str.contains "SELECT day AS time_bucket" sql = true
       /\ Str.contains "GROUP BY day" sql = true
       /\ Str.contains "周" sql = false.
Proof.
  split; [vm_compute; reflexivity|]. split; [now left|].
  split; [vm_compute; reflexivity|]. split; [vm_compute; reflexivity|].
  eexists. split; [vm_compute; reflexivity|]. vm_compute. repeat split.
Qed.

(** C1, amended: for a session with a selected specification whose notice
    offers [settle_weekly] with the granularity ["周"], resolving that option
    sets the granularity of the intent to ["周"] and clears the notice, and
    the statement rendered afterwards is the one rendered before: its time
    bucket is the [time_granularity] of the selected specification's grain;
    the granularity of the intent is not rendered. *)
Theorem resolve_then_render_spec_grain
  (agent : MetricAgent.t) (state : SessionState.t)
  (notice : ConflictNotice.t) (option : ConflictOption.t) (spec : MetricSpec.t) :
  SessionState.conflict state = Some notice ->
  List.find (fun opt => String.eqb (ConflictOption.option_id opt) "settle_weekly")
            (ConflictNotice.options notice) = Some option ->
  ConflictOption.apply_granularity option = Some "周" ->
  SessionState.selected_spec state = Some spec ->
  let resolved := MetricAgent.resolve_conflict agent state "settle_weekly" in
  ParsedIntent.granularity (SessionState.intent resolved) = Some "周"
  /\ SessionState.conflict resolved = None
  /\ SessionState.selected_spec resolved = Some spec
  /\ fst (MetricAgent.generate_sql agent resolved) = fst (MetricAgent.generate_sql agent state)
  /\ fst (MetricAgent.generate_sql agent resolved)
     = PyFormat.format (SQLGenerator.template spec)
         [("where_clause", SQLGenerator.where_clause spec state);
          ("time_bucket",
           Grain.time_granularity (Semantics.grain (MetricSpec.semantics spec)));
          ("fact_table", PhysicalMapping.fact_table (MetricSpec.physical spec));
          ("time_column", PhysicalMapping.time_column (MetricSpec.physical spec));
          ("measure_column", PhysicalMapping.measure_column (MetricSpec.physical spec))].
Proof.
  intros Hnotice Hfind Hgran Hsel resolved.
  assert (Hres : resolved
    = SessionState.set_conflict None
        (SessionState.set_intent
           (apply_conflict_option (SessionState.intent state) option) state)).
  { unfold resolved, MetricAgent.resolve_conflict. now rewrite Hnotice, Hfind. }
  assert (Hsel' : SessionState.selected_spec resolved = Some spec).
  { rewrite Hres. exact Hsel. }
  assert (Hsql : fst (MetricAgent.generate_sql agent resolved)
                 = fst (MetricAgent.generate_sql agent state)).
  { unfold MetricAgent.generate_sql. rewrite Hsel', Hsel. simpl.
    apply render_after_resolve_conflict. }
  split; [|split; [|split; [|split]]].
  - rewrite Hres. simpl. unfold apply_conflict_option. rewrite Hgran. simpl.
    destruct (ConflictOption.apply_metric_caliber option) as [c|];
      try destruct (Str.truthy c); reflexivity.
  - now rewrite Hres.
  - exact Hsel'.
  - exact Hsql.
  - rewrite Hsql. unfold MetricAgent.generate_sql. now rewrite Hsel.
Qed.

(** The amended C1 at [settlement_session]. *)
Lemma resolve_then_render_spec_grain_demo :
  ParsedIntent.granularity
    (SessionState.intent
       (MetricAgent.resolve_conflict SampleData.demo_agent settlement_session "settle_weekly"))
  = Some "周"
  /\ fst (MetricAgent.generate_sql SampleData.demo_agent
            (MetricAgent.resolve_conflict SampleData.demo_agent settlement_session
               "settle_weekly"))
     = fst (MetricAgent.generate_sql SampleData.demo_agent settlement_session).
Proof.
  destruct (resolve_then_render_spec_grain SampleData.demo_agent settlement_session
              ConflictDetector.settle_vs_daily ConflictDetector.settle_weekly
              SampleData.gmv_spec)
    as (Hg & _ & _ & Hsql & _); try (vm_compute; reflexivity).
  exact (conj Hg Hsql).
Defined.

(** ** The confidence gate *)

Lemma evaluate_frame (gate : UncertaintyGate.t) (state : SessionState.t) :
  let state' := UncertaintyGate.evaluate gate state in
  SessionState.session_id state' = SessionState.session_id state
  /\ SessionState.user state' = SessionState.user state
  /\ SessionState.intent state' = SessionState.intent state
  /\ SessionState.candidates state' = SessionState.candidates state
  /\ SessionState.clarifications state' = SessionState.clarifications state
  /\ SessionState.conflict state' = SessionState.conflict state
  /\ SessionState.forwarded_to state' = SessionState.forwarded_to state.
Proof.
  unfold UncertaintyGate.evaluate.
  destruct (SessionState.candidates state) as [|top rest] eqn:E; simpl.
  - now rewrite E.
  - repeat match goal with |- context [if ?b then _ else _] => destruct b end;
      simpl; now rewrite E.
Qed.

(** C2: the gate of the agent (thresholds 0.85 and 0.65).  Without
    candidates: confidence 0, expert routing, selection left as it was.
    Otherwise the confidence is the top score [s1]; with [s2] the second
    score (0 if absent), the gate selects the top candidate and clears
    expert routing when [s1 >= 0.85] and [s1 - s2 >= 0.15], and only then:
    in every other case the selection is left as it was, expert routing is
    cleared when [s1 >= 0.65] and set when it is not, in particular when
    [s1 < 0.65]. *)
Theorem gate_evaluate_policy (state : SessionState.t) :
  let state' := UncertaintyGate.evaluate UncertaintyGate.default state in
  match SessionState.candidates state with
  | [] =>
    SessionState.confidence state' = PyFloat.f0_0
    /\ SessionState.route_expert state' = true
    /\ SessionState.selected_spec state' = SessionState.selected_spec state
  | top :: rest =>
    let s1 := Candidate.score top in
    let s2 := match rest with second :: _ => Candidate.score second | [] => PyFloat.f0_0 end in
    let auto_select :=
      PyFloat.geb s1 PyFloat.f0_85 && PyFloat.geb (PyFloat.sub s1 s2) PyFloat.f0_15 in
    SessionState.confidence state' = s1
    /\ (auto_select = true ->
        SessionState.selected_spec state' = Some (Candidate.spec top)
        /\ SessionState.route_expert state' = false)
    /\ (auto_select = false ->
        SessionState.selected_spec state' = SessionState.selected_spec state
        /\ SessionState.route_expert state' = negb (PyFloat.geb s1 PyFloat.f0_65))
    /\ (auto_select = false -> PyFloat.ltb s1 PyFloat.f0_65 = true ->
        SessionState.route_expert state' = true)
  end.
Proof.
  unfold UncertaintyGate.evaluate, UncertaintyGate.default. simpl.
  destruct (SessionState.candidates state) as [|top rest]; simpl; [auto|].
  set (s2 := match rest with [] => PyFloat.f0_0 | second :: _ => Candidate.score second end).
  destruct (PyFloat.geb (Candidate.score top) PyFloat.f0_85
            && PyFloat.geb (PyFloat.sub (Candidate.score top) s2) PyFloat.f0_15) eqn:Eauto;
    simpl.
  - split; [reflexivity|]. split; [intros _; now split|]. split; discriminate.
  - split; [now destruct (PyFloat.geb (Candidate.score top) PyFloat.f0_65)|].
    split; [discriminate|]. split.
    + intros _. now destruct (PyFloat.geb (Candidate.score top) PyFloat.f0_65).
    + intros _ Hlt. now rewrite (PyFloatFacts.ltb_geb _ _ Hlt).
Qed.

(** ** Expert decisions *)

(** With candidates in the session, [apply_expert_decision] selects the
    specification of the supplied candidate, or of the top candidate when
    none is supplied, and clears expert routing. *)
Lemma apply_expert_decision_with_candidates
  (agent : MetricAgent.t) (state : SessionState.t) (supplied : option Candidate.t)
  (top : Candidate.t) (rest : list Candidate.t) :
  SessionState.candidates state = top :: rest ->
  MetricAgent.apply_expert_decision agent state supplied
  = ExpertFeedbackApplier.apply state
      (Candidate.spec match supplied with Some c => c | None => top end).
Proof. intros E. unfold MetricAgent.apply_expert_decision. now rewrite E. Qed.

(** Without candidates in the session nothing is changed, whether a
    candidate is supplied or not. *)
Lemma apply_expert_decision_without_candidates
  (agent : MetricAgent.t) (state : SessionState.t) (supplied : option Candidate.t) :
  SessionState.candidates state = [] ->
  MetricAgent.apply_expert_decision agent state supplied = state.
Proof. intros E. unfold MetricAgent.apply_expert_decision. now rewrite E. Qed.

(** C3, at a session without candidates and an explicitly supplied
    candidate: the claim has the supplied specification selected and expert
    routing cleared; the code changes nothing. *)
Theorem apply_expert_decision_drops_supplied :
  let supplied := Candidate.mk SampleData.gmv_spec PyFloat.f1_0 in
  let state' :=
    MetricAgent.apply_expert_decision (MetricAgent.new AssetStore.empty [])
      routed_empty_session (Some supplied) in
  SessionState.candidates routed_empty_session = []
  /\ state' = routed_empty_session
  /\ SessionState.selected_spec state' = None
  /\ SessionState.route_expert state' = true
  /\ state' <> ExpertFeedbackApplier.apply routed_empty_session (Candidate.spec supplied).
Proof. vm_compute. repeat split. discriminate. Qed.

(** ** The retriever's score *)

(** The score of the code is the specified one on entries whose tags are
    lowercase already. *)
Lemma score_spec_lowercase_tags (spec : MetricSpec.t) (keywords : gset string) :
  Forall (fun tag => Str.lower tag = tag) (MetricMeta.tags (MetricSpec.meta spec)) ->
  CandidateSelector._score_spec spec keywords
  = PyFloat.add
      (PyFloat.add
         (PyFloat.mul
            (PyFloat.of_int
               (Z.of_nat
                  (size (keywords
                         ∩ list_to_set
                             (map Str.lower
                                (MetricMeta.name (MetricSpec.meta spec)
                                 :: (MetricMeta.aliases (MetricSpec.meta spec)
                                     ++ MetricMeta.tags (MetricSpec.meta spec))%list))))))
            PyFloat.f0_6)
         (PyFloat.mul
            (if String.eqb (MetricMeta.status (MetricSpec.meta spec)) "verified"
             then PyFloat.f1_0 else PyFloat.f0_85)
            PyFloat.f0_3))
      (PyFloat.min
         (PyFloat.div (PyFloat.of_int (MetricMeta.usage_count (MetricSpec.meta spec)))
                      PyFloat.f100_0)
         PyFloat.f0_1).
Proof.
  intros Htags. unfold CandidateSelector._score_spec. simpl map.
  rewrite map_app.
  replace (map Str.lower (MetricMeta.tags (MetricSpec.meta spec)))
    with (MetricMeta.tags (MetricSpec.meta spec)); [reflexivity|].
  induction Htags as [|tag tags Ht _ IH]; simpl; [reflexivity|]. now rewrite Ht, <- IH.
Qed.

(** C4, at an entry whose tag ["GMV"] matches the keyword ["gmv"] but for
    its case: the claim counts the tag (overlap 1, score 0.6 + 0.3); the
    code lowercases the name and the aliases but not the tags, so it counts
    nothing (overlap 0, score 0.3). *)
Theorem score_spec_tag_case :
  let keywords : gset string := list_to_set (map Str.lower ["gmv"]) in
  CandidateSelector._score_spec upper_tag_spec keywords = PyFloat.f0_3
  /\ score_as_specified upper_tag_spec keywords = PyFloat.add PyFloat.f0_6 PyFloat.f0_3
  /\ CandidateSelector._score_spec upper_tag_spec keywords
     <> score_as_specified upper_tag_spec keywords
  /\ CandidateSelector._score_spec SampleData.gmv_spec keywords
     = score_as_specified SampleData.gmv_spec keywords.
Proof. vm_compute. repeat split. discriminate. Qed.

(** ** The candidate retriever *)

(** A usage counter that is not negative gives a score that is zero,
    positive or plus infinity, so never NaN. *)
Lemma score_spec_nonneg (spec : MetricSpec.t) (keywords : gset string) :
  0 <= MetricMeta.usage_count (MetricSpec.meta spec) ->
  PyFloatOrder.nonneg (CandidateSelector._score_spec spec keywords) = true.
Proof.
  intros Hu. unfold CandidateSelector._score_spec.
  apply PyFloatFacts.add_nonneg; [apply PyFloatFacts.add_nonneg|].
  - apply PyFloatFacts.mul_nonneg, PyFloatFacts.of_int_nonneg. lia.
  - destruct (String.eqb _ _); reflexivity.
  - apply PyFloatFacts.min_nonneg; [|reflexivity].
    apply PyFloatFacts.div_nonneg, PyFloatFacts.of_int_nonneg, Hu.
Qed.

Lemma scored_not_nan (specs : list MetricSpec.t) (keywords : gset string) :
  Forall (fun spec => 0 <= MetricMeta.usage_count (MetricSpec.meta spec)) specs ->
  Forall (fun item => PyFloat.is_nan (snd item) = false)
         (CandidateSelector.scored specs keywords).
Proof.
  intros H. unfold CandidateSelector.scored. rewrite List.Forall_forall in *.
  intros item Hi. apply in_map_iff in Hi as (spec & <- & Hs). simpl.
  apply PyFloatFacts.nonneg_not_nan, score_spec_nonneg, H, Hs.
Qed.

(** With scores that are numbers, the ranking never ascends. *)
Lemma ranked_sorted (specs : list MetricSpec.t) (keywords : gset string) :
  Forall (fun item => PyFloat.is_nan (snd item) = false)
         (CandidateSelector.scored specs keywords) ->
  StronglySorted (fun a b => PyFloat.geb (snd a) (snd b) = true)
                 (CandidateSelector.ranked specs keywords).
Proof.
  intros Hnan.
  apply (StronglySorted_weaken (not_below snd PyFloat.ltb)
           _ (fun item => PyFloat.is_nan (snd item) = false)).
  - intros a b Ha Hb Hab. unfold not_below in Hab.
    rewrite PyFloatFacts.geb_ltb, Hab; auto.
  - apply (Permutation_Forall (x := CandidateSelector.scored specs keywords));
      [symmetry; apply sort_desc_perm|assumption].
  - apply (sort_desc_sorted snd PyFloat.ltb (fun k => PyFloat.is_nan k = false)).
    + intros a b _ _. apply PyFloatFacts.ltb_asym.
    + apply PyFloatFacts.ltb_negtrans.
    + exact Hnan.
Qed.

(** A new key goes to the end of a [dict]. *)
Lemma dict_set_fresh {V : Type} (k : string) (v : V) (d : PyDict.t V) :
  Forall (fun item => fst item <> k) d -> PyDict.set k v d = (d ++ [(k, v)])%list.
Proof.
  induction 1 as [|[k' v'] d Hk _ IH]; simpl; [reflexivity|].
  destruct (String.eqb_spec k' k) as [E|_]; [now elim Hk|]. now rewrite IH.
Qed.

(** C5: [retrieve] leaves the store as it was; on an empty catalog it
    returns the empty list; it returns at most [top_k] candidates (for a
    [top_k] that is not negative, as the default 5); the candidates are the
    first [top_k] items of a ranking of all catalog entries, taken in the
    order cold pool then hot pool, in which entries of equal score keep
    that order; and their scores never increase along the list, the scores
    being numbers: no score is NaN, which is proved here for usage counters
    that are not negative.  A specification added under a new id is
    enumerated last in its pool. *)
Theorem retrieve_ranking (store : AssetStore.t) (intent_keywords : list string) (top_k : Z) :
  let keywords : gset string := list_to_set (map Str.lower intent_keywords) in
  let catalog :=
    (PyDict.values (AssetStore.cold_specs store)
     ++ PyDict.values (AssetStore.hot_specs store))%list in
  let entries := CandidateSelector.scored catalog keywords in
  let candidates := fst (CandidateSelector.retrieve store intent_keywords top_k) in
  snd (CandidateSelector.retrieve store intent_keywords top_k) = store
  /\ fst (AssetStore.get_all store) = catalog
  /\ (catalog = [] -> candidates = [])
  /\ (0 <= top_k -> Z.of_nat (length candidates) <= top_k)
  /\ (length (fst (CandidateSelector.retrieve store intent_keywords
                     CandidateSelector.default_top_k)) <= 5)%nat
  /\ (exists ranking : list (MetricSpec.t * PyFloat.t),
        Permutation ranking entries
        /\ (forall v : PyFloat.t,
              List.filter (fun item => PyFloat.eqb (snd item) v) ranking
              = List.filter (fun item => PyFloat.eqb (snd item) v) entries)
        /\ (Forall (fun item => PyFloat.is_nan (snd item) = false) entries ->
            StronglySorted (fun a b => PyFloat.geb (snd a) (snd b) = true) ranking)
        /\ candidates
           = map (fun item => Candidate.mk (fst item) (snd item)) (slice_to top_k ranking)
        /\ (0 <= top_k ->
            candidates
            = firstn (Z.to_nat top_k)
                (map (fun item => Candidate.mk (fst item) (snd item)) ranking)))
  /\ (Forall (fun item => PyFloat.is_nan (snd item) = false) entries ->
      StronglySorted
        (fun c1 c2 => PyFloat.geb (Candidate.score c1) (Candidate.score c2) = true)
        candidates)
  /\ (Forall (fun spec => 0 <= MetricMeta.usage_count (MetricSpec.meta spec)) catalog ->
      Forall (fun item => PyFloat.is_nan (snd item) = false) entries)
  /\ (forall spec,
        Forall (fun item => fst item <> MetricSpec.spec_id spec) (AssetStore.cold_specs store) ->
        fst (AssetStore.get_all (AssetStore.add_cold spec store))
        = (PyDict.values (AssetStore.cold_specs store)
           ++ spec :: PyDict.values (AssetStore.hot_specs store))%list)
  /\ (forall spec,
        Forall (fun item => fst item <> MetricSpec.spec_id spec) (AssetStore.hot_specs store) ->
        fst (AssetStore.get_all (AssetStore.add_hot spec store)) = (catalog ++ [spec])%list).
Proof.
  intros keywords catalog entries candidates.
  assert (Hc : candidates
               = map (fun item => Candidate.mk (fst item) (snd item))
                     (slice_to top_k (CandidateSelector.ranked catalog keywords)))
    by reflexivity.
  split; [reflexivity|]. split; [reflexivity|].
  split; [|split; [|split; [|split; [|split; [|split; [|split]]]]]].
  - intros E. rewrite Hc, E. unfold slice_to. simpl.
    destruct (top_k <? 0); now rewrite firstn_nil.
  - intros Hk. rewrite Hc, length_map. now apply slice_to_length.
  - unfold CandidateSelector.retrieve. simpl. rewrite length_map.
    pose proof (slice_to_length CandidateSelector.default_top_k
                  (CandidateSelector.ranked catalog keywords)) as H.
    unfold CandidateSelector.default_top_k in *. fold keywords catalog. lia.
  - exists (CandidateSelector.ranked catalog keywords).
    split; [apply sort_desc_perm|]. split; [|split; [|split]].
    + intros v. apply (sort_desc_stable snd PyFloat.ltb PyFloat.eqb).
      intros a b w. apply PyFloatFacts.ltb_eqb.
    + intros Hu. now apply ranked_sorted.
    + exact Hc.
    + intros Hk. rewrite Hc, (slice_to_nonneg _ _ Hk). symmetry. apply firstn_map.
  - intros Hu. rewrite Hc. apply StronglySorted_map. simpl.
    destruct (slice_to_prefix top_k (CandidateSelector.ranked catalog keywords)) as [n ->].
    apply StronglySorted_firstn. now apply ranked_sorted.
  - apply scored_not_nan.
  - intros spec Hfresh. simpl. rewrite (dict_set_fresh _ _ _ Hfresh).
    unfold PyDict.values. rewrite map_app. simpl. now rewrite <- app_assoc.
  - intros spec Hfresh. simpl. rewrite (dict_set_fresh _ _ _ Hfresh).
    unfold catalog, PyDict.values. rewrite map_app. simpl. now rewrite app_assoc.
Qed.

(** The retriever on the catalog of demo.py, asked for ["gmv"]. *)
Lemma retrieve_ranking_demo :
  StronglySorted
    (fun c1 c2 => PyFloat.geb (Candidate.score c1) (Candidate.score c2) = true)
    (fst (CandidateSelector.retrieve SampleData.demo_store ["gmv"] 5))
  /\ Z.of_nat (length (fst (CandidateSelector.retrieve SampleData.demo_store ["gmv"] 5))) <= 5.
Proof.
  destruct (retrieve_ranking SampleData.demo_store ["gmv"] 5)
    as (_ & _ & _ & Hlen & _ & _ & Hsorted & Hnan & _).
  split.
  - apply Hsorted, Hnan. repeat constructor; simpl; lia.
  - apply Hlen. lia.
Defined.

(** ** Clarification answers *)

Lemma apply_answers_app (state : SessionState.t) (xs ys : list ClarificationAnswer.t) :
  ClarificationEngine.apply_answers state (xs ++ ys)
  = ClarificationEngine.apply_answers (ClarificationEngine.apply_answers state xs) ys.
Proof. apply fold_left_app. Qed.

(** The answers reach the session through its [clarifications] only. *)
Lemma apply_answers_frame (state : SessionState.t) (answers : list ClarificationAnswer.t) :
  ClarificationEngine.apply_answers state answers
  = SessionState.set_clarifications
      (fold_left (fun m ans => <[ClarificationAnswer.slot ans := ans]> m) answers
                 (SessionState.clarifications state))
      state.
Proof.
  unfold ClarificationEngine.apply_answers.
  revert state. induction answers as [|ans answers IH]; intros state.
  - now destruct state.
  - cbn [fold_left]. rewrite IH. now destruct state.
Qed.

Lemma apply_answers_lookup (state : SessionState.t) (answers : list ClarificationAnswer.t)
  (slot : string) :
  SessionState.clarifications (ClarificationEngine.apply_answers state answers) !! slot
  = match last_answer slot answers with
    | Some ans => Some ans
    | None => SessionState.clarifications state !! slot
    end.
Proof.
  induction answers as [|ans answers IH] using rev_ind; [reflexivity|].
  rewrite apply_answers_app. unfold last_answer. rewrite rev_app_distr. simpl.
  destruct (String.eqb_spec (ClarificationAnswer.slot ans) slot) as [<-|Hne].
  - apply lookup_insert_eq.
  - rewrite lookup_insert_ne by exact Hne. exact IH.
Qed.

(** C6: on a session with candidates, [clarify] records the answers, the
    last one given for a slot standing under that slot, and then selects
    the specification of the top candidate, whatever the confidence, the
    routing flag and the candidates are; nothing else changes. *)
Theorem clarify_selects_top
  (agent : MetricAgent.t) (state : SessionState.t) (answers : list ClarificationAnswer.t)
  (top : Candidate.t) (rest : list Candidate.t) :
  SessionState.candidates state = top :: rest ->
  answers <> [] ->
  let state' := MetricAgent.clarify agent state answers in
  SessionState.selected_spec state' = Some (Candidate.spec top)
  /\ (forall ans, In ans answers ->
        SessionState.clarifications state' !! ClarificationAnswer.slot ans
        = last_answer (ClarificationAnswer.slot ans) answers
        /\ exists final, last_answer (ClarificationAnswer.slot ans) answers = Some final
                         /\ ClarificationAnswer.slot final = ClarificationAnswer.slot ans)
  /\ (forall slot, last_answer slot answers = None ->
        SessionState.clarifications state' !! slot = SessionState.clarifications state !! slot)
  /\ state'
     = SessionState.set_selected_spec (Some (Candidate.spec top))
         (SessionState.set_clarifications (SessionState.clarifications state') state).
Proof.
  intros Hc _ state'.
  assert (Hs : state'
    = SessionState.set_selected_spec (Some (Candidate.spec top))
        (ClarificationEngine.apply_answers state answers)).
  { unfold state', MetricAgent.clarify. rewrite (apply_answers_frame state answers).
    simpl. now rewrite Hc. }
  assert (Hl : forall slot, SessionState.clarifications state' !! slot
    = match last_answer slot answers with
      | Some ans => Some ans
      | None => SessionState.clarifications state !! slot
      end).
  { intros slot. rewrite Hs. simpl. apply apply_answers_lookup. }
  split; [now rewrite Hs|]. split; [|split].
  - intros ans Hin. rewrite Hl.
    destruct (last_answer (ClarificationAnswer.slot ans) answers) as [final|] eqn:E.
    + split; [reflexivity|]. exists final. split; [reflexivity|].
      apply find_some in E as [_ E]. now apply String.eqb_eq in E.
    + exfalso. unfold last_answer in E.
      apply in_rev in Hin. pose proof (find_none _ _ E ans Hin) as F.
      simpl in F. now rewrite String.eqb_refl in F.
  - intros slot E. now rewrite Hl, E.
  - rewrite Hs. now rewrite (apply_answers_frame state answers).
Qed.

(** [clarify] on the session of demo.py with one answer. *)
Lemma clarify_selects_top_demo :
  SessionState.selected_spec
    (MetricAgent.clarify SampleData.demo_agent
       (MetricAgent.start_session SampleData.demo_agent "sid" "12月行业GMV走势" "alice" false)
       [ClarificationAnswer.mk "metric_caliber" "结算"])
  = Some SampleData.gmv_spec.
Proof.
  refine (proj1 (clarify_selects_top SampleData.demo_agent
            (MetricAgent.start_session SampleData.demo_agent "sid" "12月行业GMV走势" "alice" false)
            [ClarificationAnswer.mk "metric_caliber" "结算"]
            (Candidate.mk SampleData.gmv_spec _) _ _ _)).
  - vm_compute. reflexivity.
  - discriminate.
Defined.

(** ** SQL generation *)

Lemma field_value_raises (name : string) (kwargs : list (string * string)) (e : exn) :
  PyFormat.field_value name kwargs = Raises e -> e = IndexError \/ e = KeyError name.
Proof.
  unfold PyFormat.field_value.
  destruct (negb (PyFormat.plain_name name)); [discriminate|].
  destruct (PyFormat.all_digits name).
  - destruct (String.length name <=? 18)%nat; [|discriminate]. intros [= <-]. now left.
  - destruct (PyFormat.lookup name kwargs); [discriminate|]. intros [= <-]. now right.
Qed.

(** Formatting raises none of the errors of [generate_sql] itself. *)
Lemma scan_raises (kwargs : list (string * string)) (template : string) :
  forall (m : PyFormat.mode) (out : string) (e : exn),
    PyFormat.scan kwargs m template out = Raises e ->
    e <> ValueError "No spec selected; cannot generate SQL".
Proof.
  induction template as [|c rest IH]; intros m out e H.
  - destruct m; simpl in H; inversion H; discriminate.
  - destruct m as [| |name|]; simpl in H;
      repeat match type of H with
             | (if ?b then _ else _) = _ => destruct b
             | match PyFormat.field_value ?n ?k with _ => _ end = _ =>
               let F := fresh "F" in
               destruct (PyFormat.field_value n k) eqn:F
             end;
      try discriminate; try (now apply IH in H);
      try (inversion H; subst; discriminate);
      try (injection H as <-;
           match goal with
           | F : PyFormat.field_value _ _ = Raises _ |- _ =>
             apply field_value_raises in F as [->| ->]; discriminate
           end).
Qed.

(** C7 fails on the code: on a catalog holding [templated_spec] the gate
    selects it, and [generate_sql] fails all the same, with the [KeyError]
    of [str.format]. *)
Lemma generate_sql_template_counterexample :
  let agent := MetricAgent.new (AssetStore.add_cold templated_spec AssetStore.empty) [] in
  let state := MetricAgent.start_session agent "sid" "GMV" "alice" false in
  SessionState.selected_spec state = Some templated_spec
  /\ fst (MetricAgent.generate_sql agent state) = Raises (KeyError "metric").
Proof. vm_compute. split; reflexivity. Qed.

(** C7, amended: [generate_sql] never changes the session; it raises the
    error of a missing selection exactly when no specification is selected;
    with a selected specification its result is the rendering of that
    specification and the session, whatever the agent, and it is a string
    whenever the specification has no template override (or an empty one).
    With an override the result is that of [str.format] on it, which can be
    an error. *)
Theorem generate_sql_contract (agent : MetricAgent.t) (state : SessionState.t) :
  snd (MetricAgent.generate_sql agent state) = state
  /\ (fst (MetricAgent.generate_sql agent state)
      = Raises (ValueError "No spec selected; cannot generate SQL")
      <-> SessionState.selected_spec state = None)
  /\ (forall spec, SessionState.selected_spec state = Some spec ->
        fst (MetricAgent.generate_sql agent state) = SQLGenerator.render spec state)
  /\ (forall agent', MetricAgent.generate_sql agent' state = MetricAgent.generate_sql agent state)
  /\ (forall spec, SessionState.selected_spec state = Some spec ->
        match PhysicalMapping.sql_template (MetricSpec.physical spec) with
        | Some override => override = ""
        | None => True
        end ->
        fst (MetricAgent.generate_sql agent state)
        = Returns
            (let physical := MetricSpec.physical spec in
             let bucket := Grain.time_granularity (Semantics.grain (MetricSpec.semantics spec)) in
             "-- Show Your Work: " ++ PhysicalMapping.fact_table physical ++ " / "
             ++ PhysicalMapping.time_column physical ++ " / "
             ++ PhysicalMapping.measure_column physical ++ Str.newline
             ++ "SELECT " ++ bucket ++ " AS time_bucket, SUM("
             ++ PhysicalMapping.measure_column physical ++ ") AS metric" ++ Str.newline
             ++ "FROM " ++ PhysicalMapping.fact_table physical ++ Str.newline
             ++ "WHERE " ++ PhysicalMapping.time_column physical ++ " IS NOT NULL AND "
             ++ SQLGenerator.where_clause spec state ++ Str.newline
             ++ "GROUP BY " ++ bucket ++ Str.newline
             ++ "ORDER BY " ++ bucket ++ ";")).
Proof.
  unfold MetricAgent.generate_sql.
  destruct (SessionState.selected_spec state) as [selected|] eqn:Hsel; simpl.
  - split; [reflexivity|]. split; [|split; [|split]].
    + split; [|discriminate]. intros H. exfalso.
      unfold SQLGenerator.render, PyFormat.format in H.
      now apply scan_raises in H.
    + now intros spec [= <-].
    + reflexivity.
    + intros spec [= <-] Htpl. unfold SQLGenerator.render, SQLGenerator.template.
      destruct (PhysicalMapping.sql_template (MetricSpec.physical selected)) as [override|];
        [subst override|]; apply format_default_template.
  - split; [reflexivity|]. split; [now split|]. split; [discriminate|].
    split; [reflexivity|discriminate].
Qed.

(** The amended C7 on the session of demo.py once the top candidate is
    selected. *)
Lemma generate_sql_contract_demo :
  exists sql,
    fst (MetricAgent.generate_sql SampleData.demo_agent settlement_session) = Returns sql
    /\ snd (MetricAgent.generate_sql SampleData.demo_agent settlement_session)
       = settlement_session.
Proof.
  destruct (generate_sql_contract SampleData.demo_agent settlement_session)
    as (Hsame & _ & _ & _ & Hsql).
  eexists. split; [|exact Hsame].
  apply (Hsql SampleData.gmv_spec); [vm_compute; reflexivity|exact I].
Defined.

(** C8: applying an answer a second time changes nothing, and an answer
    replaces whatever the session held for its slot, be it there from the
    start or from an earlier answer: one answer per slot, the last one. *)
Theorem apply_answers_idempotent
  (state : SessionState.t) (ans prior : ClarificationAnswer.t) :
  let once := ClarificationEngine.apply_answers state [ans] in
  ClarificationEngine.apply_answers once [ans] = once
  /\ ClarificationEngine.apply_answers state [ans; ans] = once
  /\ SessionState.clarifications once !! ClarificationAnswer.slot ans = Some ans
  /\ (forall slot, slot <> ClarificationAnswer.slot ans ->
        SessionState.clarifications once !! slot = SessionState.clarifications state !! slot)
  /\ (ClarificationAnswer.slot prior = ClarificationAnswer.slot ans ->
      ClarificationEngine.apply_answers state [prior; ans] = once)
  /\ once = SessionState.set_clarifications
              (<[ClarificationAnswer.slot ans := ans]> (SessionState.clarifications state))
              state.
Proof.
  intros once. unfold once, ClarificationEngine.apply_answers. simpl.
  repeat split.
  - now rewrite insert_insert_eq.
  - now rewrite insert_insert_eq.
  - apply lookup_insert_eq.
  - intros slot Hne. now apply lookup_insert_ne.
  - intros ->. now rewrite insert_insert_eq.
Qed.

(** ** The clarification questions *)

Lemma ranked_gain (state : SessionState.t) :
  Forall (fun item => fst item = question_gain state (snd item) /\ 0 < fst item)
         (ClarificationEngine.ranked state).
Proof.
  unfold ClarificationEngine.ranked, ClarificationEngine.QUESTION_BANK, question_gain. simpl.
  repeat match goal with
         | |- context [SessionState.clarifications state !! ?k] =>
           destruct (SessionState.clarifications state !! k)
         | |- context [0 <? ?g] => destruct (Z.ltb_spec 0 g)
         end; simpl; repeat constructor; simpl; assumption.
Qed.

Lemma ranked_slots (state : SessionState.t) :
  map (fun item => ClarificationQuestion.slot (snd item)) (ClarificationEngine.ranked state)
  = List.filter
      (fun slot =>
         match SessionState.clarifications state !! slot with
         | Some _ => false
         | None => 0 <? ClarificationEngine.info_gain slot state
         end)
      (map ClarificationQuestion.slot ClarificationEngine.QUESTION_BANK).
Proof.
  unfold ClarificationEngine.ranked, ClarificationEngine.QUESTION_BANK. simpl.
  repeat match goal with
         | |- context [SessionState.clarifications state !! ?k] =>
           destruct (SessionState.clarifications state !! k)
         | |- context [0 <? ?g] => destruct (0 <? g)
         end; reflexivity.
Qed.

Lemma gain_sorted (items : list (Z * ClarificationQuestion.t)) :
  StronglySorted (not_below fst Z.ltb) (sort_desc fst Z.ltb items).
Proof.
  apply (sort_desc_sorted fst Z.ltb (fun _ => True)).
  - intros a b _ _ H. apply Z.ltb_lt in H. apply Z.ltb_ge. lia.
  - intros a b c _ _ _ H1 H2. apply Z.ltb_ge in H1, H2. apply Z.ltb_ge. lia.
  - rewrite List.Forall_forall. auto.
Qed.

(** C9 fails on the code: in [uncalibrated_session] a specification is
    selected and no slot is answered; the candidates give no caliber value
    and one industry-mapping value, and the caliber question comes first all
    the same: it is ranked with gain 1, as a confirmation question. *)
Lemma next_questions_counterexample :
  SessionState.clarifications uncalibrated_session = ∅
  /\ SessionState.selected_spec uncalibrated_session = Some uncalibrated_spec
  /\ map ClarificationQuestion.slot
       (ClarificationEngine.next_questions ClarificationEngine.default uncalibrated_session)
     = ["metric_caliber"; "industry_mapping"; "time_semantics"]
  /\ distinct_values "metric_caliber" uncalibrated_session = 0
  /\ distinct_values "industry_mapping" uncalibrated_session = 1
  /\ ~ StronglySorted
         (fun q1 q2 =>
            distinct_values (ClarificationQuestion.slot q2) uncalibrated_session
            <= distinct_values (ClarificationQuestion.slot q1) uncalibrated_session)
         (ClarificationEngine.next_questions ClarificationEngine.default uncalibrated_session).
Proof.
  split; [vm_compute; reflexivity|]. split; [vm_compute; reflexivity|].
  split; [vm_compute; reflexivity|]. split; [vm_compute; reflexivity|].
  split; [vm_compute; reflexivity|].
  intros Hs.
  assert (E : exists q1 q2 rest,
             ClarificationEngine.next_questions ClarificationEngine.default uncalibrated_session
             = q1 :: q2 :: rest
             /\ ClarificationQuestion.slot q1 = "metric_caliber"
             /\ ClarificationQuestion.slot q2 = "industry_mapping").
  { vm_compute. do 3 eexists. split; [reflexivity|]. split; reflexivity. }
  destruct E as (q1 & q2 & rest & E & S1 & S2). rewrite E in Hs.
  inversion Hs as [|? ? _ Hall]; subst. inversion Hall as [|? ? H12 _]; subst.
  rewrite S1, S2 in H12. vm_compute in H12. now apply H12.
Qed.

(** C9, amended.  The gain of a slot is the number of distinct values the
    candidates give it, or 1 when there is none and a specification is
    selected.  [next_questions] takes the bank questions that are not
    answered and have a positive gain, ranks them by gain, greatest first,
    questions of equal gain in bank order, and returns the first
    [max_questions] (at most 3 by default).  With no slot answered, two
    distinct caliber values and one industry-mapping value, the default
    engine returns the caliber question before the industry-mapping one. *)
Theorem next_questions_ranking (engine : ClarificationEngine.t) (state : SessionState.t) :
  let questions := ClarificationEngine.next_questions engine state in
  let eligible := ClarificationEngine.ranked state in
  (forall slot,
     ClarificationEngine.info_gain slot state
     = match SessionState.selected_spec state with
       | Some _ => if distinct_values slot state =? 0 then 1 else distinct_values slot state
       | None => distinct_values slot state
       end)
  /\ map (fun item => ClarificationQuestion.slot (snd item)) eligible
     = List.filter
         (fun slot =>
            match SessionState.clarifications state !! slot with
            | Some _ => false
            | None => 0 <? ClarificationEngine.info_gain slot state
            end)
         (map ClarificationQuestion.slot ClarificationEngine.QUESTION_BANK)
  /\ Forall (fun item => fst item = question_gain state (snd item)) eligible
  /\ (exists ranking : list (Z * ClarificationQuestion.t),
        Permutation ranking eligible
        /\ (forall gain : Z,
              List.filter (fun item => fst item =? gain) ranking
              = List.filter (fun item => fst item =? gain) eligible)
        /\ StronglySorted (fun a b => fst b <= fst a) ranking
        /\ questions = map snd (slice_to (ClarificationEngine.max_questions engine) ranking)
        /\ (0 <= ClarificationEngine.max_questions engine ->
            questions
            = firstn (Z.to_nat (ClarificationEngine.max_questions engine)) (map snd ranking)))
  /\ StronglySorted (fun q1 q2 => question_gain state q2 <= question_gain state q1) questions
  /\ (0 <= ClarificationEngine.max_questions engine ->
      Z.of_nat (length questions) <= ClarificationEngine.max_questions engine)
  /\ (length (ClarificationEngine.next_questions ClarificationEngine.default state) <= 3)%nat
  /\ (SessionState.clarifications state = ∅ ->
      distinct_values "metric_caliber" state = 2 ->
      distinct_values "industry_mapping" state = 1 ->
      exists before between after caliber mapping,
        ClarificationEngine.next_questions ClarificationEngine.default state
        = (before ++ caliber :: between ++ mapping :: after)%list
        /\ ClarificationQuestion.slot caliber = "metric_caliber"
        /\ ClarificationQuestion.slot mapping = "industry_mapping").
Proof.
  intros questions eligible.
  assert (Hq : questions
               = map snd (slice_to (ClarificationEngine.max_questions engine)
                            (sort_desc fst Z.ltb eligible))) by reflexivity.
  pose proof (ranked_gain state) as Hgain. fold eligible in Hgain.
  split; [|split; [|split; [|split; [|split; [|split; [|split]]]]]].
  - intros slot. reflexivity.
  - apply ranked_slots.
  - eapply List.Forall_impl; [|exact Hgain]. now intros item [H _].
  - exists (sort_desc fst Z.ltb eligible).
    split; [apply sort_desc_perm|]. split; [|split; [|split]].
    + intros gain. apply (sort_desc_stable fst Z.ltb Z.eqb). intros a b v Hab Hav.
      apply Z.ltb_lt in Hab. apply Z.eqb_eq in Hav. apply Z.eqb_neq. lia.
    + apply (StronglySorted_weaken (not_below fst Z.ltb) _ (fun _ => True)).
      * intros a b _ _ Hab. now apply Z.ltb_ge in Hab.
      * rewrite List.Forall_forall. auto.
      * apply gain_sorted.
    + exact Hq.
    + intros Hmax. rewrite Hq, (slice_to_nonneg _ _ Hmax). symmetry. apply firstn_map.
  - rewrite Hq. apply StronglySorted_map.
    destruct (slice_to_prefix (ClarificationEngine.max_questions engine)
                (sort_desc fst Z.ltb eligible)) as [n ->].
    apply (StronglySorted_weaken (not_below fst Z.ltb) _
             (fun item => fst item = question_gain state (snd item) /\ 0 < fst item)).
    + intros a b [Ha _] [Hb _] Hab. unfold not_below in Hab. rewrite <- Ha, <- Hb.
      apply Z.ltb_ge in Hab. exact Hab.
    + apply Forall_firstn.
      apply (Permutation_Forall (x := eligible)); [symmetry; apply sort_desc_perm|exact Hgain].
    + apply StronglySorted_firstn, gain_sorted.
  - intros Hmax. rewrite Hq, length_map. now apply slice_to_length.
  - unfold ClarificationEngine.next_questions. rewrite length_map.
    pose proof (slice_to_length 3 (sort_desc fst Z.ltb eligible)) as H.
    change (ClarificationEngine.max_questions ClarificationEngine.default) with 3.
    fold eligible. lia.
  - intros Hclar Hcal Hmap.
    assert (Gc : ClarificationEngine.info_gain "metric_caliber" state = 2).
    { unfold distinct_values in Hcal. unfold ClarificationEngine.info_gain.
      rewrite Hcal. now destruct (SessionState.selected_spec state). }
    assert (Gm : ClarificationEngine.info_gain "industry_mapping" state = 1).
    { unfold distinct_values in Hmap. unfold ClarificationEngine.info_gain.
      rewrite Hmap. now destruct (SessionState.selected_spec state). }
    unfold ClarificationEngine.next_questions, ClarificationEngine.ranked,
      ClarificationEngine.QUESTION_BANK.
    change (ClarificationEngine.max_questions ClarificationEngine.default) with 3.
    simpl. rewrite Hclar, !lookup_empty, Gc, Gm. simpl.
    set (gt := ClarificationEngine.info_gain "time_semantics" state).
    destruct (Z.ltb_spec 0 gt) as [Hpos|Hzero]; simpl.
    + destruct (Z.ltb_spec 1 gt) as [H1|H1]; simpl;
        [destruct (Z.ltb_spec 2 gt) as [H2|H2]; simpl|].
      * eexists [_], [], [], _, _. simpl. repeat split.
      * eexists [], [_], [], _, _. simpl. repeat split.
      * eexists [], [], [_], _, _. simpl. repeat split.
    + eexists [], [], [], _, _. simpl. repeat split.
Qed.

(** The amended C9 at [gmv_session]. *)
Lemma next_questions_ranking_demo :
  exists before between after caliber mapping,
    ClarificationEngine.next_questions ClarificationEngine.default gmv_session
    = (before ++ caliber :: between ++ mapping :: after)%list
    /\ ClarificationQuestion.slot caliber = "metric_caliber"
    /\ ClarificationQuestion.slot mapping = "industry_mapping".
Proof.
  destruct (next_questions_ranking ClarificationEngine.default gmv_session)
    as (_ & _ & _ & _ & _ & _ & _ & Horder).
  apply Horder; vm_compute; reflexivity.
Defined.

(** ** Session start *)

(** C10: in the session [start_session] returns, expert routing is on
    whenever the conflict detector gave a notice for the parsed intent or
    [force_expert] was passed, whatever the gate decided; the override
    changes nothing else, so confidence and selection are the gate's.  A
    session can so have a selected specification and expert routing at
    once: a catalog holding only the verified GMV specification makes the
    gate select it and clear expert routing, and a query with a settlement
    conflict, or [force_expert], turns routing on again. *)
Theorem start_session_expert_override
  (agent : MetricAgent.t) (session_id query user : string) (force_expert : bool) :
  let gated := MetricAgent.start_session_gated agent session_id query user in
  let session := MetricAgent.start_session agent session_id query user force_expert in
  let notice := ConflictDetector.detect (IntentParser.parse (MetricAgent.parser agent) query) in
  SessionState.conflict session = notice
  /\ SessionState.route_expert session
     = (match notice with Some _ => true | None => false end
        || force_expert || SessionState.route_expert gated)
  /\ session = SessionState.set_route_expert (SessionState.route_expert session) gated
  /\ SessionState.confidence session = SessionState.confidence gated
  /\ SessionState.selected_spec session = SessionState.selected_spec gated
  /\ (let single := MetricAgent.new (AssetStore.add_cold SampleData.gmv_spec AssetStore.empty) [] in
      let conflicting := "结算GMV当日走势" in
      SessionState.route_expert (MetricAgent.start_session_gated single "sid" conflicting "alice")
      = false
      /\ SessionState.selected_spec (MetricAgent.start_session single "sid" conflicting "alice" false)
         = Some SampleData.gmv_spec
      /\ SessionState.route_expert (MetricAgent.start_session single "sid" conflicting "alice" false)
         = true
      /\ SessionState.route_expert (MetricAgent.start_session_gated single "sid" "GMV" "alice")
         = false
      /\ SessionState.conflict (MetricAgent.start_session single "sid" "GMV" "alice" true) = None
      /\ SessionState.selected_spec (MetricAgent.start_session single "sid" "GMV" "alice" true)
         = Some SampleData.gmv_spec
      /\ SessionState.route_expert (MetricAgent.start_session single "sid" "GMV" "alice" true)
         = true).
Proof.
  intros gated session notice.
  assert (Hconflict : SessionState.conflict gated = notice).
  { unfold gated, MetricAgent.start_session_gated.
    match goal with |- SessionState.conflict (UncertaintyGate.evaluate ?g ?s) = _ =>
      destruct (evaluate_frame g s) as (_ & _ & _ & _ & _ & -> & _) end.
    reflexivity. }
  assert (Hsession : session
    = SessionState.set_route_expert
        (match notice with Some _ => true | None => false end
         || force_expert || SessionState.route_expert gated) gated).
  { unfold session, MetricAgent.start_session. fold gated. rewrite Hconflict.
    destruct notice, force_expert, gated; reflexivity. }
  split; [rewrite Hsession; exact Hconflict|].
  split; [now rewrite Hsession|].
  split; [rewrite Hsession; reflexivity|].
  split; [now rewrite Hsession|].
  split; [now rewrite Hsession|].
  vm_compute. repeat split.
Qed.

(** ** Substrings *)

Lemma prefix_app (a b : string) : String.prefix a (a ++ b) = true.
Proof.
  induction a as [|c a IH]; simpl.
  - destruct b; reflexivity.
  - destruct (ascii_dec c c) as [_|N]; [exact IH | contradiction].
Qed.

Lemma prefix_split (a s : string) :
  String.prefix a s = true -> exists post, s = a ++ post.
Proof.
  revert s. induction a as [|c a IH]; intros s H.
  - exists s. reflexivity.
  - destruct s as [|d s]; simpl in H; [discriminate|].
    destruct (ascii_dec c d) as [->|_]; [|discriminate].
    destruct (IH s H) as [post ->]. exists post. reflexivity.
Qed.

Lemma contains_nil (needle : string) :
  Str.contains needle "" = String.prefix needle "".
Proof. simpl. apply orb_false_r. Qed.

Lemma contains_cons (needle : string) (c : ascii) (hay : string) :
  Str.contains needle (String c hay)
  = String.prefix needle (String c hay) || Str.contains needle hay.
Proof. reflexivity. Qed.

Lemma contains_app (pre needle post : string) :
  Str.contains needle (pre ++ needle ++ post) = true.
Proof.
  induction pre as [|c pre IH].
  - change ("" ++ needle ++ post) with (needle ++ post).
    destruct (needle ++ post) eqn:E.
    + rewrite contains_nil, <- E. apply prefix_app.
    + rewrite contains_cons, <- E, prefix_app. reflexivity.
  - change (String c pre ++ needle ++ post) with (String c (pre ++ needle ++ post)).
    rewrite contains_cons, IH. apply orb_true_r.
Qed.

Lemma contains_split (needle hay : string) :
  Str.contains needle hay = true -> exists pre post, hay = pre ++ needle ++ post.
Proof.
  induction hay as [|c hay IH]; intros H.
  - rewrite contains_nil in H. destruct (prefix_split _ _ H) as [post E].
    exists "", post. exact E.
  - rewrite contains_cons in H. apply orb_true_iff in H as [H|H].
    + destruct (prefix_split _ _ H) as [post E]. exists "", post. exact E.
    + destruct (IH H) as (pre & post & ->). exists (String c pre), post. reflexivity.
Qed.

Lemma contains_trans (a b c : string) :
  Str.contains a b = true -> Str.contains b c = true -> Str.contains a c = true.
Proof.
  intros Hab Hbc.
  destruct (contains_split _ _ Hab) as (p1 & q1 & ->).
  destruct (contains_split _ _ Hbc) as (p2 & q2 & ->).
  replace (p2 ++ (p1 ++ a ++ q1) ++ q2) with ((p2 ++ p1) ++ a ++ (q1 ++ q2)).
  - apply contains_app.
  - rewrite !append_assoc. reflexivity.
Qed.

Lemma contains_app_l (needle a b : string) :
  Str.contains needle a = true -> Str.contains needle (a ++ b) = true.
Proof.
  intros H. destruct (contains_split _ _ H) as (p & q & ->).
  rewrite !append_assoc. apply contains_app.
Qed.

Lemma contains_app_r (needle a b : string) :
  Str.contains needle b = true -> Str.contains needle (a ++ b) = true.
Proof.
  intros H. destruct (contains_split _ _ H) as (p & q & ->).
  rewrite <- append_assoc. apply contains_app.
Qed.

Lemma append_empty_r (s : string) : s ++ "" = s.
Proof. induction s as [|c s IH]; [reflexivity|]. exact (f_equal (String c) IH). Qed.

Lemma contains_refl (s : string) : Str.contains s s = true.
Proof.
  pose proof (contains_app "" s "") as H.
  change ("" ++ s ++ "") with (s ++ "") in H.
  rewrite append_empty_r in H. exact H.
Qed.

Lemma lower_char_idem (c : ascii) : Str.lower_char (Str.lower_char c) = Str.lower_char c.
Proof. destruct c as [[] [] [] [] [] [] [] []]; reflexivity. Qed.

Lemma lower_idem (s : string) : Str.lower (Str.lower s) = Str.lower s.
Proof.
  induction s as [|c s IH]; [reflexivity|].
  simpl. rewrite lower_char_idem, IH. reflexivity.
Qed.

(** ** The order [>=] of the floats *)

Lemma geb_not_nan (a b : PyFloat.t) :
  PyFloat.geb a b = true -> PyFloat.is_nan a = false /\ PyFloat.is_nan b = false.
Proof. destruct a, b; try discriminate; split; reflexivity. Qed.

Lemma geb_trans (a b c : PyFloat.t) :
  PyFloat.geb a b = true -> PyFloat.geb b c = true -> PyFloat.geb a c = true.
Proof.
  intros H1 H2.
  destruct (geb_not_nan _ _ H1) as [Ha Hb]. destruct (geb_not_nan _ _ H2) as [_ Hc].
  rewrite PyFloatFacts.geb_ltb in * by assumption.
  apply negb_true_iff in H1, H2. apply negb_true_iff.
  exact (PyFloatFacts.ltb_negtrans a b c Ha Hb Hc H1 H2).
Qed.

Lemma geb_nan (a b : PyFloat.t) : PyFloat.is_nan a = true -> PyFloat.geb a b = false.
Proof. destruct a; try discriminate. destruct b; reflexivity. Qed.

(** ** Slot values *)

Lemma bank_recommended_some (slot : string) :
  In slot (map ClarificationQuestion.slot ClarificationEngine.QUESTION_BANK) ->
  exists v, ClarificationEngine.bank_recommended slot = Some v /\ Str.truthy v = true.
Proof.
  cbn. intros [<-|[<-|[<-|[]]]]; eexists; split; reflexivity.
Qed.

Lemma slot_values_lookup (spec : MetricSpec.t) (slot v : string) :
  ClarificationEngine._slot_values_for_spec spec !! slot = Some v -> Str.truthy v = true.
Proof.
  unfold ClarificationEngine._slot_values_for_spec. cbv zeta.
  intros H.
  apply lookup_insert_Some in H as [[_ <-]|[_ H]];
    [destruct (Str.contains "natural" _); reflexivity|].
  destruct (Semantics.industry_mapping (MetricSpec.semantics spec)) as [mapping|].
  - apply lookup_insert_Some in H as [[_ <-]|[_ H]];
      [destruct (_ || _); reflexivity|].
    destruct (Semantics.metric_caliber (MetricSpec.semantics spec)) as [caliber|];
      [destruct (Str.truthy caliber) eqn:T|]; try (rewrite lookup_empty in H; discriminate).
    apply lookup_insert_Some in H as [[_ <-]|[_ H]]; [exact T|].
    rewrite lookup_empty in H. discriminate.
  - destruct (Semantics.metric_caliber (MetricSpec.semantics spec)) as [caliber|];
      [destruct (Str.truthy caliber) eqn:T|]; try (rewrite lookup_empty in H; discriminate).
    apply lookup_insert_Some in H as [[_ <-]|[_ H]]; [exact T|].
    rewrite lookup_empty in H. discriminate.
Qed.

Lemma last_answer_in (answers : list ClarificationAnswer.t) (ans : ClarificationAnswer.t) :
  In ans answers ->
  exists final, last_answer (ClarificationAnswer.slot ans) answers = Some final.
Proof.
  intros Hin. unfold last_answer.
  destruct (find _ (rev answers)) as [final|] eqn:E; [eauto|].
  apply in_rev in Hin. pose proof (find_none _ _ E ans Hin) as F.
  cbn in F. now rewrite String.eqb_refl in F.
Qed.

Lemma last_answer_some (answers : list ClarificationAnswer.t) (slot : string)
  (final : ClarificationAnswer.t) :
  last_answer slot answers = Some final ->
  In final answers /\ ClarificationAnswer.slot final = slot.
Proof.
  unfold last_answer. intros E. apply find_some in E as [Hin E].
  split; [now apply in_rev | now apply String.eqb_eq].
Qed.

Lemma clarify_clarifications (agent : MetricAgent.t) (state : SessionState.t)
  (answers : list ClarificationAnswer.t) :
  SessionState.clarifications (MetricAgent.clarify agent state answers)
  = SessionState.clarifications (ClarificationEngine.apply_answers state answers).
Proof.
  unfold MetricAgent.clarify.
  destruct (SessionState.candidates _); reflexivity.
Qed.

Lemma candidate_values_in (slot v : string) (candidates : list Candidate.t) :
  In v (candidate_values slot candidates) ->
  exists c, In c candidates
            /\ ClarificationEngine._slot_values_for_spec (Candidate.spec c) !! slot = Some v.
Proof.
  unfold candidate_values. intros H. apply in_flat_map in H as (c & Hc & Hin).
  exists c. split; [exact Hc|].
  destruct (ClarificationEngine._slot_values_for_spec (Candidate.spec c) !! slot) as [w|];
    [|destruct Hin].
  destruct Hin as [->|[]]. reflexivity.
Qed.

Lemma ranked_without_candidates (state : SessionState.t) :
  SessionState.candidates state = [] -> SessionState.selected_spec state = None ->
  ClarificationEngine.ranked state = [].
Proof.
  intros Hc Hs. unfold ClarificationEngine.ranked, ClarificationEngine.info_gain.
  rewrite Hc, Hs. cbn.
  repeat match goal with
         | |- context [SessionState.clarifications state !! ?k] =>
           destruct (SessionState.clarifications state !! k)
         end; reflexivity.
Qed.

Lemma slot_values_closed (spec : MetricSpec.t) (v : string) :
  (ClarificationEngine._slot_values_for_spec spec !! "industry_mapping" = Some v ->
   In v ["商家行业"; "类目行业"])
  /\ (ClarificationEngine._slot_values_for_spec spec !! "time_semantics" = Some v ->
      In v ["自然日(UTC+8)"; "业务日"]).
Proof.
  unfold ClarificationEngine._slot_values_for_spec. cbv zeta. split; intros H.
  - rewrite lookup_insert_ne in H by discriminate.
    destruct (Semantics.industry_mapping (MetricSpec.semantics spec)) as [mapping|].
    + rewrite lookup_insert_eq in H. injection H as <-.
      destruct (_ || _); cbn; tauto.
    + destruct (Semantics.metric_caliber (MetricSpec.semantics spec)) as [caliber|];
        [destruct (Str.truthy caliber)|];
        try (rewrite lookup_insert_ne in H by discriminate);
        rewrite lookup_empty in H; discriminate.
  - rewrite lookup_insert_eq in H. injection H as <-.
    destruct (Str.contains "natural" _); cbn; tauto.
Qed.

(** ** [Counter]: counts, first-seen order and [most_common(1)] *)

Lemma incr_keys (k : string) (c : Counter.t) :
  (In k (PyDict.keys c) -> PyDict.keys (Counter.incr k c) = PyDict.keys c)
  /\ (~ In k (PyDict.keys c) -> PyDict.keys (Counter.incr k c) = (PyDict.keys c ++ [k])%list).
Proof.
  unfold PyDict.keys. induction c as [|[k' n] c [IH1 IH2]]; cbn.
  - split; [intros []|reflexivity].
  - destruct (String.eqb_spec k' k) as [->|Hne]; cbn.
    + split; [reflexivity|]. intros H. exfalso. apply H. now left.
    + split.
      * intros [E|H]; [contradiction|]. now rewrite (IH1 H).
      * intros H. rewrite IH2; [reflexivity|]. intros Hin. apply H. now right.
Qed.

Lemma incr_get (k k' : string) (c : Counter.t) :
  PyDict.get k' (Counter.incr k c)
  = if String.eqb k k'
    then Some (match PyDict.get k c with Some n => n + 1 | None => 1 end)
    else PyDict.get k' c.
Proof.
  induction c as [|[k0 n] c IH]; cbn.
  - destruct (String.eqb_spec k k'); reflexivity.
  - destruct (String.eqb_spec k0 k) as [->|Hne]; cbn.
    + destruct (String.eqb_spec k k'); reflexivity.
    + rewrite IH. destruct (String.eqb_spec k0 k') as [->|Hne'].
      * destruct (String.eqb_spec k k'); [congruence|reflexivity].
      * reflexivity.
Qed.

Lemma tally_snoc (l : list string) (y : string) :
  tally (l ++ [y]) = Counter.incr y (tally l).
Proof. unfold tally. now rewrite fold_left_app. Qed.

Lemma occurrences_snoc (k y : string) (l : list string) :
  occurrences k (l ++ [y]) = occurrences k l + (if String.eqb y k then 1 else 0).
Proof.
  unfold occurrences. rewrite count_occ_app. cbn.
  destruct (string_dec y k) as [->|Hne].
  - rewrite String.eqb_refl. lia.
  - apply String.eqb_neq in Hne. rewrite Hne. lia.
Qed.

Lemma occurrences_pos (k : string) (l : list string) : In k l <-> 0 < occurrences k l.
Proof.
  unfold occurrences. rewrite (count_occ_In string_dec). lia.
Qed.

Lemma tally_get (l : list string) (k : string) :
  PyDict.get k (tally l)
  = if occurrences k l =? 0 then None else Some (occurrences k l).
Proof.
  induction l as [|y l IH] using rev_ind; [reflexivity|].
  rewrite tally_snoc, incr_get, occurrences_snoc.
  assert (0 <= occurrences k l) by (unfold occurrences; lia).
  destruct (String.eqb_spec y k) as [->|Hne].
  - rewrite IH. destruct (Z.eqb_spec (occurrences k l) 0) as [E|E].
    + rewrite E. reflexivity.
    + destruct (Z.eqb_spec (occurrences k l + 1) 0); [lia|reflexivity].
  - rewrite Z.add_0_r. exact IH.
Qed.

Lemma get_in_keys {V : Type} (k : string) (d : PyDict.t V) :
  In k (PyDict.keys d) <-> exists v, PyDict.get k d = Some v.
Proof.
  induction d as [|[k' v'] d IH]; cbn.
  - split; [intros []|intros [v E]; discriminate].
  - destruct (String.eqb_spec k' k) as [->|Hne].
    + split; [eauto|now left].
    + rewrite <- IH. split; [intros [E|H]; [contradiction|exact H]|now right].
Qed.

Lemma get_in {V : Type} (k : string) (v : V) (d : PyDict.t V) :
  List.NoDup (PyDict.keys d) -> In (k, v) d -> PyDict.get k d = Some v.
Proof.
  induction d as [|[k' v'] d IH]; cbn; intros Hnd Hin; [destruct Hin|].
  inversion Hnd as [|? ? Hk Hnd']; subst.
  destruct Hin as [[= -> ->]|Hin].
  - now rewrite String.eqb_refl.
  - destruct (String.eqb_spec k' k) as [->|Hne]; [|exact (IH Hnd' Hin)].
    exfalso. apply Hk. change (In (fst (k, v)) (map fst d)). apply in_map, Hin.
Qed.

Lemma tally_keys_in (l : list string) (k : string) : In k (PyDict.keys (tally l)) <-> In k l.
Proof.
  rewrite get_in_keys, tally_get, occurrences_pos.
  assert (0 <= occurrences k l) by (unfold occurrences; lia).
  destruct (Z.eqb_spec (occurrences k l) 0) as [E|E].
  - split; [intros [v Hv]; discriminate | lia].
  - split; [lia | eauto].
Qed.

Lemma tally_keys_nodup (l : list string) : List.NoDup (PyDict.keys (tally l)).
Proof.
  induction l as [|y l IH] using rev_ind; [constructor|].
  rewrite tally_snoc.
  destruct (in_dec string_dec y (PyDict.keys (tally l))) as [Hin|Hnin].
  - now rewrite (proj1 (incr_keys y _) Hin).
  - rewrite (proj2 (incr_keys y _) Hnin).
    apply List.NoDup_app; [exact IH | repeat constructor; intros [] |].
    intros x Hx [<-|[]]. contradiction.
Qed.

(** The keys stand in the order in which the values were first seen. *)
Lemma tally_keys_order (l l1 l2 : list string) (x : string) :
  l = (l1 ++ x :: l2)%list -> ~ In x l1 ->
  exists k1 k2, PyDict.keys (tally l) = (k1 ++ x :: k2)%list /\ forall w, In w l1 -> In w k1.
Proof.
  revert l1 l2. induction l as [|y l IH] using rev_ind; intros l1 l2 E Hx.
  - destruct l1; discriminate.
  - rewrite tally_snoc.
    destruct l2 as [|z l2 _] using rev_ind.
    + apply app_inj_tail in E as [-> ->].
      assert (Hnin : ~ In x (PyDict.keys (tally l1))) by now rewrite tally_keys_in.
      rewrite (proj2 (incr_keys x _) Hnin).
      exists (PyDict.keys (tally l1)), []. split; [reflexivity|].
      intros w Hw. now apply tally_keys_in.
    + change (l1 ++ x :: l2 ++ [z])%list with (l1 ++ (x :: l2) ++ [z])%list in E.
      rewrite app_assoc in E. apply app_inj_tail in E as [-> ->].
      destruct (IH l1 l2 eq_refl Hx) as (k1 & k2 & Ek & Hk).
      destruct (in_dec string_dec z (PyDict.keys (tally (l1 ++ x :: l2)))) as [Hin|Hnin].
      * rewrite (proj1 (incr_keys z _) Hin). eauto.
      * rewrite (proj2 (incr_keys z _) Hnin), Ek, <- app_assoc. cbn. eauto.
Qed.

Lemma first_max_split (best : string * Z) (rest : Counter.t) :
  exists pre post,
    best :: rest = (pre ++ Counter.first_max best rest :: post)%list
    /\ Forall (fun e => snd e < snd (Counter.first_max best rest)) pre
    /\ Forall (fun e => snd e <= snd (Counter.first_max best rest)) post.
Proof.
  revert best. induction rest as [|x rest IH]; intros best; cbn [Counter.first_max].
  - exists [], []. repeat split; constructor.
  - destruct (Z.ltb_spec (snd best) (snd x)) as [Hlt|Hge].
    + destruct (IH x) as (pre & post & E & Hpre & Hpost).
      revert E Hpre Hpost. generalize (Counter.first_max x rest). intros r E Hpre Hpost.
      exists (best :: pre), post. split; [cbn; f_equal; exact E|]. split; [|exact Hpost].
      constructor; [|exact Hpre].
      destruct pre as [|p pre]; cbn in E.
      * injection E as E _. subst r. exact Hlt.
      * injection E as E _. subst p. inversion Hpre; subst. lia.
    + destruct (IH best) as (pre & post & E & Hpre & Hpost).
      revert E Hpre Hpost. generalize (Counter.first_max best rest). intros r E Hpre Hpost.
      destruct pre as [|p pre]; cbn in E.
      * injection E as E1 E2. subst r rest. exists [], (x :: post).
        split; [reflexivity|]. split; [constructor|].
        constructor; [exact Hge | exact Hpost].
      * injection E as E1 E2. subst p rest. exists (best :: x :: pre), post.
        split; [reflexivity|]. split; [|exact Hpost].
        inversion Hpre; subst. repeat constructor; try assumption. lia.
Qed.

Lemma nodup_split_unique {A : Type} (a a' b b' : list A) (x : A) :
  List.NoDup (a ++ x :: b) -> (a ++ x :: b = a' ++ x :: b')%list -> a = a'.
Proof.
  revert a'. induction a as [|y a IH]; intros a' Hnd E.
  - destruct a' as [|y' a']; [reflexivity|]. cbn in E. injection E as <- E.
    exfalso. cbn in Hnd. inversion Hnd as [|? ? Hx _]; subst. apply Hx.
    apply in_or_app. right. now left.
  - destruct a' as [|y' a']; cbn in E.
    + injection E as -> E. exfalso. cbn in Hnd. inversion Hnd as [|? ? Hx _]; subst.
      apply Hx. apply in_or_app. right. now left.
    + injection E as <- E. cbn in Hnd. inversion Hnd; subst. f_equal. now apply IH.
Qed.

Lemma in_split_first (x : string) (l : list string) :
  In x l -> exists l1 l2, l = (l1 ++ x :: l2)%list /\ ~ In x l1.
Proof.
  induction l as [|y l IH]; intros Hin; [destruct Hin|].
  destruct (string_dec y x) as [->|Hne].
  - exists [], l. split; [reflexivity|]. intros [].
  - destruct Hin as [E|Hin]; [contradiction|].
    destruct (IH Hin) as (l1 & l2 & -> & Hl1). exists (y :: l1), l2.
    split; [reflexivity|]. intros [E|H]; [contradiction|]. exact (Hl1 H).
Qed.

(** [most_common(1)] on the counter of a list: the value of greatest count
    whose first occurrence comes first. *)
Lemma most_common_tally (l : list string) (v : string) :
  Counter.most_common_1 (tally l) = Some v ->
  (forall w, occurrences w l <= occurrences v l)
  /\ exists l1 l2, l = (l1 ++ v :: l2)%list /\ ~ In v l1
                   /\ forall w, In w l1 -> occurrences w l < occurrences v l.
Proof.
  unfold Counter.most_common_1. destruct (tally l) as [|x rest] eqn:Et; [discriminate|].
  intros [= Ev].
  destruct (first_max_split x rest) as (pre & post & E & Hpre & Hpost).
  destruct (Counter.first_max x rest) as [v' n] eqn:Em. cbn in Ev. subst v'.
  cbn [snd] in Hpre, Hpost.
  pose proof (tally_keys_nodup l) as Hnd.
  assert (Hget : forall k m, In (k, m) (tally l) -> m = occurrences k l /\ In k l).
  { intros k m Hin. pose proof (get_in k m _ Hnd Hin) as G. rewrite tally_get in G.
    assert (0 <= occurrences k l) by (unfold occurrences; lia).
    destruct (Z.eqb_spec (occurrences k l) 0); [discriminate|].
    injection G as <-. split; [reflexivity|]. apply occurrences_pos. lia. }
  rewrite Et, E in Hget.
  destruct (Hget v n) as [-> Hv]; [apply in_or_app; right; now left|].
  split.
  - intros w. destruct (in_dec string_dec w l) as [Hw|Hw].
    + apply tally_keys_in in Hw. rewrite Et, E in Hw. unfold PyDict.keys in Hw.
      apply in_map_iff in Hw as ([w' m] & Ew & Hin). cbn in Ew. subst w'.
      destruct (Hget w m Hin) as [-> _].
      apply in_app_or in Hin as [Hin|[Hin|Hin]].
      * rewrite List.Forall_forall in Hpre. specialize (Hpre _ Hin). cbn in Hpre. lia.
      * injection Hin as -> _. lia.
      * rewrite List.Forall_forall in Hpost. exact (Hpost _ Hin).
    + assert (occurrences w l = 0).
      { unfold occurrences. apply (count_occ_not_In string_dec) in Hw. lia. }
      apply occurrences_pos in Hv. lia.
  - apply in_split_first in Hv as (l1 & l2 & El & Hl1).
    exists l1, l2. split; [exact El|]. split; [exact Hl1|].
    intros w Hw.
    destruct (tally_keys_order l l1 l2 v El Hl1) as (k1 & k2 & Ek & Hk).
    rewrite Et, E in Ek, Hnd. unfold PyDict.keys in Ek, Hnd.
    rewrite map_app in Ek, Hnd. cbn [map fst] in Ek, Hnd.
    apply (nodup_split_unique _ _ _ _ _ Hnd) in Ek. subst k1.
    apply Hk, in_map_iff in Hw as ([w' m] & Ew & Hin). cbn in Ew. subst w'.
    destruct (Hget w m) as [-> _]; [apply in_or_app; now left|].
    rewrite List.Forall_forall in Hpre. exact (Hpre _ Hin).
Qed.

Lemma most_common_tally_none (l : list string) :
  Counter.most_common_1 (tally l) = None <-> l = [].
Proof.
  split; [|intros ->; reflexivity].
  intros H. destruct l as [|y l]; [reflexivity|]. exfalso.
  assert (Hin : In y (PyDict.keys (tally (y :: l)))) by (apply tally_keys_in; now left).
  destruct (tally (y :: l)); [destruct Hin | discriminate].
Qed.

Lemma slot_counts_tally (slot : string) (candidates : list Candidate.t) :
  ClarificationEngine.slot_counts slot candidates = tally (candidate_values slot candidates).
Proof.
  unfold ClarificationEngine.slot_counts, tally. generalize (@nil (string * Z)).
  induction candidates as [|c candidates IH]; intros acc; [reflexivity|].
  cbn [fold_left candidate_values flat_map]. rewrite fold_left_app, <- IH.
  destruct (ClarificationEngine._slot_values_for_spec (Candidate.spec c) !! slot) as [v|] eqn:E;
    [|reflexivity].
  rewrite (slot_values_lookup _ _ _ E). reflexivity.
Qed.

(** ** [dict]: lookup after assignment *)

Lemma dict_get_set_eq {V : Type} (k : string) (v : V) (d : PyDict.t V) :
  PyDict.get k (PyDict.set k v d) = Some v.
Proof.
  induction d as [|[k' v'] d IH]; cbn.
  - now rewrite String.eqb_refl.
  - destruct (String.eqb_spec k' k) as [->|Hne]; cbn.
    + now rewrite String.eqb_refl.
    + apply String.eqb_neq in Hne. now rewrite Hne.
Qed.

Lemma dict_get_set_ne {V : Type} (k k' : string) (v : V) (d : PyDict.t V) :
  k' <> k -> PyDict.get k' (PyDict.set k v d) = PyDict.get k' d.
Proof.
  intros Hne. induction d as [|[k0 v0] d IH]; cbn.
  - destruct (String.eqb_spec k k'); [congruence|reflexivity].
  - destruct (String.eqb_spec k0 k) as [->|Hne0]; cbn.
    + destruct (String.eqb_spec k k'); [congruence|reflexivity].
    + destruct (String.eqb_spec k0 k'); [reflexivity|exact IH].
Qed.

Lemma dict_set_keys {V : Type} (k : string) (v : V) (d : PyDict.t V) :
  PyDict.keys (PyDict.set k v d)
  = match PyDict.get k d with
    | Some _ => PyDict.keys d
    | None => (PyDict.keys d ++ [k])%list
    end.
Proof.
  unfold PyDict.keys. induction d as [|[k' v'] d IH]; cbn; [reflexivity|].
  destruct (String.eqb_spec k' k) as [->|Hne]; cbn; [reflexivity|].
  rewrite IH. destruct (PyDict.get k d); reflexivity.
Qed.

Lemma dict_set_keys_nodup {V : Type} (k : string) (v : V) (d : PyDict.t V) :
  List.NoDup (PyDict.keys d) -> List.NoDup (PyDict.keys (PyDict.set k v d)).
Proof.
  intros Hnd. rewrite dict_set_keys.
  destruct (PyDict.get k d) as [w|] eqn:E; [exact Hnd|].
  apply List.NoDup_app; [exact Hnd | repeat constructor; intros [] |].
  intros x Hx [<-|[]].
  apply get_in_keys in Hx as [w Hw]. congruence.
Qed.

Lemma dict_set_in {V : Type} (k : string) (v : V) (d : PyDict.t V) :
  In v (PyDict.values (PyDict.set k v d)).
Proof.
  unfold PyDict.values. induction d as [|[k' v'] d IH]; cbn; [now left|].
  destruct (String.eqb_spec k' k); cbn; [now left | now right].
Qed.

Lemma dict_set_idem {V : Type} (k : string) (v w : V) (d : PyDict.t V) :
  PyDict.set k v (PyDict.set k w d) = PyDict.set k v d.
Proof.
  induction d as [|[k' v'] d IH]; cbn.
  - now rewrite String.eqb_refl.
  - destruct (String.eqb_spec k' k) as [->|Hne]; cbn.
    + now rewrite String.eqb_refl.
    + apply String.eqb_neq in Hne. now rewrite Hne, IH.
Qed.

(** ** intent.py: the time range *)

Lemma prefix_cons (c d : ascii) (a s : string) :
  String.prefix (String c a) (String d s) = Ascii.eqb c d && String.prefix a s.
Proof.
  simpl. destruct (ascii_dec c d) as [->|N].
  - rewrite Ascii.eqb_refl. reflexivity.
  - apply Ascii.eqb_neq in N. rewrite N. reflexivity.
Qed.

Lemma search_month_none (query : string) :
  IntentParser.search_month query = None ->
  forall c, Str.is_digit c = true ->
            Str.contains (String c IntentParser.month) query = false.
Proof.
  induction query as [|d t IH]; intros H c Hc; [reflexivity|].
  rewrite contains_cons, prefix_cons.
  cbn [IntentParser.search_month] in H.
  destruct (Str.is_digit d) eqn:Hd.
  - destruct t as [|d2 t2]; [destruct (Ascii.eqb c d); reflexivity|].
    destruct (Str.is_digit d2 && String.prefix IntentParser.month t2); [discriminate|].
    destruct (String.prefix IntentParser.month (String d2 t2)) eqn:Hp; [discriminate|].
    rewrite andb_false_r. exact (IH H c Hc).
  - destruct (Ascii.eqb_spec c d) as [->|_]; [congruence|].
    exact (IH H c Hc).
Qed.


(** X1: a query in which a digit stands right before the month sign 月
    always gets a time range; the parser leaves the time range empty only
    when no digit of the query is followed by 月. *)
Theorem time_range_found (parser : IntentParser.t) (query : string) (c : ascii)
  (Hdigit : Str.is_digit c = true)
  (Hoccurs : Str.contains (String c IntentParser.month) query = true) :
  exists r, ParsedIntent.time_range (IntentParser.parse parser query) = Some r
            /\ Str.truthy r = true.
Proof.
  cbn [IntentParser.parse ParsedIntent.time_range]. unfold IntentParser._extract_time_range.
  destruct (IntentParser.search_month query) as [g|] eqn:E.
  - eexists. split; reflexivity.
  - rewrite (search_month_none _ E c Hdigit) in Hoccurs. discriminate.
Qed.

Lemma time_range_found_demo :
  exists r, ParsedIntent.time_range
              (IntentParser.parse IntentParser.default "12月行业GMV走势") = Some r
            /\ Str.truthy r = true.
Proof. apply (time_range_found IntentParser.default "12月行业GMV走势" "2"%char); reflexivity. Defined.



(** ** conflict.py on a parsed query *)

(** X3: for the intent the parser builds from a query, the detector
    reports a conflict exactly when the query contains 结算 and one of 日
    and 天; the notice is then the settlement-against-daily one, with its
    two options. *)
Theorem detect_parsed_query (parser : IntentParser.t) (query : string) :
  ConflictDetector.detect (IntentParser.parse parser query)
  = if Str.contains "结算" query && (Str.contains "日" query || Str.contains "天" query)
    then Some ConflictDetector.settle_vs_daily
    else None.
Proof.
  unfold ConflictDetector.detect.
  cbn [IntentParser.parse ParsedIntent.raw_query ParsedIntent.granularity existsb].
  assert (H1 : Str.contains "当日" query = true -> Str.contains "日" query = true).
  { apply contains_trans. reflexivity. }
  assert (H2 : Str.contains "当天" query = true -> Str.contains "天" query = true).
  { apply contains_trans. reflexivity. }
  destruct (Str.contains "结算" query); [|reflexivity].
  destruct (Str.contains "当日" query);
    [rewrite (H1 eq_refl); reflexivity|].
  destruct (Str.contains "当天" query);
    [rewrite (H2 eq_refl); destruct (Str.contains "日" query); reflexivity|].
  destruct (Str.contains "日" query); [reflexivity|].
  destruct (Str.contains "天" query); reflexivity.
Qed.

(** ** agent.py: resolving a conflict *)

Lemma apply_conflict_option_frame (intent : ParsedIntent.t) (option : ConflictOption.t) :
  let intent' := apply_conflict_option intent option in
  ParsedIntent.raw_query intent' = ParsedIntent.raw_query intent
  /\ ParsedIntent.metrics intent' = ParsedIntent.metrics intent
  /\ ParsedIntent.dimensions intent' = ParsedIntent.dimensions intent
  /\ ParsedIntent.time_range intent' = ParsedIntent.time_range intent
  /\ exists added, ParsedIntent.filters intent' = (ParsedIntent.filters intent ++ added)%list
                   /\ (length added <= 1)%nat.
Proof.
  unfold apply_conflict_option.
  destruct (Str.opt_truthy _), (ConflictOption.apply_metric_caliber option) as [c|];
    try destruct (Str.truthy c); cbn;
    repeat (split; [reflexivity|]);
    first [ exists []; rewrite app_nil_r; split; [reflexivity | simpl; lia]
          | eexists [_]; split; [reflexivity | simpl; lia] ].
Qed.

(** X4: resolving a conflict changes nothing of the session but the
    notice and, in the intent, the granularity and the annotations: the
    candidates, the answers, the selection, the confidence and the expert
    flag stay as they were (a session routed to an expert because of the
    conflict stays routed), the query, metrics, dimensions and time range of
    the intent too, and the annotations grow by at most one, at the end. *)
Theorem resolve_conflict_frame
  (agent : MetricAgent.t) (state : SessionState.t) (option_id : string) :
  let state' := MetricAgent.resolve_conflict agent state option_id in
  SessionState.session_id state' = SessionState.session_id state
  /\ SessionState.user state' = SessionState.user state
  /\ SessionState.candidates state' = SessionState.candidates state
  /\ SessionState.clarifications state' = SessionState.clarifications state
  /\ SessionState.selected_spec state' = SessionState.selected_spec state
  /\ SessionState.confidence state' = SessionState.confidence state
  /\ SessionState.route_expert state' = SessionState.route_expert state
  /\ SessionState.forwarded_to state' = SessionState.forwarded_to state
  /\ ParsedIntent.raw_query (SessionState.intent state')
     = ParsedIntent.raw_query (SessionState.intent state)
  /\ ParsedIntent.metrics (SessionState.intent state')
     = ParsedIntent.metrics (SessionState.intent state)
  /\ ParsedIntent.dimensions (SessionState.intent state')
     = ParsedIntent.dimensions (SessionState.intent state)
  /\ ParsedIntent.time_range (SessionState.intent state')
     = ParsedIntent.time_range (SessionState.intent state)
  /\ exists added,
       ParsedIntent.filters (SessionState.intent state')
       = (ParsedIntent.filters (SessionState.intent state) ++ added)%list
       /\ (length added <= 1)%nat.
Proof.
  unfold MetricAgent.resolve_conflict.
  assert (Hsame : exists added,
             ParsedIntent.filters (SessionState.intent state)
             = (ParsedIntent.filters (SessionState.intent state) ++ added)%list
             /\ (length added <= 1)%nat).
  { exists []. rewrite app_nil_r. split; [reflexivity | simpl; lia]. }
  destruct (SessionState.conflict state) as [notice|];
    [|cbv zeta; repeat (split; [reflexivity|]); exact Hsame].
  destruct (find _ _) as [option|];
    [|cbv zeta; repeat (split; [reflexivity|]); exact Hsame].
  cbv zeta. cbn [SessionState.set_conflict SessionState.set_intent SessionState.session_id
                 SessionState.user SessionState.candidates SessionState.clarifications
                 SessionState.selected_spec SessionState.confidence SessionState.route_expert
                 SessionState.forwarded_to SessionState.intent].
  do 8 (split; [reflexivity|]).
  exact (apply_conflict_option_frame (SessionState.intent state) option).
Qed.

(** X5: with a notice pending, an option id the notice does not offer
    leaves the session as it is, notice included; an id it offers clears the
    notice, after which a further resolution, with any id, does nothing: of
    two choices only the first takes effect. *)
Theorem resolve_conflict_once
  (agent : MetricAgent.t) (state : SessionState.t) (notice : ConflictNotice.t)
  (option_id later_id : string)
  (Hpending : SessionState.conflict state = Some notice) :
  let state' := MetricAgent.resolve_conflict agent state option_id in
  (Forall (fun opt => ConflictOption.option_id opt <> option_id) (ConflictNotice.options notice)
   -> state' = state)
  /\ (Exists (fun opt => ConflictOption.option_id opt = option_id) (ConflictNotice.options notice)
      -> SessionState.conflict state' = None
         /\ MetricAgent.resolve_conflict agent state' later_id = state').
Proof.
  unfold MetricAgent.resolve_conflict. rewrite Hpending.
  destruct (find _ _) as [option|] eqn:E; cbv zeta.
  - split.
    + intros Hall. apply find_some in E as [Hin Heq].
      rewrite List.Forall_forall in Hall. apply String.eqb_eq in Heq.
      destruct (Hall option Hin Heq).
    + intros _. split; reflexivity.
  - split; [reflexivity|].
    intros Hex. apply List.Exists_exists in Hex as (opt & Hin & Heq).
    pose proof (find_none _ _ E opt Hin) as Hn. cbv beta in Hn.
    rewrite Heq, String.eqb_refl in Hn. discriminate.
Qed.

Lemma resolve_conflict_once_demo :
  let state' :=
    MetricAgent.resolve_conflict SampleData.demo_agent settlement_session "switch_pay" in
  (Forall (fun opt => ConflictOption.option_id opt <> "switch_pay")
          (ConflictNotice.options ConflictDetector.settle_vs_daily)
   -> state' = settlement_session)
  /\ (Exists (fun opt => ConflictOption.option_id opt = "switch_pay")
             (ConflictNotice.options ConflictDetector.settle_vs_daily)
      -> SessionState.conflict state' = None
         /\ MetricAgent.resolve_conflict SampleData.demo_agent state' "settle_weekly" = state').
Proof.
  apply (resolve_conflict_once SampleData.demo_agent settlement_session
           ConflictDetector.settle_vs_daily "switch_pay" "settle_weekly").
  vm_compute. reflexivity.
Defined.

(** ** gate.py *)

(** X6: the gate is idempotent: evaluating a session the gate has
    evaluated changes nothing. *)
Theorem evaluate_idempotent (gate : UncertaintyGate.t) (state : SessionState.t) :
  UncertaintyGate.evaluate gate (UncertaintyGate.evaluate gate state)
  = UncertaintyGate.evaluate gate state.
Proof.
  destruct state as [sid usr intent cands clar sel conf route conflict fwd].
  unfold UncertaintyGate.evaluate. cbn.
  destruct cands as [|top rest]; [reflexivity|].
  destruct (PyFloat.geb (Candidate.score top) (UncertaintyGate.high_conf_threshold gate)
            && PyFloat.geb (PyFloat.sub (Candidate.score top) _) PyFloat.f0_15) eqn:E1; cbn.
  - rewrite E1. reflexivity.
  - destruct (PyFloat.geb (Candidate.score top) (UncertaintyGate.clarifying_threshold gate)) eqn:E2;
      cbn; rewrite E1, E2; reflexivity.
Qed.

(** X7: what the verdict of a gate whose high threshold is not below its
    clarifying one (as 0.85 and 0.65) says about the scores.  A session not
    routed to an expert has a top candidate whose score, the confidence, is
    at least the clarifying threshold; a selection the gate makes is the top
    candidate's specification, its score at least the high threshold; the
    gate never removes a selection, and a session it routes keeps the one it
    had; a top score that is NaN routes to the expert. *)
Theorem evaluate_thresholds (gate : UncertaintyGate.t) (state : SessionState.t)
  (Hordered : PyFloat.geb (UncertaintyGate.high_conf_threshold gate)
                          (UncertaintyGate.clarifying_threshold gate) = true) :
  let state' := UncertaintyGate.evaluate gate state in
  (SessionState.route_expert state' = false ->
   exists top rest,
     SessionState.candidates state = top :: rest
     /\ SessionState.confidence state' = Candidate.score top
     /\ PyFloat.geb (Candidate.score top) (UncertaintyGate.clarifying_threshold gate) = true)
  /\ (SessionState.selected_spec state' <> SessionState.selected_spec state ->
      exists top rest,
        SessionState.candidates state = top :: rest
        /\ SessionState.selected_spec state' = Some (Candidate.spec top)
        /\ SessionState.route_expert state' = false
        /\ PyFloat.geb (Candidate.score top) (UncertaintyGate.high_conf_threshold gate) = true)
  /\ (SessionState.route_expert state' = true ->
      SessionState.selected_spec state' = SessionState.selected_spec state)
  /\ (forall top rest,
        SessionState.candidates state = top :: rest ->
        PyFloat.is_nan (Candidate.score top) = true ->
        SessionState.route_expert state' = true).
Proof.
  destruct state as [sid usr intent cands clar sel conf route conflict fwd].
  unfold UncertaintyGate.evaluate. cbn.
  destruct cands as [|top rest].
  { cbn. split; [discriminate|]. split; [congruence|]. split; [reflexivity|]. discriminate. }
  destruct (PyFloat.geb (Candidate.score top) (UncertaintyGate.high_conf_threshold gate)) eqn:E1;
    cbn [andb].
  - destruct (PyFloat.geb (PyFloat.sub (Candidate.score top) _) PyFloat.f0_15); cbn.
    + split; [intros _; exists top, rest; repeat split; exact (geb_trans _ _ _ E1 Hordered)|].
      split; [intros _; exists top, rest; repeat split; exact E1|].
      split; [discriminate|].
      intros top' rest' [= <- <-] Hnan. rewrite (geb_nan _ _ Hnan) in E1. discriminate.
    + rewrite (geb_trans _ _ _ E1 Hordered). cbn.
      split; [intros _; exists top, rest; repeat split; exact (geb_trans _ _ _ E1 Hordered)|].
      split; [congruence|]. split; [reflexivity|].
      intros top' rest' [= <- <-] Hnan. rewrite (geb_nan _ _ Hnan) in E1. discriminate.
  - destruct (PyFloat.geb (Candidate.score top) (UncertaintyGate.clarifying_threshold gate)) eqn:E2;
      cbn.
    + split; [intros _; exists top, rest; repeat split; exact E2|].
      split; [congruence|]. split; [reflexivity|].
      intros top' rest' [= <- <-] Hnan. rewrite (geb_nan _ _ Hnan) in E2. discriminate.
    + split; [discriminate|]. split; [congruence|]. split; reflexivity.
Qed.

Lemma evaluate_thresholds_demo :
  let state :=
    SessionState.set_candidates
      (fst (CandidateSelector.retrieve SampleData.demo_store ["gmv"] 5))
      (SessionState.new "sid" "alice"
         (IntentParser.parse IntentParser.default "12月行业GMV走势")) in
  let state' := UncertaintyGate.evaluate UncertaintyGate.default state in
  (SessionState.route_expert state' = false ->
   exists top rest,
     SessionState.candidates state = top :: rest
     /\ SessionState.confidence state' = Candidate.score top
     /\ PyFloat.geb (Candidate.score top)
          (UncertaintyGate.clarifying_threshold UncertaintyGate.default) = true)
  /\ (SessionState.selected_spec state' <> SessionState.selected_spec state ->
      exists top rest,
        SessionState.candidates state = top :: rest
        /\ SessionState.selected_spec state' = Some (Candidate.spec top)
        /\ SessionState.route_expert state' = false
        /\ PyFloat.geb (Candidate.score top)
             (UncertaintyGate.high_conf_threshold UncertaintyGate.default) = true)
  /\ (SessionState.route_expert state' = true ->
      SessionState.selected_spec state' = SessionState.selected_spec state)
  /\ (forall top rest,
        SessionState.candidates state = top :: rest ->
        PyFloat.is_nan (Candidate.score top) = true ->
        SessionState.route_expert state' = true).
Proof.
  intros state.
  apply (evaluate_thresholds UncertaintyGate.default state).
  vm_compute. reflexivity.
Defined.

(** ** sql_generator.py *)

Lemma join_contains (sep p : string) (parts : list string) :
  In p parts -> Str.contains p (Str.join sep parts) = true.
Proof.
  induction parts as [|q rest IH]; intros Hin; [destruct Hin|].
  destruct rest as [|q' rest'].
  - destruct Hin as [->|[]]. apply contains_refl.
  - change (Str.join sep (q :: q' :: rest')) with (q ++ sep ++ Str.join sep (q' :: rest')).
    destruct Hin as [->|Hin].
    + apply contains_app_l, contains_refl.
    + apply contains_app_r, contains_app_r, IH, Hin.
Qed.

Lemma where_clause_contains (spec : MetricSpec.t) (state : SessionState.t) (p : string) :
  In p (SQLGenerator.where_parts spec state) ->
  Str.contains p (SQLGenerator.where_clause spec state) = true.
Proof.
  unfold SQLGenerator.where_clause. intros Hin.
  destruct (SQLGenerator.where_parts spec state) as [|q rest] eqn:E; [destruct Hin|].
  apply join_contains, Hin.
Qed.

Lemma clarification_part_in (state : SessionState.t) (slot prefix : string)
  (ans : ClarificationAnswer.t) :
  SessionState.clarifications state !! slot = Some ans ->
  In (prefix ++ ClarificationAnswer.value ans) (SQLGenerator.clarification_part state slot prefix).
Proof. intros E. unfold SQLGenerator.clarification_part. rewrite E. now left. Qed.

(** X8: with a selected specification that has no template override (or
    an empty one), the SQL of [generate_sql] carries every filter
    expression of the specification, the time range of the intent after
    "-- 时间范围: ", and the answers of the slots metric_caliber,
    industry_mapping and time_semantics after "-- 口径: ",
    "-- 行业映射: " and "-- 时间口径: ", each value as it was given. *)
Theorem generate_sql_mentions
  (agent : MetricAgent.t) (state : SessionState.t) (spec : MetricSpec.t)
  (Hselected : SessionState.selected_spec state = Some spec)
  (Hbuiltin : SQLGenerator.template spec = SQLGenerator.default_template) :
  exists sql,
    fst (MetricAgent.generate_sql agent state) = Returns sql
    /\ (forall f, In f (Semantics.filters (MetricSpec.semantics spec)) ->
                  Str.contains (Filter.expr f) sql = true)
    /\ (forall tr, ParsedIntent.time_range (SessionState.intent state) = Some tr ->
                   Str.truthy tr = true ->
                   Str.contains ("-- 时间范围: " ++ tr) sql = true)
    /\ (forall ans, SessionState.clarifications state !! "metric_caliber" = Some ans ->
                    Str.contains ("-- 口径: " ++ ClarificationAnswer.value ans) sql = true)
    /\ (forall ans, SessionState.clarifications state !! "industry_mapping" = Some ans ->
                    Str.contains ("-- 行业映射: " ++ ClarificationAnswer.value ans) sql = true)
    /\ (forall ans, SessionState.clarifications state !! "time_semantics" = Some ans ->
                    Str.contains ("-- 时间口径: " ++ ClarificationAnswer.value ans) sql = true).
Proof.
  unfold MetricAgent.generate_sql. rewrite Hselected. cbn [fst].
  unfold SQLGenerator.render. rewrite Hbuiltin. unfold SQLGenerator.slots.
  rewrite format_default_template.
  eexists. split; [reflexivity|].
  assert (Hpart : forall p, In p (SQLGenerator.where_parts spec state) ->
    Str.contains p
      ("-- Show Your Work: " ++ PhysicalMapping.fact_table (MetricSpec.physical spec) ++ " / "
       ++ PhysicalMapping.time_column (MetricSpec.physical spec) ++ " / "
       ++ PhysicalMapping.measure_column (MetricSpec.physical spec) ++ Str.newline
       ++ "SELECT " ++ Grain.time_granularity (Semantics.grain (MetricSpec.semantics spec))
       ++ " AS time_bucket, SUM("
       ++ PhysicalMapping.measure_column (MetricSpec.physical spec) ++ ") AS metric"
       ++ Str.newline
       ++ "FROM " ++ PhysicalMapping.fact_table (MetricSpec.physical spec) ++ Str.newline
       ++ "WHERE " ++ PhysicalMapping.time_column (MetricSpec.physical spec)
       ++ " IS NOT NULL AND "
       ++ SQLGenerator.where_clause spec state ++ Str.newline
       ++ "GROUP BY " ++ Grain.time_granularity (Semantics.grain (MetricSpec.semantics spec))
       ++ Str.newline
       ++ "ORDER BY " ++ Grain.time_granularity (Semantics.grain (MetricSpec.semantics spec))
       ++ ";") = true).
  { intros p Hin. apply (contains_trans _ _ _ (where_clause_contains spec state p Hin)).
    do 19 apply contains_app_r. apply contains_app_l, contains_refl. }
  unfold SQLGenerator.where_parts in Hpart.
  split; [|split; [|split; [|split]]].
  - intros f Hf. apply Hpart, in_or_app. left. apply in_map, Hf.
  - intros tr Htr Ht. apply Hpart, in_or_app. right. apply in_or_app. left.
    rewrite Htr, Ht. now left.
  - intros ans E. apply Hpart. do 2 (apply in_or_app; right). apply in_or_app. left.
    apply clarification_part_in, E.
  - intros ans E. apply Hpart. do 3 (apply in_or_app; right). apply in_or_app. left.
    apply clarification_part_in, E.
  - intros ans E. apply Hpart. do 4 (apply in_or_app; right).
    apply clarification_part_in, E.
Qed.

Lemma generate_sql_mentions_demo :
  exists sql,
    fst (MetricAgent.generate_sql SampleData.demo_agent
           (MetricAgent.clarify SampleData.demo_agent demo_session
              [ClarificationAnswer.mk "metric_caliber" "结算"])) = Returns sql
    /\ Str.contains "is_refund = 0" sql = true
    /\ Str.contains "-- 时间范围: 最近的 12 月" sql = true
    /\ Str.contains "-- 口径: 结算" sql = true.
Proof.
  destruct (generate_sql_mentions SampleData.demo_agent
              (MetricAgent.clarify SampleData.demo_agent demo_session
                 [ClarificationAnswer.mk "metric_caliber" "结算"])
              SampleData.gmv_spec)
    as (sql & E & Hf & Ht & Hc & _).
  - vm_compute. reflexivity.
  - reflexivity.
  - exists sql. split; [exact E|]. split; [|split].
    + apply (Hf (Filter.mk "is_refund = 0" (Some "剔除退款单"))).
      vm_compute. right. now left.
    + apply (Ht "最近的 12 月"); vm_compute; reflexivity.
    + apply (Hc (ClarificationAnswer.mk "metric_caliber" "结算")).
      vm_compute. reflexivity.
Defined.

Lemma clarification_part_value (state state' : SessionState.t) (slot prefix : string) :
  ClarificationAnswer.value <$> SessionState.clarifications state !! slot
  = ClarificationAnswer.value <$> SessionState.clarifications state' !! slot ->
  SQLGenerator.clarification_part state slot prefix
  = SQLGenerator.clarification_part state' slot prefix.
Proof.
  unfold SQLGenerator.clarification_part.
  destruct (SessionState.clarifications state !! slot),
           (SessionState.clarifications state' !! slot); cbn; congruence.
Qed.

Lemma render_sql_inputs (spec : MetricSpec.t) (state state' : SessionState.t) :
  sql_inputs state = sql_inputs state' ->
  SQLGenerator.render spec state = SQLGenerator.render spec state'.
Proof.
  unfold sql_inputs. cbn [map]. intros [= Ht Hc Hi Hs].
  unfold SQLGenerator.render, SQLGenerator.where_clause, SQLGenerator.where_parts.
  rewrite Ht, (clarification_part_value state state' _ _ Hc),
    (clarification_part_value state state' _ _ Hi),
    (clarification_part_value state state' _ _ Hs).
  reflexivity.
Qed.

(** X9: the SQL of a specification depends on the session through the
    time range of the intent and the values answered for metric_caliber,
    industry_mapping and time_semantics only.  So the expert flag, the
    confidence, the candidates, a pending conflict, the granularity and the
    annotations of the intent, and an answer for any other slot never reach
    the SQL. *)
Theorem render_reads_sql_inputs (spec : MetricSpec.t) (state state' : SessionState.t)
  (Hsame : sql_inputs state = sql_inputs state') :
  SQLGenerator.render spec state = SQLGenerator.render spec state'
  /\ (forall (other : ClarificationAnswer.t),
        ~ In (ClarificationAnswer.slot other)
             ["metric_caliber"; "industry_mapping"; "time_semantics"] ->
        SQLGenerator.render spec (ClarificationEngine.apply_answers state' [other])
        = SQLGenerator.render spec state)
  /\ (forall flag confidence candidates conflict granularity annotations,
        SQLGenerator.render spec
          (SessionState.set_route_expert flag
             (SessionState.set_confidence confidence
                (SessionState.set_candidates candidates
                   (SessionState.set_conflict conflict
                      (SessionState.set_intent
                         (ParsedIntent.set_granularity granularity
                            (ParsedIntent.set_filters annotations (SessionState.intent state')))
                         state')))))
        = SQLGenerator.render spec state).
Proof.
  split; [exact (render_sql_inputs spec state state' Hsame)|]. split.
  - intros other Hother. apply render_sql_inputs. rewrite Hsame.
    unfold sql_inputs, ClarificationEngine.apply_answers. cbn.
    rewrite !lookup_insert_ne; [reflexivity| | |];
      intros E; apply Hother; rewrite E; cbn; tauto.
  - intros. apply render_sql_inputs. rewrite Hsame. reflexivity.
Qed.

Lemma render_reads_sql_inputs_demo :
  SQLGenerator.render SampleData.gmv_spec settlement_session
  = SQLGenerator.render SampleData.gmv_spec
      (MetricAgent.resolve_conflict SampleData.demo_agent settlement_session "switch_pay").
Proof.
  refine (proj1 (render_reads_sql_inputs SampleData.gmv_spec settlement_session
                   (MetricAgent.resolve_conflict SampleData.demo_agent settlement_session
                      "switch_pay") _)).
  vm_compute. reflexivity.
Defined.

Lemma scan_plain_text (kwargs : list (string * string)) (template out : string) :
  Str.contains "{" template = false -> Str.contains "}" template = false ->
  PyFormat.scan kwargs PyFormat.Text template out = Returns (out ++ template).
Proof.
  revert out. induction template as [|c t IH]; intros out Hl Hr.
  - cbn. now rewrite append_empty_r.
  - rewrite contains_cons in Hl, Hr. apply orb_false_iff in Hl as [Hl Hl'], Hr as [Hr Hr'].
    cbn [PyFormat.scan].
    destruct (Ascii.eqb_spec c PyFormat.lbrace) as [->|_];
      [destruct t; discriminate|].
    destruct (Ascii.eqb_spec c PyFormat.rbrace) as [->|_];
      [destruct t; discriminate|].
    rewrite (IH _ Hl' Hr'). unfold PyFormat.snoc. rewrite append_assoc. reflexivity.
Qed.

(** X10: a template override without braces is returned as it is: the
    filters of the specification, the time range and the answers are then
    absent from the SQL, whatever the session holds. *)
Theorem render_literal_override (spec : MetricSpec.t) (state : SessionState.t) (override : string)
  (Hoverride : PhysicalMapping.sql_template (MetricSpec.physical spec) = Some override)
  (Hnonempty : override <> "")
  (Hopen : Str.contains "{" override = false)
  (Hclose : Str.contains "}" override = false) :
  SQLGenerator.render spec state = Returns override.
Proof.
  unfold SQLGenerator.render, SQLGenerator.template, PyFormat.format. rewrite Hoverride.
  destruct override as [|c t]; [contradiction|]. cbn [Str.truthy].
  exact (scan_plain_text _ _ "" Hopen Hclose).
Qed.

Lemma render_literal_override_demo :
  SQLGenerator.render literal_spec demo_session
  = Returns "SELECT pay_date, SUM(pay_gmv_amt) FROM dws_trade_order_day GROUP BY pay_date".
Proof.
  apply (render_literal_override literal_spec demo_session);
    [reflexivity | discriminate | reflexivity | reflexivity].
Defined.

(** ** clarification.py: the questions asked *)

Lemma in_firstn {A : Type} (n : nat) (l : list A) (x : A) : In x (firstn n l) -> In x l.
Proof. intros H. rewrite <- (firstn_skipn n l). apply in_or_app. now left. Qed.

Lemma NoDup_firstn_map {A B : Type} (f : A -> B) (n : nat) (l : list A) :
  List.NoDup (map f l) -> List.NoDup (map f (firstn n l)).
Proof.
  intros H. rewrite <- (firstn_skipn n l), map_app in H.
  exact (List.NoDup_app_remove_r _ _ H).
Qed.

Lemma ranked_items (state : SessionState.t) :
  Forall (fun item =>
            SessionState.clarifications state !! ClarificationQuestion.slot (snd item) = None
            /\ exists bank,
                 In bank ClarificationEngine.QUESTION_BANK
                 /\ snd item
                    = ClarificationQuestion.mk
                        (ClarificationQuestion.slot bank)
                        (ClarificationQuestion.question bank)
                        (ClarificationQuestion.options bank)
                        (ClarificationEngine._recommended_value
                           (ClarificationQuestion.slot bank) state))
         (ClarificationEngine.ranked state).
Proof.
  unfold ClarificationEngine.ranked. apply List.Forall_forall. intros item Hin.
  apply in_flat_map in Hin as (bank & Hbank & Hin). cbv zeta in Hin.
  destruct (SessionState.clarifications state !! ClarificationQuestion.slot bank) eqn:E;
    [destruct Hin|].
  destruct (0 <? _); [|destruct Hin].
  destruct Hin as [<-|[]]. cbn. split; [exact E|].
  exists bank. split; [exact Hbank | reflexivity].
Qed.

Lemma next_questions_ranked (engine : ClarificationEngine.t) (state : SessionState.t)
  (q : ClarificationQuestion.t) :
  In q (ClarificationEngine.next_questions engine state) ->
  exists gain, In (gain, q) (ClarificationEngine.ranked state).
Proof.
  unfold ClarificationEngine.next_questions. intros H.
  apply in_map_iff in H as ([gain q'] & E & Hin). cbn in E. subst q'. exists gain.
  destruct (slice_to_prefix (ClarificationEngine.max_questions engine)
              (sort_desc fst Z.ltb (ClarificationEngine.ranked state))) as [n En].
  rewrite En in Hin. apply in_firstn in Hin.
  exact (Permutation_in _ (sort_desc_perm fst Z.ltb _) Hin).
Qed.

Lemma next_questions_unanswered (engine : ClarificationEngine.t) (state : SessionState.t)
  (q : ClarificationQuestion.t) :
  In q (ClarificationEngine.next_questions engine state) ->
  SessionState.clarifications state !! ClarificationQuestion.slot q = None.
Proof.
  intros H. destruct (next_questions_ranked _ _ _ H) as [gain Hin].
  pose proof (ranked_items state) as F. rewrite List.Forall_forall in F.
  exact (proj1 (F _ Hin)).
Qed.

Lemma bank_slots_nodup :
  List.NoDup (map ClarificationQuestion.slot ClarificationEngine.QUESTION_BANK).
Proof.
  cbn. repeat constructor; cbn; intuition discriminate.
Qed.

Lemma recommended_value_bank (slot : string) (state : SessionState.t) :
  In slot (map ClarificationQuestion.slot ClarificationEngine.QUESTION_BANK) ->
  exists v, ClarificationEngine._recommended_value slot state = Some v /\ Str.truthy v = true.
Proof.
  intros Hslot. unfold ClarificationEngine._recommended_value.
  assert (Hfrom : exists v,
    match Counter.most_common_1
            (ClarificationEngine.slot_counts slot (SessionState.candidates state)) with
    | Some v => Some v
    | None => ClarificationEngine.bank_recommended slot
    end = Some v /\ Str.truthy v = true).
  { rewrite slot_counts_tally.
    destruct (Counter.most_common_1 _) as [v|] eqn:E; [|exact (bank_recommended_some slot Hslot)].
    exists v. split; [reflexivity|].
    destruct (most_common_tally _ _ E) as (_ & l1 & l2 & El & _).
    destruct (candidate_values_in slot v (SessionState.candidates state)) as (c & _ & Hc).
    - rewrite El. apply in_or_app. right. now left.
    - exact (slot_values_lookup _ _ _ Hc). }
  cbv zeta. destruct (SessionState.selected_spec state) as [selected|]; [|exact Hfrom].
  destruct (ClarificationEngine._slot_values_for_spec selected !! slot) as [v|] eqn:E;
    [|exact Hfrom].
  exists v. split; [reflexivity|]. exact (slot_values_lookup _ _ _ E).
Qed.

(** X11: every question [next_questions] returns is a question of the
    bank, with the bank's wording and options, for a slot that has no answer
    yet; its recommended value is the one [_recommended_value] computes, and
    it is always present and non-empty; no slot is asked twice. *)
Theorem next_questions_wellformed (engine : ClarificationEngine.t) (state : SessionState.t) :
  let questions := ClarificationEngine.next_questions engine state in
  List.NoDup (map ClarificationQuestion.slot questions)
  /\ Forall
       (fun q =>
          SessionState.clarifications state !! ClarificationQuestion.slot q = None
          /\ (exists bank,
                In bank ClarificationEngine.QUESTION_BANK
                /\ ClarificationQuestion.slot q = ClarificationQuestion.slot bank
                /\ ClarificationQuestion.question q = ClarificationQuestion.question bank
                /\ ClarificationQuestion.options q = ClarificationQuestion.options bank)
          /\ ClarificationQuestion.recommended q
             = ClarificationEngine._recommended_value (ClarificationQuestion.slot q) state
          /\ exists v, ClarificationQuestion.recommended q = Some v /\ Str.truthy v = true)
       questions.
Proof.
  cbv zeta. split.
  - unfold ClarificationEngine.next_questions. rewrite map_map.
    destruct (slice_to_prefix (ClarificationEngine.max_questions engine)
                (sort_desc fst Z.ltb (ClarificationEngine.ranked state))) as [n ->].
    apply NoDup_firstn_map.
    apply (Permutation_NoDup
             (Permutation_sym
                (Permutation_map _ (sort_desc_perm fst Z.ltb (ClarificationEngine.ranked state))))).
    rewrite ranked_slots. apply List.NoDup_filter, bank_slots_nodup.
  - apply List.Forall_forall. intros q Hq.
    destruct (next_questions_ranked _ _ _ Hq) as [gain Hin].
    pose proof (ranked_items state) as F. rewrite List.Forall_forall in F.
    destruct (F _ Hin) as (Hnone & bank & Hbank & Eq). cbn [snd] in Hnone, Eq.
    split; [exact Hnone|]. rewrite Eq. cbn.
    split; [exists bank; repeat split; exact Hbank|]. split; [reflexivity|].
    apply recommended_value_bank, in_map, Hbank.
Qed.

(** X12: where the recommended value of a slot comes from.  The value
    the selected specification gives the slot wins.  Without one, it is the
    value most candidates give the slot, the one met first in candidate
    order among equally frequent ones; and with no candidate giving a value,
    it is the recommendation of the bank question for the slot (none for a
    slot the bank does not have). *)
Theorem recommended_value_source (slot : string) (state : SessionState.t) :
  let values := candidate_values slot (SessionState.candidates state) in
  let selected_value :=
    match SessionState.selected_spec state with
    | Some selected => ClarificationEngine._slot_values_for_spec selected !! slot
    | None => None
    end in
  match selected_value with
  | Some v => ClarificationEngine._recommended_value slot state = Some v
  | None =>
    match values with
    | [] => ClarificationEngine._recommended_value slot state
            = ClarificationEngine.bank_recommended slot
    | _ :: _ =>
      exists v before after,
        ClarificationEngine._recommended_value slot state = Some v
        /\ values = (before ++ v :: after)%list
        /\ ~ In v before
        /\ (forall w, occurrences w values <= occurrences v values)
        /\ (forall w, In w before -> occurrences w values < occurrences v values)
    end
  end.
Proof.
  cbv zeta. unfold ClarificationEngine._recommended_value. rewrite slot_counts_tally.
  assert (Hfrom :
    match candidate_values slot (SessionState.candidates state) with
    | [] =>
      match Counter.most_common_1 (tally (candidate_values slot (SessionState.candidates state)))
      with
      | Some v => Some v
      | None => ClarificationEngine.bank_recommended slot
      end = ClarificationEngine.bank_recommended slot
    | _ :: _ =>
      exists v before after,
        match Counter.most_common_1
                (tally (candidate_values slot (SessionState.candidates state))) with
        | Some v => Some v
        | None => ClarificationEngine.bank_recommended slot
        end = Some v
        /\ candidate_values slot (SessionState.candidates state) = (before ++ v :: after)%list
        /\ ~ In v before
        /\ (forall w, occurrences w (candidate_values slot (SessionState.candidates state))
                      <= occurrences v (candidate_values slot (SessionState.candidates state)))
        /\ (forall w, In w before ->
                      occurrences w (candidate_values slot (SessionState.candidates state))
                      < occurrences v (candidate_values slot (SessionState.candidates state)))
    end).
  { destruct (Counter.most_common_1 _) as [v|] eqn:E.
    - destruct (most_common_tally _ _ E) as (Hmax & l1 & l2 & El & Hl1 & Hlt).
      destruct (candidate_values slot (SessionState.candidates state)) as [|y l] eqn:Ev.
      + destruct l1; discriminate.
      + exists v, l1, l2. repeat split; assumption.
    - apply most_common_tally_none in E. rewrite E. reflexivity. }
  destruct (SessionState.selected_spec state) as [selected|]; [|exact Hfrom].
  destruct (ClarificationEngine._slot_values_for_spec selected !! slot) as [v|];
    [reflexivity | exact Hfrom].
Qed.

Lemma recommended_value_frame (slot : string) (state : SessionState.t)
  (clarifications : gmap string ClarificationAnswer.t) :
  ClarificationEngine._recommended_value slot
    (SessionState.set_clarifications clarifications state)
  = ClarificationEngine._recommended_value slot state.
Proof. reflexivity. Qed.

(** X13: the slot form has one entry for each bank question, in bank
    order, with the bank's wording and options.  After answers are applied,
    the entry of a slot shows the value of the last answer given for the
    slot, else the value answered before, else the recommended value, which
    the answers do not change. *)
Theorem slot_form_after_answers (state : SessionState.t) (answers : list ClarificationAnswer.t) :
  ClarificationEngine.slot_form (ClarificationEngine.apply_answers state answers)
  = map (fun bank =>
           let slot := ClarificationQuestion.slot bank in
           ClarificationEngine.mk_form_item slot
             (ClarificationQuestion.question bank)
             (ClarificationQuestion.options bank)
             match last_answer slot answers with
             | Some ans => Some (ClarificationAnswer.value ans)
             | None =>
               match SessionState.clarifications state !! slot with
               | Some ans => Some (ClarificationAnswer.value ans)
               | None => ClarificationEngine._recommended_value slot state
               end
             end)
        ClarificationEngine.QUESTION_BANK.
Proof.
  unfold ClarificationEngine.slot_form. apply map_ext. intros bank. cbv zeta.
  rewrite apply_answers_lookup. f_equal.
  destruct (last_answer _ answers); [reflexivity|].
  destruct (SessionState.clarifications state !! _); [reflexivity|].
  rewrite apply_answers_frame. apply recommended_value_frame.
Qed.

(** X14: after [clarify], no slot answered in the call or before it is
    asked again; once the three slots of the bank are answered there is no
    question left. *)
Theorem clarify_answered_not_asked
  (agent : MetricAgent.t) (engine : ClarificationEngine.t) (state : SessionState.t)
  (answers : list ClarificationAnswer.t) :
  let questions :=
    ClarificationEngine.next_questions engine (MetricAgent.clarify agent state answers) in
  (forall q ans, In q questions -> In ans answers ->
                 ClarificationQuestion.slot q <> ClarificationAnswer.slot ans)
  /\ (forall q, In q questions ->
                SessionState.clarifications state !! ClarificationQuestion.slot q = None)
  /\ ((forall slot,
         In slot (map ClarificationQuestion.slot ClarificationEngine.QUESTION_BANK) ->
         In slot (map ClarificationAnswer.slot answers)
         \/ is_Some (SessionState.clarifications state !! slot)) ->
      questions = []).
Proof.
  cbv zeta.
  assert (Hun : forall q,
    In q (ClarificationEngine.next_questions engine (MetricAgent.clarify agent state answers)) ->
    last_answer (ClarificationQuestion.slot q) answers = None
    /\ SessionState.clarifications state !! ClarificationQuestion.slot q = None).
  { intros q Hq. apply next_questions_unanswered in Hq.
    rewrite clarify_clarifications, apply_answers_lookup in Hq.
    destruct (last_answer _ answers); [discriminate|]. split; [reflexivity | exact Hq]. }
  split; [|split].
  - intros q ans Hq Hans E. destruct (Hun q Hq) as [Hlast _].
    destruct (last_answer_in answers ans Hans) as [final Hfinal].
    rewrite E in Hlast. congruence.
  - intros q Hq. exact (proj2 (Hun q Hq)).
  - intros Hall.
    destruct (ClarificationEngine.next_questions engine _) as [|q rest] eqn:E; [reflexivity|].
    exfalso.
    assert (Hq : In q (ClarificationEngine.next_questions engine
                         (MetricAgent.clarify agent state answers))) by (rewrite E; now left).
    destruct (Hun q (or_introl eq_refl)) as [Hlast Hnone].
    destruct (next_questions_ranked _ _ _ Hq) as [gain Hin].
    pose proof (ranked_items (MetricAgent.clarify agent state answers)) as F.
    rewrite List.Forall_forall in F.
    destruct (F _ Hin) as (_ & bank & Hbank & Eq). cbn [snd] in Eq.
    assert (Hslot : ClarificationQuestion.slot q = ClarificationQuestion.slot bank)
      by (rewrite Eq; reflexivity).
    destruct (Hall (ClarificationQuestion.slot q)) as [Hans|Hsome].
    + rewrite Hslot. apply in_map, Hbank.
    + apply in_map_iff in Hans as (ans & Eans & Hans).
      destruct (last_answer_in answers ans Hans) as [final Hfinal].
      rewrite Eans in Hfinal. congruence.
    + rewrite Hnone in Hsome. destruct Hsome as [? ?]. discriminate.
Qed.

Lemma last_answer_perm (answers answers' : list ClarificationAnswer.t) (slot : string) :
  List.NoDup (map ClarificationAnswer.slot answers) ->
  Permutation answers answers' ->
  last_answer slot answers = last_answer slot answers'.
Proof.
  intros Hnd Hperm.
  assert (Hnd' : List.NoDup (map ClarificationAnswer.slot answers'))
    by exact (Permutation_NoDup (Permutation_map _ Hperm) Hnd).
  assert (Huniq : forall l a b,
    List.NoDup (map ClarificationAnswer.slot l) -> In a l -> In b l ->
    ClarificationAnswer.slot a = ClarificationAnswer.slot b -> a = b).
  { induction l as [|x l IH]; intros a b Hl Ha Hb E; [destruct Ha|].
    cbn in Hl. inversion Hl as [|? ? Hx Hl']; subst.
    destruct Ha as [->|Ha], Hb as [->|Hb]; try reflexivity.
    - exfalso. apply Hx. rewrite E. apply in_map, Hb.
    - exfalso. apply Hx. rewrite <- E. apply in_map, Ha.
    - exact (IH a b Hl' Ha Hb E). }
  destruct (last_answer slot answers) as [a|] eqn:Ea,
           (last_answer slot answers') as [b|] eqn:Eb; try reflexivity.
  - apply last_answer_some in Ea as [Ha Sa], Eb as [Hb Sb].
    f_equal. apply (Huniq answers' a b Hnd'); [exact (Permutation_in _ Hperm Ha) | exact Hb |].
    congruence.
  - apply last_answer_some in Ea as [Ha Sa].
    destruct (last_answer_in answers' a (Permutation_in _ Hperm Ha)) as [final Hf].
    rewrite Sa in Hf. congruence.
  - apply last_answer_some in Eb as [Hb Sb].
    destruct (last_answer_in answers b (Permutation_in _ (Permutation_sym Hperm) Hb))
      as [final Hf].
    rewrite Sb in Hf. congruence.
Qed.

(** X15: answers for different slots can be applied in any order: for
    two lists of answers that are permutations of each other, with no slot
    answered twice, the sessions hold the same answer under every slot, and
    the SQL rendered from them is the same. *)
Theorem apply_answers_any_order
  (state : SessionState.t) (answers answers' : list ClarificationAnswer.t) (spec : MetricSpec.t)
  (Hdistinct : List.NoDup (map ClarificationAnswer.slot answers))
  (Hperm : Permutation answers answers') :
  (forall slot,
     SessionState.clarifications (ClarificationEngine.apply_answers state answers) !! slot
     = SessionState.clarifications (ClarificationEngine.apply_answers state answers') !! slot)
  /\ SQLGenerator.render spec (ClarificationEngine.apply_answers state answers)
     = SQLGenerator.render spec (ClarificationEngine.apply_answers state answers').
Proof.
  assert (Hlookup : forall slot,
    SessionState.clarifications (ClarificationEngine.apply_answers state answers) !! slot
    = SessionState.clarifications (ClarificationEngine.apply_answers state answers') !! slot).
  { intros slot.
    now rewrite !apply_answers_lookup, (last_answer_perm answers answers' slot Hdistinct Hperm). }
  split; [exact Hlookup|].
  apply render_sql_inputs. unfold sql_inputs. cbn [map]. rewrite !Hlookup.
  now rewrite (apply_answers_frame state answers), (apply_answers_frame state answers').
Qed.

Lemma apply_answers_any_order_demo :
  SQLGenerator.render SampleData.gmv_spec
    (ClarificationEngine.apply_answers demo_session
       [ClarificationAnswer.mk "metric_caliber" "结算";
        ClarificationAnswer.mk "time_semantics" "业务日"])
  = SQLGenerator.render SampleData.gmv_spec
      (ClarificationEngine.apply_answers demo_session
         [ClarificationAnswer.mk "time_semantics" "业务日";
          ClarificationAnswer.mk "metric_caliber" "结算"]).
Proof.
  refine (proj2 (apply_answers_any_order demo_session _ _ SampleData.gmv_spec _ _)).
  - cbn. repeat constructor; cbn; intuition discriminate.
  - apply perm_swap.
Defined.

(** X16: for the slots industry_mapping and time_semantics the
    recommended value is always one of the options of the bank question,
    whatever the catalog holds: the values derived from a specification for
    these slots are among the options, and so is the bank's own
    recommendation.  (For metric_caliber the value is the caliber label of a
    specification, which need not be an option.) *)
Theorem recommended_is_an_option (state : SessionState.t) :
  Forall
    (fun bank =>
       ClarificationQuestion.slot bank <> "metric_caliber" ->
       exists v,
         ClarificationEngine._recommended_value (ClarificationQuestion.slot bank) state = Some v
         /\ In v (ClarificationQuestion.options bank))
    ClarificationEngine.QUESTION_BANK.
Proof.
  assert (Hvalue : forall slot (allowed options : list string),
    (forall spec v, ClarificationEngine._slot_values_for_spec spec !! slot = Some v ->
                    In v allowed) ->
    (forall v, In v allowed -> In v options) ->
    (exists v, ClarificationEngine.bank_recommended slot = Some v /\ In v options) ->
    exists v, ClarificationEngine._recommended_value slot state = Some v /\ In v options).
  { intros slot allowed options Hclosed Hsub Hbank.
    assert (Hfrom : exists v,
      match Counter.most_common_1
              (ClarificationEngine.slot_counts slot (SessionState.candidates state)) with
      | Some v => Some v
      | None => ClarificationEngine.bank_recommended slot
      end = Some v /\ In v options).
    { rewrite slot_counts_tally.
      destruct (Counter.most_common_1 _) as [v|] eqn:E; [|exact Hbank].
      exists v. split; [reflexivity|].
      destruct (most_common_tally _ _ E) as (_ & l1 & l2 & El & _).
      destruct (candidate_values_in slot v (SessionState.candidates state)) as (c & _ & Hc).
      - rewrite El. apply in_or_app. right. now left.
      - exact (Hsub _ (Hclosed _ _ Hc)). }
    unfold ClarificationEngine._recommended_value. cbv zeta.
    destruct (SessionState.selected_spec state) as [selected|]; [|exact Hfrom].
    destruct (ClarificationEngine._slot_values_for_spec selected !! slot) as [v|] eqn:E;
      [|exact Hfrom].
    exists v. split; [reflexivity|]. exact (Hsub _ (Hclosed _ _ E)). }
  unfold ClarificationEngine.QUESTION_BANK.
  repeat constructor; cbn [ClarificationQuestion.slot ClarificationQuestion.options].
  - intros H. now elim H.
  - intros _. apply (Hvalue "industry_mapping" ["商家行业"; "类目行业"]).
    + intros spec v. exact (proj1 (slot_values_closed spec v)).
    + cbn. intuition.
    + eexists. split; [reflexivity|]. cbn. tauto.
  - intros _. apply (Hvalue "time_semantics" ["自然日(UTC+8)"; "业务日"]).
    + intros spec v. exact (proj2 (slot_values_closed spec v)).
    + cbn. intuition.
    + eexists. split; [reflexivity|]. cbn. tauto.
Qed.

(** ** stores.py: the pools *)

(** X17: adding to a pool and looking up.  The specification added is
    the one found under its id afterwards, the other ids of the pool and the
    other pool are as before; an id already in the pool keeps its place and
    gets the new specification, a new id goes to the end, so a pool never
    holds an id twice. *)
Theorem add_then_lookup (store : AssetStore.t) (spec : MetricSpec.t) :
  let id := MetricSpec.spec_id spec in
  let added := AssetStore.add_cold spec store in
  let added_hot := AssetStore.add_hot spec store in
  (PyDict.get id (AssetStore.cold_specs added) = Some spec
   /\ (forall other, other <> id ->
         PyDict.get other (AssetStore.cold_specs added)
         = PyDict.get other (AssetStore.cold_specs store))
   /\ AssetStore.hot_specs added = AssetStore.hot_specs store
   /\ PyDict.keys (AssetStore.cold_specs added)
      = match PyDict.get id (AssetStore.cold_specs store) with
        | Some _ => PyDict.keys (AssetStore.cold_specs store)
        | None => (PyDict.keys (AssetStore.cold_specs store) ++ [id])%list
        end
   /\ (List.NoDup (PyDict.keys (AssetStore.cold_specs store)) ->
       List.NoDup (PyDict.keys (AssetStore.cold_specs added))))
  /\ (PyDict.get id (AssetStore.hot_specs added_hot) = Some spec
      /\ (forall other, other <> id ->
            PyDict.get other (AssetStore.hot_specs added_hot)
            = PyDict.get other (AssetStore.hot_specs store))
      /\ AssetStore.cold_specs added_hot = AssetStore.cold_specs store
      /\ PyDict.keys (AssetStore.hot_specs added_hot)
         = match PyDict.get id (AssetStore.hot_specs store) with
           | Some _ => PyDict.keys (AssetStore.hot_specs store)
           | None => (PyDict.keys (AssetStore.hot_specs store) ++ [id])%list
           end
      /\ (List.NoDup (PyDict.keys (AssetStore.hot_specs store)) ->
          List.NoDup (PyDict.keys (AssetStore.hot_specs added_hot)))).
Proof.
  cbv zeta. unfold AssetStore.add_cold, AssetStore.add_hot. cbn.
  split; (split; [apply dict_get_set_eq|]);
    (split; [intros other Hne; now apply dict_get_set_ne|]);
    (split; [reflexivity|]);
    (split; [apply dict_set_keys | apply dict_set_keys_nodup]).
Qed.

(** X18: the two pools are not merged by id: a specification added to
    the cold pool and to the hot pool is enumerated twice by [get_all], once
    for each pool, and so can be retrieved as two candidates. *)
Theorem get_all_both_pools (store : AssetStore.t) (spec : MetricSpec.t) :
  let both := AssetStore.add_hot spec (AssetStore.add_cold spec store) in
  (exists l1 l2 l3, fst (AssetStore.get_all both) = (l1 ++ spec :: l2 ++ spec :: l3)%list)
  /\ (forall keywords,
        fst (CandidateSelector.retrieve
               (AssetStore.add_hot spec (AssetStore.add_cold spec AssetStore.empty))
               keywords CandidateSelector.default_top_k)
        = [Candidate.mk spec
             (CandidateSelector._score_spec spec (list_to_set (map Str.lower keywords)));
           Candidate.mk spec
             (CandidateSelector._score_spec spec (list_to_set (map Str.lower keywords)))]).
Proof.
  cbv zeta. split.
  - unfold AssetStore.get_all, AssetStore.add_hot, AssetStore.add_cold.
    cbn [fst AssetStore.cold_specs AssetStore.hot_specs].
    destruct (in_split _ _ (dict_set_in (MetricSpec.spec_id spec) spec
                              (AssetStore.cold_specs store))) as (a & b & Ea).
    destruct (in_split _ _ (dict_set_in (MetricSpec.spec_id spec) spec
                              (AssetStore.hot_specs store))) as (c & d & Ec).
    rewrite Ea, Ec. exists a, (b ++ c)%list, d.
    rewrite <- !app_assoc. reflexivity.
  - intros keywords.
    unfold CandidateSelector.retrieve, CandidateSelector.ranked, CandidateSelector.scored. cbn.
    destruct (PyFloat.ltb _ _); reflexivity.
Qed.

(** X19: [mark_verified] looks in the hot pool only: an id that is not
    there, be it in the cold pool, leaves the store as it is.  An id of the
    hot pool gets the status verified and nothing else of its specification
    changes; the ids of both pools stay in place, and marking again changes
    nothing. *)
Theorem mark_verified_hot_only (store : AssetStore.t) (spec_id : string) :
  let marked := AssetStore.mark_verified spec_id store in
  (PyDict.get spec_id (AssetStore.hot_specs store) = None -> marked = store)
  /\ (forall spec,
        PyDict.get spec_id (AssetStore.hot_specs store) = Some spec ->
        exists spec',
          PyDict.get spec_id (AssetStore.hot_specs marked) = Some spec'
          /\ MetricMeta.status (MetricSpec.meta spec') = "verified"
          /\ MetricSpec.set_meta (MetricMeta.set_status "verified" (MetricSpec.meta spec)) spec
             = spec')
  /\ PyDict.keys (AssetStore.hot_specs marked) = PyDict.keys (AssetStore.hot_specs store)
  /\ PyDict.keys (AssetStore.cold_specs marked) = PyDict.keys (AssetStore.cold_specs store)
  /\ AssetStore.mark_verified spec_id marked = marked.
Proof.
  cbv zeta. unfold AssetStore.mark_verified.
  destruct (PyDict.get spec_id (AssetStore.hot_specs store)) as [spec|] eqn:E.
  - cbn [AssetStore.hot_specs AssetStore.cold_specs].
    split; [discriminate|]. split; [|split; [|split]].
    + intros spec0 [= <-]. eexists. split; [apply dict_get_set_eq|]. split; reflexivity.
    + rewrite dict_set_keys, E. reflexivity.
    + reflexivity.
    + rewrite dict_get_set_eq. cbn. rewrite dict_set_idem. reflexivity.
  - rewrite E. repeat split. discriminate.
Qed.

Lemma bump_usage_known (spec_id : string) (store : AssetStore.t) (spec : MetricSpec.t) :
  PyDict.get spec_id (AssetStore.hot_specs store) = Some spec
  \/ (PyDict.get spec_id (AssetStore.hot_specs store) = None
      /\ PyDict.get spec_id (AssetStore.cold_specs store) = Some spec) ->
  let bumped := AssetStore.bump_usage spec_id store in
  (PyDict.get spec_id (AssetStore.hot_specs store) = Some spec
   /\ PyDict.get spec_id (AssetStore.hot_specs bumped) = Some (AssetStore.bump spec))
  \/ (PyDict.get spec_id (AssetStore.hot_specs bumped) = None
      /\ PyDict.get spec_id (AssetStore.cold_specs bumped) = Some (AssetStore.bump spec)).
Proof.
  cbv zeta. unfold AssetStore.bump_usage. intros [E|[E1 E2]].
  - rewrite E. left. split; [reflexivity|]. apply dict_get_set_eq.
  - rewrite E1, E2. right. split; [exact E1|]. apply dict_get_set_eq.
Qed.

(** The usage counter read through an id: the hot pool first, then the
    cold one. *)
Lemma bump_usage_iter (n : nat) (spec_id : string) (store : AssetStore.t) (spec : MetricSpec.t) :
  PyDict.get spec_id (AssetStore.hot_specs store) = Some spec
  \/ (PyDict.get spec_id (AssetStore.hot_specs store) = None
      /\ PyDict.get spec_id (AssetStore.cold_specs store) = Some spec) ->
  exists spec',
    (PyDict.get spec_id (AssetStore.hot_specs (Nat.iter n (AssetStore.bump_usage spec_id) store))
     = Some spec'
     \/ (PyDict.get spec_id
           (AssetStore.hot_specs (Nat.iter n (AssetStore.bump_usage spec_id) store)) = None
         /\ PyDict.get spec_id
              (AssetStore.cold_specs (Nat.iter n (AssetStore.bump_usage spec_id) store))
            = Some spec'))
    /\ MetricMeta.usage_count (MetricSpec.meta spec')
       = MetricMeta.usage_count (MetricSpec.meta spec) + Z.of_nat n
    /\ MetricSpec.set_meta
         (MetricMeta.set_usage_count (MetricMeta.usage_count (MetricSpec.meta spec'))
            (MetricSpec.meta spec)) spec
       = spec'.
Proof.
  intros H. induction n as [|n (spec' & Hfound & Hcount & Hrest)].
  - exists spec. cbn. split; [exact H|]. split; [lia|]. now destruct spec as [? [] ? ? ?].
  - exists (AssetStore.bump spec'). cbn [Nat.iter]. split; [|split].
    + destruct (bump_usage_known spec_id _ spec' Hfound) as [[_ E]|[E1 E2]]; [now left|now right].
    + cbn. rewrite Hcount. lia.
    + rewrite <- Hrest. reflexivity.
Qed.

(** X20: [bump_usage] counts on the specification found under the id,
    in the hot pool first and in the cold pool otherwise: n calls raise its
    usage counter by n and change nothing else of it; an id in neither pool
    leaves the store as it is. *)
Theorem bump_usage_counts (n : nat) (spec_id : string) (store : AssetStore.t) :
  let found s :=
    match PyDict.get spec_id (AssetStore.hot_specs s) with
    | Some spec => Some spec
    | None => PyDict.get spec_id (AssetStore.cold_specs s)
    end in
  match found store with
  | None => AssetStore.bump_usage spec_id store = store
  | Some spec =>
    found (Nat.iter n (AssetStore.bump_usage spec_id) store)
    = Some (MetricSpec.set_meta
              (MetricMeta.set_usage_count
                 (MetricMeta.usage_count (MetricSpec.meta spec) + Z.of_nat n)
                 (MetricSpec.meta spec))
              spec)
  end.
Proof.
  cbv beta zeta.
  destruct (PyDict.get spec_id (AssetStore.hot_specs store)) as [spec|] eqn:E1.
  - destruct (bump_usage_iter n spec_id store spec (or_introl E1))
      as (spec' & [F|[F1 F2]] & Hcount & Hrest).
    + rewrite F, <- Hcount, Hrest. reflexivity.
    + rewrite F1, F2, <- Hcount, Hrest. reflexivity.
  - destruct (PyDict.get spec_id (AssetStore.cold_specs store)) as [spec|] eqn:E2.
    + destruct (bump_usage_iter n spec_id store spec (or_intror (conj E1 E2)))
        as (spec' & [F|[F1 F2]] & Hcount & Hrest).
      * rewrite F, <- Hcount, Hrest. reflexivity.
      * rewrite F1, F2, <- Hcount, Hrest. reflexivity.
    + unfold AssetStore.bump_usage. rewrite E1, E2. reflexivity.
Qed.

(** ** stores.py: the keywords of the retriever *)

Lemma keyword_set_eq (keywords keywords' : list string) :
  (forall k, In k (map Str.lower keywords) <-> In k (map Str.lower keywords')) ->
  (list_to_set (map Str.lower keywords) : gset string)
  = list_to_set (map Str.lower keywords').
Proof.
  intros H. apply set_eq. intros k.
  rewrite !elem_of_list_to_set, !list_elem_of_In. apply H.
Qed.

Lemma retrieve_keyword_set (store : AssetStore.t) (keywords keywords' : list string) (top_k : Z) :
  (forall k, In k (map Str.lower keywords) <-> In k (map Str.lower keywords')) ->
  CandidateSelector.retrieve store keywords' top_k
  = CandidateSelector.retrieve store keywords top_k.
Proof.
  intros H. unfold CandidateSelector.retrieve. now rewrite (keyword_set_eq _ _ H).
Qed.

(** X21: the retriever reads its keywords as a set of lowercased words:
    two keyword lists with the same lowercased words give the same
    candidates with the same scores, whatever the case, the order and the
    repetitions of the keywords.  It returns exactly [top_k] candidates,
    or the whole catalog if that is smaller; a negative [top_k] is not an
    error: it drops that many candidates from the end of the ranking. *)
Theorem retrieve_keywords_as_set
  (store : AssetStore.t) (intent_keywords : list string) (top_k : Z) :
  (forall keywords',
     (forall k, In k (map Str.lower intent_keywords) <-> In k (map Str.lower keywords')) ->
     CandidateSelector.retrieve store keywords' top_k
     = CandidateSelector.retrieve store intent_keywords top_k)
  /\ CandidateSelector.retrieve store (map Str.lower intent_keywords) top_k
     = CandidateSelector.retrieve store intent_keywords top_k
  /\ CandidateSelector.retrieve store (rev intent_keywords) top_k
     = CandidateSelector.retrieve store intent_keywords top_k
  /\ CandidateSelector.retrieve store (intent_keywords ++ intent_keywords) top_k
     = CandidateSelector.retrieve store intent_keywords top_k
  /\ (let size :=
        (length (AssetStore.cold_specs store) + length (AssetStore.hot_specs store))%nat in
      Z.of_nat (length (fst (CandidateSelector.retrieve store intent_keywords top_k)))
      = if top_k <? 0 then Z.max 0 (Z.of_nat size + top_k) else Z.min top_k (Z.of_nat size)).
Proof.
  split; [intros keywords'; apply retrieve_keyword_set|].
  split; [|split; [|split]].
  - apply retrieve_keyword_set. intros k. rewrite map_map.
    rewrite (map_ext (fun x => Str.lower (Str.lower x)) Str.lower); [reflexivity|].
    exact lower_idem.
  - apply retrieve_keyword_set. intros k. rewrite map_rev. apply in_rev.
  - apply retrieve_keyword_set. intros k. rewrite map_app, in_app_iff. tauto.
  - cbv zeta. unfold CandidateSelector.retrieve, AssetStore.get_all.
    cbn [fst]. rewrite length_map. unfold slice_to.
    assert (Hlen : length (CandidateSelector.ranked
                             (PyDict.values (AssetStore.cold_specs store)
                              ++ PyDict.values (AssetStore.hot_specs store))
                             (list_to_set (map Str.lower intent_keywords)))
                   = (length (AssetStore.cold_specs store)
                      + length (AssetStore.hot_specs store))%nat).
    { unfold CandidateSelector.ranked, CandidateSelector.scored, PyDict.values.
      now rewrite sort_desc_length, length_map, length_app, !length_map. }
    destruct (Z.ltb_spec top_k 0); rewrite length_firstn, Hlen; lia.
Qed.

(** ** agent.py: the session from start to SQL *)

Lemma start_session_route (agent : MetricAgent.t) (session_id query user : string)
  (force_expert : bool) :
  let gated := MetricAgent.start_session_gated agent session_id query user in
  let session := MetricAgent.start_session agent session_id query user force_expert in
  session = SessionState.set_route_expert (SessionState.route_expert session) gated
  /\ (SessionState.route_expert gated = true -> SessionState.route_expert session = true).
Proof.
  cbv zeta. unfold MetricAgent.start_session.
  destruct (MetricAgent.start_session_gated agent session_id query user)
    as [sid usr intent cands clar sel conf route conflict fwd].
  destruct conflict, force_expert; cbn; split; try reflexivity; auto.
Qed.

Lemma start_session_gated_shape (agent : MetricAgent.t) (session_id query user : string) :
  let intent := IntentParser.parse (MetricAgent.parser agent) query in
  let keywords :=
    match ParsedIntent.metrics intent with
    | [] => [query]
    | metrics => metrics
    end in
  let gated := MetricAgent.start_session_gated agent session_id query user in
  SessionState.session_id gated = session_id
  /\ SessionState.user gated = user
  /\ SessionState.intent gated = intent
  /\ SessionState.clarifications gated = ∅
  /\ SessionState.forwarded_to gated = None
  /\ SessionState.candidates gated
     = fst (CandidateSelector.retrieve (MetricAgent.store agent) keywords
              CandidateSelector.default_top_k)
  /\ match SessionState.candidates gated with
     | [] => SessionState.selected_spec gated = None
             /\ SessionState.route_expert gated = true
             /\ SessionState.confidence gated = PyFloat.f0_0
     | top :: _ => (SessionState.selected_spec gated = None
                    \/ SessionState.selected_spec gated = Some (Candidate.spec top))
                   /\ SessionState.confidence gated = Candidate.score top
     end.
Proof.
  cbv zeta. unfold MetricAgent.start_session_gated. cbv zeta.
  match goal with |- context [UncertaintyGate.evaluate ?g ?s] =>
    destruct (evaluate_frame g s) as (-> & -> & -> & Hc & -> & _ & ->)
  end.
  do 5 (split; [reflexivity|]). rewrite Hc. split; [reflexivity|].
  unfold UncertaintyGate.evaluate.
  cbn [SessionState.set_candidates SessionState.candidates SessionState.set_conflict
       SessionState.new].
  destruct (fst (CandidateSelector.retrieve _ _ _)) as [|top rest]; [cbn; auto|].
  repeat match goal with |- context [if ?b then _ else _] => destruct b end; cbn; auto.
Qed.

Lemma start_session_selection
  (agent : MetricAgent.t) (session_id query user : string) (force_expert : bool) :
  let session := MetricAgent.start_session agent session_id query user force_expert in
  match SessionState.candidates session with
  | [] => SessionState.selected_spec session = None
          /\ SessionState.route_expert session = true
          /\ SessionState.confidence session = PyFloat.f0_0
  | top :: _ => (SessionState.selected_spec session = None
                 \/ SessionState.selected_spec session = Some (Candidate.spec top))
                /\ SessionState.confidence session = Candidate.score top
  end.
Proof.
  cbv zeta.
  destruct (start_session_route agent session_id query user force_expert) as [-> Hroute].
  destruct (start_session_gated_shape agent session_id query user)
    as (_ & _ & _ & _ & _ & _ & H7).
  cbn [SessionState.set_route_expert SessionState.candidates SessionState.selected_spec
       SessionState.confidence SessionState.route_expert].
  destruct (SessionState.candidates
              (MetricAgent.start_session_gated agent session_id query user)) as [|top rest].
  - destruct H7 as (Hs & Hr & Hc). repeat split; try assumption. exact (Hroute Hr).
  - exact H7.
Qed.

(** X22: the session [start_session] returns.  It carries the id, the
    user and the parsed query as given, no answers and no forwarding; its
    candidates are those retrieved for the metric keywords found in the
    query, or for the whole query as one keyword when none is found, at most
    five; a specification selected at the start is the one of the top
    candidate and the confidence is the top score; without candidates
    nothing is selected, the confidence is 0 and the session is routed to an
    expert. *)
Theorem start_session_invariants
  (agent : MetricAgent.t) (session_id query user : string) (force_expert : bool) :
  let intent := IntentParser.parse (MetricAgent.parser agent) query in
  let keywords :=
    match ParsedIntent.metrics intent with
    | [] => [query]
    | metrics => metrics
    end in
  let session := MetricAgent.start_session agent session_id query user force_expert in
  SessionState.session_id session = session_id
  /\ SessionState.user session = user
  /\ SessionState.intent session = intent
  /\ ParsedIntent.raw_query (SessionState.intent session) = query
  /\ ParsedIntent.filters (SessionState.intent session) = []
  /\ SessionState.clarifications session = ∅
  /\ SessionState.forwarded_to session = None
  /\ SessionState.candidates session
     = fst (CandidateSelector.retrieve (MetricAgent.store agent) keywords
              CandidateSelector.default_top_k)
  /\ (length (SessionState.candidates session) <= 5)%nat
  /\ match SessionState.candidates session with
     | [] => SessionState.selected_spec session = None
             /\ SessionState.route_expert session = true
             /\ SessionState.confidence session = PyFloat.f0_0
     | top :: _ => (SessionState.selected_spec session = None
                    \/ SessionState.selected_spec session = Some (Candidate.spec top))
                   /\ SessionState.confidence session = Candidate.score top
     end.
Proof.
  cbv zeta.
  destruct (start_session_route agent session_id query user force_expert) as [-> Hroute].
  destruct (start_session_gated_shape agent session_id query user)
    as (H1 & H2 & H3 & H4 & H5 & H6 & H7).
  cbn [SessionState.set_route_expert SessionState.session_id SessionState.user
       SessionState.intent SessionState.clarifications SessionState.forwarded_to
       SessionState.candidates SessionState.selected_spec SessionState.confidence
       SessionState.route_expert].
  split; [exact H1|]. split; [exact H2|]. split; [exact H3|].
  split; [rewrite H3; reflexivity|]. split; [rewrite H3; reflexivity|].
  split; [exact H4|]. split; [exact H5|]. split; [exact H6|].
  split.
  - rewrite H6. unfold CandidateSelector.retrieve, AssetStore.get_all. cbn [fst].
    rewrite length_map.
    pose proof (slice_to_length CandidateSelector.default_top_k
                  (CandidateSelector.ranked
                     (PyDict.values (AssetStore.cold_specs (MetricAgent.store agent))
                      ++ PyDict.values (AssetStore.hot_specs (MetricAgent.store agent)))
                     (list_to_set
                        (map Str.lower
                           match ParsedIntent.metrics
                                   (IntentParser.parse (MetricAgent.parser agent) query) with
                           | [] => [query]
                           | m :: ms => m :: ms
                           end)))) as Hlen.
    unfold CandidateSelector.default_top_k in *. lia.
  - pose proof (start_session_selection agent session_id query user force_expert) as Hsel.
    cbv zeta in Hsel.
    rewrite (proj1 (start_session_route agent session_id query user force_expert)) in Hsel.
    exact Hsel.
Qed.

Lemma expert_decision_frame
  (agent : MetricAgent.t) (state : SessionState.t) (supplied : option Candidate.t)
  (top : Candidate.t) (rest : list Candidate.t) :
  SessionState.candidates state = top :: rest ->
  MetricAgent.apply_expert_decision agent state supplied
  = SessionState.set_route_expert false
      (SessionState.set_selected_spec
         (Some (Candidate.spec match supplied with Some c => c | None => top end)) state)
  /\ SessionState.candidates state = top :: rest
  /\ SessionState.conflict (MetricAgent.apply_expert_decision agent state supplied)
     = SessionState.conflict state.
Proof.
  intros Hc. rewrite (apply_expert_decision_with_candidates agent state supplied top rest Hc).
  repeat split. exact Hc.
Qed.

(** X23: an expert decision on a session with candidates settles it: the
    specification of the supplied candidate, or of the top candidate when
    none is supplied, is selected, whatever was selected before and whether
    or not the supplied candidate is one of the session's; the session is no
    longer routed and needs no clarification; [generate_sql] then renders
    that specification; a second, equal decision changes nothing. *)
Theorem expert_decision_settles
  (agent : MetricAgent.t) (state : SessionState.t) (supplied : option Candidate.t)
  (top : Candidate.t) (rest : list Candidate.t)
  (Hcandidates : SessionState.candidates state = top :: rest) :
  let chosen := Candidate.spec match supplied with Some c => c | None => top end in
  let decided := MetricAgent.apply_expert_decision agent state supplied in
  SessionState.selected_spec decided = Some chosen
  /\ SessionState.route_expert decided = false
  /\ UncertaintyGate.needs_clarification decided = false
  /\ fst (MetricAgent.generate_sql agent decided) = SQLGenerator.render chosen state
  /\ MetricAgent.apply_expert_decision agent decided supplied = decided
  /\ decided = SessionState.set_route_expert false
                 (SessionState.set_selected_spec (Some chosen) state).
Proof.
  cbv zeta. rewrite (apply_expert_decision_with_candidates agent state supplied top rest Hcandidates).
  unfold ExpertFeedbackApplier.apply.
  split; [reflexivity|]. split; [reflexivity|]. split; [reflexivity|].
  split; [reflexivity|]. split; [|reflexivity].
  unfold MetricAgent.apply_expert_decision. cbn. rewrite Hcandidates. reflexivity.
Qed.

Lemma expert_decision_settles_demo :
  let state :=
    MetricAgent.start_session SampleData.demo_agent "sid" "结算GMV当日走势" "alice" false in
  SessionState.route_expert state = true
  /\ SessionState.selected_spec (MetricAgent.apply_expert_decision SampleData.demo_agent state None)
     = Some SampleData.gmv_spec
  /\ SessionState.route_expert (MetricAgent.apply_expert_decision SampleData.demo_agent state None)
     = false.
Proof.
  intros state. split; [vm_compute; reflexivity|].
  destruct (expert_decision_settles SampleData.demo_agent state None
              (Candidate.mk SampleData.gmv_spec
                 (CandidateSelector._score_spec SampleData.gmv_spec {[ "gmv" ]}))
              (tl (SessionState.candidates state)))
    as (H1 & H2 & _).
  - vm_compute. reflexivity.
  - split; [exact H1 | exact H2].
Defined.

Lemma clarify_with_candidates (agent : MetricAgent.t) (state : SessionState.t)
  (answers : list ClarificationAnswer.t) (top : Candidate.t) (rest : list Candidate.t) :
  SessionState.candidates state = top :: rest ->
  MetricAgent.clarify agent state answers
  = SessionState.set_selected_spec (Some (Candidate.spec top))
      (ClarificationEngine.apply_answers state answers).
Proof.
  intros Hc. unfold MetricAgent.clarify. rewrite (apply_answers_frame state answers).
  cbn. rewrite Hc. reflexivity.
Qed.

(** X24: [clarify] undoes an expert's choice: after an expert decision
    for a candidate other than the first, a later [clarify], even one with
    no answers, selects the specification of the first candidate again; the
    session stays cleared of expert routing. *)
Theorem clarify_overrides_decision
  (agent : MetricAgent.t) (state : SessionState.t) (chosen top : Candidate.t)
  (rest : list Candidate.t) (answers : list ClarificationAnswer.t)
  (Hcandidates : SessionState.candidates state = top :: rest) :
  let decided := MetricAgent.apply_expert_decision agent state (Some chosen) in
  let clarified := MetricAgent.clarify agent decided answers in
  SessionState.selected_spec decided = Some (Candidate.spec chosen)
  /\ SessionState.selected_spec clarified = Some (Candidate.spec top)
  /\ SessionState.route_expert clarified = false
  /\ fst (MetricAgent.generate_sql agent clarified)
     = SQLGenerator.render (Candidate.spec top) clarified.
Proof.
  cbv zeta.
  destruct (expert_decision_frame agent state (Some chosen) top rest Hcandidates) as (-> & _ & _).
  rewrite (clarify_with_candidates agent
             (SessionState.set_route_expert false
                (SessionState.set_selected_spec (Some (Candidate.spec chosen)) state))
             answers top rest Hcandidates).
  rewrite apply_answers_frame. repeat split.
Qed.

Lemma clarify_overrides_decision_demo :
  let chosen := Candidate.mk SampleData.settle_spec PyFloat.f1_0 in
  let decided := MetricAgent.apply_expert_decision SampleData.demo_agent demo_session (Some chosen) in
  SessionState.selected_spec decided = Some SampleData.settle_spec
  /\ SessionState.selected_spec (MetricAgent.clarify SampleData.demo_agent decided [])
     = Some SampleData.gmv_spec.
Proof.
  intros chosen decided.
  destruct (clarify_overrides_decision SampleData.demo_agent demo_session chosen
              (Candidate.mk SampleData.gmv_spec
                 (CandidateSelector._score_spec SampleData.gmv_spec {[ "gmv" ]}))
              (tl (SessionState.candidates demo_session)) [])
    as (H1 & H2 & _).
  - vm_compute. reflexivity.
  - split; [exact H1 | exact H2].
Defined.

(** ** demo.py *)

Lemma next_questions_recommended (engine : ClarificationEngine.t) (state : SessionState.t) :
  Forall (fun q => exists v, ClarificationQuestion.recommended q = Some v
                             /\ Str.truthy v = true)
         (ClarificationEngine.next_questions engine state).
Proof.
  apply List.Forall_forall. intros q Hq.
  destruct (next_questions_ranked _ _ _ Hq) as [gain Hin].
  pose proof (ranked_items state) as F. rewrite List.Forall_forall in F.
  destruct (F _ Hin) as (_ & bank & Hbank & Eq). cbn [snd] in Eq. rewrite Eq. cbn.
  apply recommended_value_bank, in_map, Hbank.
Qed.

Lemma answers_for_recommended (questions : list ClarificationQuestion.t) :
  Forall (fun q => exists v, ClarificationQuestion.recommended q = Some v
                             /\ Str.truthy v = true) questions ->
  exists answers, Demo.answers_for questions = Returns answers.
Proof.
  induction 1 as [|q questions (v & Ev & Tv) _ (answers & IH)]; [eexists; reflexivity|].
  cbn [Demo.answers_for]. unfold Demo.answer_for. rewrite Ev, Tv, IH. eexists. reflexivity.
Qed.

(** X25: the session part of the demo, for any agent and query.  If the
    catalog gives no candidate the run ends with the error of the missing
    selection.  Otherwise the answer list is always built (every question
    asked has a recommended value), the session reaches [generate_sql] with
    the specification of the top candidate selected, by the gate, by the
    expert decision or by the clarification, and the result is the rendering
    of that specification; the candidates are those of the start, and a
    conflict notice of the start is still pending. *)
Theorem demo_selects_top (agent : MetricAgent.t) (session_id query : string) :
  let start := MetricAgent.start_session agent session_id query "alice" false in
  match SessionState.candidates start with
  | [] =>
    Demo.run agent session_id query
    = Raises (ValueError "No spec selected; cannot generate SQL")
  | top :: _ =>
    exists session,
      Demo.prepare agent session_id query = Returns session
      /\ SessionState.selected_spec session = Some (Candidate.spec top)
      /\ SessionState.candidates session = SessionState.candidates start
      /\ SessionState.conflict session = SessionState.conflict start
      /\ Demo.run agent session_id query = SQLGenerator.render (Candidate.spec top) session
  end.
Proof.
  cbv zeta. unfold Demo.run, Demo.prepare.
  pose proof (start_session_selection agent session_id query "alice" false) as Hshape.
  cbv zeta in Hshape.
  set (start := MetricAgent.start_session agent session_id query "alice" false) in *.
  destruct (SessionState.candidates start) as [|top rest] eqn:Hc.
  - destruct Hshape as (Hsel & Hroute & _). rewrite Hroute.
    rewrite (apply_expert_decision_without_candidates agent start None Hc).
    unfold UncertaintyGate.needs_clarification. rewrite Hsel.
    unfold ClarificationEngine.next_questions.
    rewrite (ranked_without_candidates start Hc Hsel). cbn [sort_desc].
    destruct (slice_to_prefix (ClarificationEngine.max_questions (MetricAgent.clarifier agent))
                (@nil (Z * ClarificationQuestion.t))) as [n ->].
    rewrite firstn_nil. cbn [map Demo.answers_for].
    unfold MetricAgent.clarify, ClarificationEngine.apply_answers. cbn [fold_left].
    rewrite Hc. unfold MetricAgent.generate_sql. rewrite Hsel. reflexivity.
  - destruct Hshape as (Hsel & _).
    destruct (SessionState.route_expert start) eqn:Hroute.
    + destruct (expert_decision_frame agent start None top rest Hc) as (E & Hc' & Hconf).
      rewrite E. cbn [UncertaintyGate.needs_clarification SessionState.selected_spec
                      SessionState.set_route_expert SessionState.set_selected_spec].
      eexists. split; [reflexivity|]. cbn. repeat split; assumption.
    + unfold UncertaintyGate.needs_clarification.
      destruct Hsel as [Hsel|Hsel]; rewrite Hsel.
      * destruct (answers_for_recommended _
                    (next_questions_recommended (MetricAgent.clarifier agent) start))
          as [answers ->].
        rewrite (clarify_with_candidates agent start answers top rest Hc).
        rewrite (apply_answers_frame start answers).
        eexists. split; [reflexivity|]. cbn. repeat split; assumption.
      * exists start. split; [reflexivity|]. split; [exact Hsel|].
        split; [exact Hc|]. split; [reflexivity|].
        unfold MetricAgent.generate_sql. rewrite Hsel. reflexivity.
Qed.

(** ** sql_generator.py: the placeholders of a template override *)

Lemma field_value_key_error (name key : string) (kwargs : list (string * string)) :
  PyFormat.field_value name kwargs = Raises (KeyError key) ->
  key = name /\ PyFormat.lookup name kwargs = None.
Proof.
  unfold PyFormat.field_value.
  destruct (negb (PyFormat.plain_name name)); [discriminate|].
  destruct (PyFormat.all_digits name).
  - destruct (String.length name <=? 18)%nat; discriminate.
  - destruct (PyFormat.lookup name kwargs); [discriminate|]. intros [= <-]. now split.
Qed.

(** A [KeyError] of [str.format] names a replacement field of the template
    that is no keyword argument. *)
Lemma scan_key_error (kwargs : list (string * string)) (key : string) (template : string) :
  forall (m : PyFormat.mode) (out : string),
    PyFormat.scan kwargs m template out = Raises (KeyError key) ->
    PyFormat.lookup key kwargs = None
    /\ match m with
       | PyFormat.Field name =>
         (exists mid post, template = mid ++ String PyFormat.rbrace post /\ key = name ++ mid)
         \/ Str.contains (String PyFormat.lbrace (key ++ String PyFormat.rbrace "")) template
            = true
       | PyFormat.Opened =>
         (exists mid post, template = mid ++ String PyFormat.rbrace post /\ key = mid)
         \/ Str.contains (String PyFormat.lbrace (key ++ String PyFormat.rbrace "")) template
            = true
       | _ =>
         Str.contains (String PyFormat.lbrace (key ++ String PyFormat.rbrace "")) template = true
       end.
Proof.
  induction template as [|c rest IH]; intros m out H.
  - destruct m; cbn in H; discriminate.
  - destruct m as [| |name|]; cbn [PyFormat.scan] in H.
    + (* Text *)
      destruct (Ascii.eqb_spec c PyFormat.lbrace) as [->|_].
      * destruct (IH _ _ H) as [Hl [(mid & post & -> & ->)|Hc]]; split; try exact Hl.
        -- replace (String PyFormat.lbrace (mid ++ String PyFormat.rbrace post))
             with ("" ++ String PyFormat.lbrace (mid ++ String PyFormat.rbrace "") ++ post).
           ++ apply contains_app.
           ++ change ("" ++ String PyFormat.lbrace (mid ++ String PyFormat.rbrace "") ++ post)
                with (String PyFormat.lbrace ((mid ++ String PyFormat.rbrace "") ++ post)).
              rewrite append_assoc. reflexivity.
        -- rewrite contains_cons, Hc. apply orb_true_r.
      * destruct (Ascii.eqb c PyFormat.rbrace);
          destruct (IH _ _ H) as [Hl Hc]; (split; [exact Hl|]);
          rewrite contains_cons, Hc; apply orb_true_r.
    + (* Opened *)
      destruct (Ascii.eqb_spec c PyFormat.lbrace) as [->|_].
      * destruct (IH _ _ H) as [Hl Hc]. split; [exact Hl|]. right.
        rewrite contains_cons, Hc. apply orb_true_r.
      * destruct (Ascii.eqb_spec c PyFormat.rbrace) as [->|_].
        -- destruct (PyFormat.field_value "" kwargs) as [v|e|] eqn:F; [| |discriminate].
           ++ destruct (IH _ _ H) as [Hl Hc]. split; [exact Hl|]. right.
              rewrite contains_cons, Hc. apply orb_true_r.
           ++ injection H as ->. apply field_value_key_error in F as [-> Hl].
              split; [exact Hl|]. left. exists "", rest. split; reflexivity.
        -- destruct (IH _ _ H) as [Hl [(mid & post & -> & ->)|Hc]]; (split; [exact Hl|]).
           ++ left. exists (String c mid), post. split; reflexivity.
           ++ right. rewrite contains_cons, Hc. apply orb_true_r.
    + (* Field *)
      destruct (Ascii.eqb_spec c PyFormat.rbrace) as [->|_].
      * destruct (PyFormat.field_value name kwargs) as [v|e|] eqn:F; [| |discriminate].
        -- destruct (IH _ _ H) as [Hl Hc]. split; [exact Hl|]. right.
           rewrite contains_cons, Hc. apply orb_true_r.
        -- injection H as ->. apply field_value_key_error in F as [-> Hl].
           split; [exact Hl|]. left. exists "", rest. split; [reflexivity|].
           now rewrite append_empty_r.
      * destruct (Ascii.eqb c PyFormat.lbrace).
        -- destruct (PyFormat.plain_name name); discriminate.
        -- destruct (IH _ _ H) as [Hl [(mid & post & -> & ->)|Hc]]; (split; [exact Hl|]).
           ++ left. exists (String c mid), post. split; [reflexivity|].
              unfold PyFormat.snoc. rewrite append_assoc. reflexivity.
           ++ right. rewrite contains_cons, Hc. apply orb_true_r.
    + (* Closed *)
      destruct (Ascii.eqb c PyFormat.rbrace); [|discriminate].
      destruct (IH _ _ H) as [Hl Hc]. split; [exact Hl|].
      rewrite contains_cons, Hc. apply orb_true_r.
Qed.

(** X26: when rendering fails with a [KeyError], the specification has a
    template override, the key is a placeholder written in it between
    braces, and it is none of the five names the renderer supplies:
    where_clause, time_bucket, fact_table, time_column, measure_column. *)
Theorem render_key_error (spec : MetricSpec.t) (state : SessionState.t) (key : string)
  (Hraises : SQLGenerator.render spec state = Raises (KeyError key)) :
  (exists override,
     PhysicalMapping.sql_template (MetricSpec.physical spec) = Some override
     /\ Str.contains ("{" ++ key ++ "}") override = true)
  /\ ~ In key ["where_clause"; "time_bucket"; "fact_table"; "time_column"; "measure_column"].
Proof.
  unfold SQLGenerator.render, PyFormat.format in Hraises.
  destruct (scan_key_error _ _ _ _ _ Hraises) as [Hlookup Hin].
  split.
  - unfold SQLGenerator.template in Hin, Hraises.
    assert (Hdefault : PyFormat.scan
              (("where_clause", SQLGenerator.where_clause spec state) :: SQLGenerator.slots spec)
              PyFormat.Text SQLGenerator.default_template "" <> Raises (KeyError key)).
    { unfold SQLGenerator.slots.
      pose proof (format_default_template
                    (Grain.time_granularity (Semantics.grain (MetricSpec.semantics spec)))
                    (PhysicalMapping.fact_table (MetricSpec.physical spec))
                    (PhysicalMapping.time_column (MetricSpec.physical spec))
                    (PhysicalMapping.measure_column (MetricSpec.physical spec))
                    (SQLGenerator.where_clause spec state)) as E.
      unfold PyFormat.format in E. rewrite E. discriminate. }
    destruct (PhysicalMapping.sql_template (MetricSpec.physical spec)) as [override|];
      [|contradiction].
    destruct (Str.truthy override); [|contradiction].
    exists override. split; [reflexivity|]. exact Hin.
  - unfold SQLGenerator.slots in Hlookup. cbn [PyFormat.lookup] in Hlookup.
    intros [<-|[<-|[<-|[<-|[<-|[]]]]]]; cbn in Hlookup; discriminate.
Qed.

Lemma render_key_error_demo :
  Str.contains "{metric}"
    "SELECT {time_bucket}, SUM({measure_column}) AS {metric} FROM {fact_table}" = true
  /\ ~ In "metric" ["where_clause"; "time_bucket"; "fact_table"; "time_column"; "measure_column"].
Proof.
  destruct (render_key_error templated_spec demo_session "metric") as [(override & E & Hc) Hn].
  - vm_compute. reflexivity.
  - injection E as <-. split; [exact Hc | exact Hn].
Defined.
